(** * boe.py: bulk download of the daily BOE summaries

    A shallow embedding of [src/boe.py] and the properties of its
    retry loops, day processor and orchestrator.

    The program talks to three outside parties: the network (httpx), the
    filesystem (pathlib) and the event loop (asyncio).  The embedding makes
    them explicit: the coroutines are written as trees of I/O requests
    ([prog]), an interpreter runs a tree against a [world] that holds the
    filesystem, an oracle answering every network request, and the trace
    of everything that happened. *)

From Stdlib Require Import ZArith List Ascii String Permutation.
From Stdlib.Strings Require Import Byte.
From stdpp Require Import base option list gmap strings fin_maps.
From Equations Require Import Equations.

#[local] Set Warnings "-register-all".

Local Open Scope string_scope.
Local Open Scope list_scope.
Local Open Scope Z_scope.

(** ** Module constants (boe.py lines 9-14) *)

Definition API_URL_prefix : string :=
  "https://www.boe.es/datosabiertos/api/boe/sumario/".
Definition START_DATE_ordinal : Z := 715876.
Definition CONCURRENT_LIMIT : Z := 50.
Definition MAX_RETRIES : Z := 3.
Definition RETRY_DELAY : Z := 30.

(** ** Python values

    The values [response.json()] can return.  A float is kept only up to
    its truth value, the one thing the program observes of it. *)

Inductive pyval : Type :=
| PNone
| PBool (b : bool)
| PInt (n : Z)
| PFloat (nonzero : bool)
| PStr (s : string)
| PList (items : list pyval)
| PDict (items : list (string * pyval)).

(** Truth value of a Python object, as the walrus test of line 77 uses it. *)
Definition truthy (v : pyval) : bool :=
  match v with
  | PNone => false
  | PBool b => b
  | PInt n => negb (n =? 0)
  | PFloat nz => nz
  | PStr s => negb (String.eqb s "")
  | PList l => match l with [] => false | _ => true end
  | PDict l => match l with [] => false | _ => true end
  end.

Definition isinstance_list (v : pyval) : bool :=
  match v with PList _ => true | _ => false end.

Definition is_None (v : pyval) : bool :=
  match v with PNone => true | _ => false end.

(** ** Exceptions *)

Inductive exn : Type :=
| HTTPStatusError (status : Z)      (* httpx.HTTPStatusError, from raise_for_status *)
| TransportError (msg : string)     (* httpx.TransportError: timeouts, connection and protocol errors *)
| InvalidURL (msg : string)         (* httpx.InvalidURL: an Exception, not an httpx.HTTPError *)
| TypeError (msg : string)
| AttributeError (msg : string)
| JSONDecodeError
| OSError (msg : string)
| ValueError (msg : string)
| KeyError (key : string)
| OverflowError (msg : string).

(** [isinstance(e, httpx.HTTPError)]; httpx.RemoteProtocolError is one of
    the transport errors, so the tuple of line 59 catches the same class. *)
Definition is_HTTPError (e : exn) : bool :=
  match e with
  | HTTPStatusError _ | TransportError _ => true
  | _ => false
  end.

Definition is_FileNotFoundError (e : exn) : bool :=
  match e with
  | OSError m => String.eqb m "FileNotFoundError"
  | _ => false
  end.

Inductive outcome (A : Type) : Type :=
| Returned (a : A)
| Raised (e : exn).
Arguments Returned {A} a.
Arguments Raised {A} e.

(** ** Dates

    A naive [datetime] is its proleptic Gregorian ordinal
    ([date.toordinal()], day 1 is 0001-01-01) and the microsecond of the
    day.  [datetime] orders its values by date first, then time. *)

Record datetime : Type := mkDatetime { ordinal : Z; usec : Z }.

Definition MAXORDINAL : Z := 3652059.

Definition datetime_le (a b : datetime) : bool :=
  (ordinal a <? ordinal b) || ((ordinal a =? ordinal b) && (usec a <=? usec b)).

Definition datetime_gt (a b : datetime) : bool := negb (datetime_le a b).

(** [d + timedelta(days=1)]: OverflowError beyond 9999-12-31. *)
Definition add_one_day (d : datetime) : exn + datetime :=
  if ordinal d + 1 >? MAXORDINAL
  then inl (OverflowError "date value out of range")
  else inr (mkDatetime (ordinal d + 1) (usec d)).

(** The standard library's conversion of an ordinal to year, month, day. *)
Definition DAYS_IN_MONTH (m : Z) : Z :=
  match m with
  | 1 => 31 | 2 => 28 | 3 => 31 | 4 => 30 | 5 => 31 | 6 => 30
  | 7 => 31 | 8 => 31 | 9 => 30 | 10 => 31 | 11 => 30 | 12 => 31
  | _ => -1
  end.

Definition DAYS_BEFORE_MONTH (m : Z) : Z :=
  match m with
  | 1 => 0 | 2 => 31 | 3 => 59 | 4 => 90 | 5 => 120 | 6 => 151
  | 7 => 181 | 8 => 212 | 9 => 243 | 10 => 273 | 11 => 304 | 12 => 334
  | _ => -1
  end.

Definition DI400Y : Z := 146097.
Definition DI100Y : Z := 36524.
Definition DI4Y : Z := 1461.

Definition b2z (b : bool) : Z := if b then 1 else 0.

Definition ord2ymd (n0 : Z) : Z * Z * Z :=
  let n := n0 - 1 in
  let n400 := n / DI400Y in
  let n := n mod DI400Y in
  let year := n400 * 400 + 1 in
  let n100 := n / DI100Y in
  let n := n mod DI100Y in
  let n4 := n / DI4Y in
  let n := n mod DI4Y in
  let n1 := n / 365 in
  let n := n mod 365 in
  let year := year + n100 * 100 + n4 * 4 + n1 in
  if (n1 =? 4) || (n100 =? 4) then (year - 1, 12, 31)
  else
    let leapyear := (n1 =? 3) && (negb (n4 =? 24) || (n100 =? 3)) in
    let month := Z.shiftr (n + 50) 5 in
    let preceding := DAYS_BEFORE_MONTH month + b2z ((month >? 2) && leapyear) in
    if preceding >? n then
      let month := month - 1 in
      let preceding :=
        preceding - (DAYS_IN_MONTH month + b2z ((month =? 2) && leapyear)) in
      (year, month, n - preceding + 1)
    else (year, month, n - preceding + 1).

Definition year_of (d : datetime) : Z := fst (fst (ord2ymd (ordinal d))).
Definition month_of (d : datetime) : Z := snd (fst (ord2ymd (ordinal d))).
Definition day_of (d : datetime) : Z := snd (ord2ymd (ordinal d)).

(** Zero-padded decimal fields of [strftime]: [%Y] on four digits (as the
    library documents it for years 1 to 9999), [%m] and [%d] on two. *)
Definition digit_char (n : Z) : ascii :=
  ascii_of_nat (48 + Z.to_nat (n mod 10)).

Definition fmt2 (n : Z) : string :=
  String (digit_char (n / 10)) (String (digit_char n) EmptyString).

Definition fmt4 (n : Z) : string :=
  String (digit_char (n / 1000)) (String (digit_char (n / 100)) (fmt2 n)).

(** [date.strftime("%Y%m%d")] *)
Definition strftime_Ymd (d : datetime) : string :=
  fmt4 (year_of d) ++ fmt2 (month_of d) ++ fmt2 (day_of d).

(** [date.strftime("%Y/%m/%d")] *)
Definition strftime_Y_m_d (d : datetime) : string :=
  fmt4 (year_of d) ++ "/" ++ fmt2 (month_of d) ++ "/" ++ fmt2 (day_of d).

(** [API_URL.format(date=date_str)] *)
Definition api_url (date_str : string) : string := API_URL_prefix ++ date_str.

(** ** Paths

    A [pathlib] path is its tuple of parts; an absolute path starts with
    the part "/".  [p / s] parses [s] into parts, dropping empty and "."
    segments, and restarts from the root when [s] is absolute. *)

Definition Path : Type := list string.

Fixpoint split_slash (acc : string) (s : string) : list string :=
  match s with
  | EmptyString => [acc]
  | String c rest =>
      if Ascii.eqb c "/"%char then acc :: split_slash EmptyString rest
      else split_slash (acc ++ String c EmptyString) rest
  end.

Definition keep_part (s : string) : bool :=
  negb (String.eqb s "") && negb (String.eqb s ".").

Definition parse_parts (s : string) : list string :=
  List.filter keep_part (split_slash EmptyString s).

Definition is_absolute (s : string) : bool :=
  match s with
  | String c _ => Ascii.eqb c "/"%char
  | EmptyString => false
  end.

Definition path_div (p : Path) (s : string) : Path :=
  if is_absolute s then "/" :: parse_parts s else p ++ parse_parts s.

Definition is_root (p : Path) : bool :=
  match p with
  | [] => true
  | [r] => String.eqb r "/"
  | _ => false
  end.

(** [path.parent]; the root and the empty path are their own parent. *)
Definition path_parent (p : Path) : Path :=
  if is_root p then p else removelast p.

(** [output_dir / date.strftime("%Y/%m/%d") / "boe.pdf"] (lines 41 and 84) *)
Definition pdf_path_of (output_dir : Path) (date : datetime) : Path :=
  path_div (path_div output_dir (strftime_Y_m_d date)) "boe.pdf".

(** ** The outside world *)

(** An [httpx.Response], as far as the program reads it: the status code,
    the body, and what [response.json()] gives ([None] when the body is
    not JSON and the call raises). *)
Record Response : Type := mkResponse {
  status_code : Z;
  content : list byte;
  json : option pyval
}.

(** What awaiting [session.get] comes back with. *)
Inductive get_result : Type :=
| GotResponse (r : Response)
| GetRaises (e : exn).

Definition headers : Type := list (string * string).

(** Console lines.  The text is kept as its arguments; the elapsed times of
    the progress and completion lines are wall-clock readings and left out. *)
Inductive message : Type :=
| MsgFailedAfter (retries : Z) (date_str : string) (e : exn)
| MsgFailedDownload (identifier : pyval) (date_str : string) (e : exn)
| MsgProcessing (days : nat) (start_date end_date : datetime)
| MsgProgress (done total : nat)
| MsgCompleted
| MsgDownloaded (n : Z)
| MsgCached (n : Z)
| MsgNoBoe (n : Z)
| MsgErrors (n : Z).

Inductive fnode : Type :=
| File (data : list byte)
| Dir.

(** The requests a coroutine makes of its environment, indexed by the type
    of the answer. *)
Inductive io : Type -> Type :=
| PathExists (p : Path) : io bool
| SessionGet (url : string) (hs : headers) : io get_result
| Sleep (secs : Z) : io unit
| PathMkdir (p : Path) (parents exist_ok : bool) : io (option exn)
| WriteBytes (p : Path) (data : list byte) : io (option exn)
| Print (m : message) : io unit.

Inductive event : Type :=
| EvExists (p : Path) (b : bool)
| EvGet (url : string) (hs : headers) (res : get_result)
| EvSleep (secs : Z)
| EvMkdir (p : Path) (res : option exn)
| EvWrite (p : Path) (data : list byte) (res : option exn)
| EvPrint (m : message).

(** The filesystem maps a path to what is there.  The empty path (the
    working directory) and "/" are directories and need no entry.  The
    oracle [net] answers the [n]-th request of the run. *)
Record world : Type := mkWorld {
  fs : gmap (list string) fnode;
  net : nat -> string -> headers -> get_result;
  clock : nat;
  trace : list event
}.

Definition fs_exists (f : gmap (list string) fnode) (p : Path) : bool :=
  is_root p || match f !! p with Some _ => true | None => false end.

Definition fs_is_dir (f : gmap (list string) fnode) (p : Path) : bool :=
  is_root p || match f !! p with Some Dir => true | _ => false end.

(** The walk of the system along the directories above the last part of
    a path, from [done] on: the first one that is missing or is no
    directory decides the error. *)
Fixpoint walk (f : gmap (list string) fnode) (done : Path) (rest : list string)
  : option exn :=
  match rest with
  | [] => None
  | [_] => None
  | part :: rest' =>
      let q := done ++ [part] in
      if fs_is_dir f q then walk f q rest'
      else if fs_exists f q then Some (OSError "NotADirectoryError")
      else Some (OSError "FileNotFoundError")
  end.

(** [os.mkdir(p)] *)
Definition os_mkdir (p : Path) (f : gmap (list string) fnode)
  : exn + gmap (list string) fnode :=
  match walk f [] p with
  | Some e => inl e
  | None =>
      if fs_exists f p then inl (OSError "FileExistsError")
      else inr (<[p := Dir]> f)
  end.

(** [Path.mkdir(parents, exist_ok)] of pathlib: try [os.mkdir]; when the
    parent is missing and [parents] is set, make the parent first; when the
    path is there already, accept a directory if [exist_ok] is set.  The
    recursion goes up the path, so [n] is its number of parts. *)
Fixpoint path_mkdir_rec (n : nat) (parents exist_ok : bool) (p : Path)
    (f : gmap (list string) fnode) : exn + gmap (list string) fnode :=
  match os_mkdir p f with
  | inr f' => inr f'
  | inl e =>
      if is_FileNotFoundError e then
        if negb parents || is_root p then inl e
        else match n with
             | O => inl e
             | S n' =>
                 match path_mkdir_rec n' true true (path_parent p) f with
                 | inl e' => inl e'
                 | inr f1 => path_mkdir_rec n' false exist_ok p f1
                 end
             end
      else if negb exist_ok || negb (fs_is_dir f p) then inl e
      else inr f
  end.

Definition fs_mkdir (parents exist_ok : bool) (p : Path)
    (f : gmap (list string) fnode) : exn + gmap (list string) fnode :=
  path_mkdir_rec (length p) parents exist_ok p f.

(** [Path.write_bytes]: opens the file for writing, which creates it or
    empties it, and writes the content.  The errors are those of the open,
    which the tree decides.  A device that fails while the content is
    written (no space left, an I/O error) and leaves the file empty or
    partly written is not part of this model: what is proved of a write
    that fails is proved of a failing open. *)
Definition fs_write (p : Path) (data : list byte) (f : gmap (list string) fnode)
  : exn + gmap (list string) fnode :=
  match walk f [] p with
  | Some e => inl e
  | None =>
      if fs_is_dir f p then inl (OSError "IsADirectoryError")
      else inr (<[p := File data]> f)
  end.

Definition log (ev : event) (w : world) : world :=
  mkWorld (fs w) (net w) (clock w) (trace w ++ [ev]).

Definition set_fs (f : gmap (list string) fnode) (w : world) : world :=
  mkWorld f (net w) (clock w) (trace w).

Definition tick (w : world) : world :=
  mkWorld (fs w) (net w) (S (clock w)) (trace w).

(** One request, answered by the world. *)
Definition handle {X : Type} (op : io X) (w : world) : X * world :=
  match op in io T return T * world with
  | PathExists p =>
      let b := fs_exists (fs w) p in (b, log (EvExists p b) w)
  | SessionGet url hs =>
      let g := net w (clock w) url hs in (g, log (EvGet url hs g) (tick w))
  | Sleep secs => (tt, log (EvSleep secs) w)
  | PathMkdir p parents exist_ok =>
      match fs_mkdir parents exist_ok p (fs w) with
      | inr f' => (None, log (EvMkdir p None) (set_fs f' w))
      | inl e => (Some e, log (EvMkdir p (Some e)) w)
      end
  | WriteBytes p data =>
      match fs_write p data (fs w) with
      | inr f' => (None, log (EvWrite p data None) (set_fs f' w))
      | inl e => (Some e, log (EvWrite p data (Some e)) w)
      end
  | Print m => (tt, log (EvPrint m) w)
  end.

(** ** Coroutines as request trees *)

Inductive prog (A : Type) : Type :=
| Ret (a : A)
| Raise (e : exn)
| Vis {X : Type} (op : io X) (k : X -> prog A).
Arguments Ret {A} a.
Arguments Raise {A} e.
Arguments Vis {A X} op k.

Fixpoint bind {A B : Type} (p : prog A) (f : A -> prog B) : prog B :=
  match p with
  | Ret a => f a
  | Raise e => Raise e
  | Vis op k => Vis op (fun x => bind (k x) f)
  end.

#[export] Instance prog_ret : MRet prog := fun A a => Ret a.
#[export] Instance prog_bind : MBind prog := fun A B f p => bind p f.

(** [try: body  except <class> as e: handler e] *)
Fixpoint try_except {A : Type} (body : prog A) (catches : exn -> bool)
    (handler : exn -> prog A) : prog A :=
  match body with
  | Ret a => Ret a
  | Raise e => if catches e then handler e else Raise e
  | Vis op k => Vis op (fun x => try_except (k x) catches handler)
  end.

Definition call {X : Type} (op : io X) : prog X := Vis op Ret.

(** Running a coroutine to completion against the world. *)
Fixpoint run {A : Type} (p : prog A) (w : world) : outcome A * world :=
  match p with
  | Ret a => (Returned a, w)
  | Raise e => (Raised e, w)
  | Vis op k => let '(x, w') := handle op w in run (k x) w'
  end.

(** ** Library calls the program makes *)

Definition range (n : Z) : list Z := List.map Z.of_nat (seq 0 (Z.to_nat n)).

(** [await session.get(url, headers=...)].  httpx refuses a URL that is
    neither a string nor an [httpx.URL] with a TypeError before any
    request leaves. *)
Definition session_get (url : pyval) (hs : headers) : prog Response :=
  match url with
  | PStr s =>
      Vis (SessionGet s hs) (fun g =>
        match g with
        | GotResponse r => Ret r
        | GetRaises e => Raise e
        end)
  | _ => Raise (TypeError "Invalid type for url.  Expected str or httpx.URL")
  end.

Definition is_success (r : Response) : bool :=
  (200 <=? status_code r) && (status_code r <=? 299).

(** [response.raise_for_status()] *)
Definition raise_for_status (r : Response) : prog unit :=
  if is_success r then Ret tt else Raise (HTTPStatusError (status_code r)).

(** [response.json()] *)
Definition response_json (r : Response) : prog pyval :=
  match json r with
  | Some v => Ret v
  | None => Raise JSONDecodeError
  end.

Definition asyncio_sleep (secs : Z) : prog unit := call (Sleep secs).

Definition print (m : message) : prog unit := call (Print m).

Definition path_exists (p : Path) : prog bool := call (PathExists p).

Definition path_mkdir (p : Path) (parents exist_ok : bool) : prog unit :=
  Vis (PathMkdir p parents exist_ok) (fun r =>
    match r with None => Ret tt | Some e => Raise e end).

Definition path_write_bytes (p : Path) (data : list byte) : prog unit :=
  Vis (WriteBytes p data) (fun r =>
    match r with None => Ret tt | Some e => Raise e end).

Fixpoint dict_lookup (items : list (string * pyval)) (key : string) : option pyval :=
  match items with
  | [] => None
  | (k, v) :: rest => if String.eqb k key then Some v else dict_lookup rest key
  end.

(** [v.get(key, default)]: only a dict has the method. *)
Definition py_get (v : pyval) (key : string) (default : pyval) : prog pyval :=
  match v with
  | PDict items =>
      Ret (match dict_lookup items key with Some x => x | None => default end)
  | _ => Raise (AttributeError "object has no attribute 'get'")
  end.

(** ** download_pdf (lines 17-31) *)

(** The body of the [try] of lines 21-26. *)
Definition download_pdf_try (url : pyval) (path : Path) : prog unit :=
  response ← session_get url [];
  _ ← raise_for_status response;
  _ ← path_mkdir (path_parent path) true true;
  path_write_bytes path (content response).

(** The [for attempt in ...] loop; a [return] inside the [try] leaves it. *)
Fixpoint download_pdf_loop (attempts : list Z) (url : pyval) (path : Path)
  : prog unit :=
  match attempts with
  | [] => Ret tt
  | attempt :: rest =>
      try_except (download_pdf_try url path) is_HTTPError (fun e =>
        if attempt <? MAX_RETRIES - 1 then
          _ ← asyncio_sleep (RETRY_DELAY * (attempt + 1));
          download_pdf_loop rest url path
        else Raise e)
  end.

Definition download_pdf (url : pyval) (path : Path) : prog unit :=
  download_pdf_loop (range MAX_RETRIES) url path.

(** ** process_date (lines 34-92) *)

Definition accept_json : headers := [("Accept", "application/json")].

(** The body of the [try] of lines 49-58: [inl] is a [return] of the
    function, [inr] the value assigned to [data] before the [break]. *)
Definition summary_try (date_str : string) : prog ((Z * string) + pyval) :=
  response ← session_get (PStr (api_url date_str)) accept_json;
  if status_code response =? 404 then Ret (inl (0, "no_boe"))
  else
    _ ← raise_for_status response;
    data ← response_json response;
    Ret (inr data).

(** The loop of lines 47-64; [data] is the variable's value so far. *)
Fixpoint summary_loop (attempts : list Z) (date_str : string) (data : pyval)
  : prog ((Z * string) + pyval) :=
  match attempts with
  | [] => Ret (inr data)
  | attempt :: rest =>
      try_except (summary_try date_str) is_HTTPError (fun e =>
        if attempt <? MAX_RETRIES - 1 then
          _ ← asyncio_sleep (RETRY_DELAY * (attempt + 1));
          summary_loop rest date_str data
        else
          _ ← print (MsgFailedAfter MAX_RETRIES date_str e);
          Ret (inl (0, "error")))
  end.

(** The loop of lines 75-79. *)
Fixpoint extract_loop (diarios : list pyval) (pdfs : list (pyval * pyval))
  : prog (list (pyval * pyval)) :=
  match diarios with
  | [] => Ret pdfs
  | diario :: rest =>
      sumario ← py_get diario "sumario_diario" (PDict []);
      url_pdf ← py_get sumario "url_pdf" (PDict []);
      pdf_url ← py_get url_pdf "texto" PNone;
      if truthy pdf_url then
        identifier ← py_get sumario "identificador" (PStr "unknown");
        extract_loop rest (pdfs ++ [(pdf_url, identifier)])
      else extract_loop rest pdfs
  end.

(** Lines 70-79. *)
Definition extract_pdfs (data : pyval) : prog (list (pyval * pyval)) :=
  d ← py_get data "data" (PDict []);
  s ← py_get d "sumario" (PDict []);
  diarios ← py_get s "diario" (PList []);
  let diarios :=
    match diarios with
    | PList l => l
    | other => [other]
    end in
  extract_loop diarios [].

(** The loop of lines 83-90. *)
Fixpoint download_loop (output_dir : Path) (date : datetime) (date_str : string)
    (pdfs : list (pyval * pyval)) (downloaded : Z) : prog Z :=
  match pdfs with
  | [] => Ret downloaded
  | (pdf_url, identifier) :: rest =>
      let pdf_path := path_div (path_div output_dir (strftime_Y_m_d date)) "boe.pdf" in
      downloaded' ←
        try_except
          (_ ← download_pdf pdf_url pdf_path; Ret (downloaded + 1))
          (fun _ => true)
          (fun e => _ ← print (MsgFailedDownload identifier date_str e);
                    Ret downloaded);
      download_loop output_dir date date_str rest downloaded'
  end.

Definition process_date (date : datetime) (output_dir : Path)
  : prog (Z * string) :=
  let date_str := strftime_Ymd date in
  let pdf_path := path_div (path_div output_dir (strftime_Y_m_d date)) "boe.pdf" in
  cached ← path_exists pdf_path;
  if (cached : bool) then Ret (0, "cached")
  else
    r ← summary_loop (range MAX_RETRIES) date_str PNone;
    match r with
    | inl result => Ret result
    | inr data =>
        if is_None data then Ret (0, "error")
        else
          pdfs ← extract_pdfs data;
          downloaded ← download_loop output_dir date date_str pdfs 0;
          Ret (downloaded, "success")
    end.

(** ** download_boe_pdfs (lines 95-149) *)

Definition inspect {A : Type} (a : A) : { b : A | a = b } := exist _ a eq_refl.

(** The [while current <= end_date] loop of lines 102-106.  Every turn
    moves [current] one day closer to [end_date]. *)
Equations? generate_dates (current end_date : datetime) (dates : list datetime)
  : exn + list datetime
  by wf (Z.to_nat (ordinal end_date + 1 - ordinal current)) lt :=
  generate_dates current end_date dates
    with inspect (datetime_le current end_date) => {
    | exist _ false _ := inr dates;
    | exist _ true Hle with inspect (add_one_day current) => {
        | exist _ (inl e) _ := inl e;
        | exist _ (inr next) Hnext :=
            generate_dates next end_date (dates ++ [current]) } }.
Proof.
  unfold add_one_day in Hnext. unfold datetime_le in Hle.
  destruct (ordinal current + 1 >? MAXORDINAL); [discriminate|].
  injection Hnext as <-. simpl. lia.
Qed.

(** [stats[key] += v] and [stats[key]]: KeyError on a missing key. *)
Definition dict_iadd (key : string) (v : Z) (d : gmap string Z)
  : prog (gmap string Z) :=
  match d !! key with
  | Some x => Ret (<[key := x + v]> d)
  | None => Raise (KeyError key)
  end.

Definition dict_getitem (key : string) (d : gmap string Z) : prog Z :=
  match d !! key with
  | Some x => Ret x
  | None => Raise (KeyError key)
  end.

(** Line 112. *)
Definition initial_stats : gmap string Z :=
  <["downloaded" := 0]> (<["no_boe" := 0]> (<["errors" := 0]> (<["cached" := 0]> ∅))).

(** [asyncio.Semaphore(value)] refuses a negative value. *)
Definition new_semaphore (value : Z) : prog Z :=
  if value <? 0 then Raise (ValueError "Semaphore initial value must be >= 0")
  else Ret value.

(** Lines 99-116, up to the creation of the semaphore. *)
Definition setup (start_date end_date : datetime) (concurrency : Z)
    (output_dir : Path) : prog (list datetime * gmap string Z * Z) :=
  _ ← path_mkdir output_dir false true;
  dates ← match generate_dates start_date end_date [] with
          | inl e => Raise e
          | inr l => Ret l
          end;
  _ ← print (MsgProcessing (length dates) start_date end_date);
  let stats := initial_stats in
  sem ← new_semaphore concurrency;
  Ret (dates, stats, sem).

(** The loop of lines 127-142; [i] is the index [enumerate] hands out. *)
Fixpoint aggregate (i : Z) (total : nat) (results : list (Z * string))
    (stats : gmap string Z) : prog (gmap string Z) :=
  match results with
  | [] => Ret stats
  | (count, status) :: rest =>
      stats ← dict_iadd "downloaded" count stats;
      stats ← (if String.eqb status "no_boe" then dict_iadd "no_boe" 1 stats
               else if String.eqb status "error" then dict_iadd "errors" 1 stats
               else if String.eqb status "cached" then dict_iadd "cached" 1 stats
               else Ret stats);
      _ ← (if (i + 1) mod 365 =? 0
           then print (MsgProgress (Z.to_nat (i + 1)) total)
           else Ret tt);
      aggregate (i + 1) total rest stats
  end.

(** Lines 144-149. *)
Definition report (stats : gmap string Z) : prog unit :=
  _ ← print MsgCompleted;
  d ← dict_getitem "downloaded" stats;
  _ ← print (MsgDownloaded d);
  c ← dict_getitem "cached" stats;
  _ ← print (MsgCached c);
  n ← dict_getitem "no_boe" stats;
  _ ← print (MsgNoBoe n);
  e ← dict_getitem "errors" stats;
  print (MsgErrors e).

(** *** The event loop

    [asyncio.gather] turns every [process_with_limit(date)] into a task.
    A task waits for the semaphore, then runs [process_date] holding it,
    and gives it back when the coroutine returns or raises.  The event
    loop is a schedule: the list of the tasks it resumes, one request at a
    time.  (asyncio switches tasks at awaits only; a schedule may switch
    at any request, so the schedules cover every run of the event loop.) *)

Inductive task : Type :=
| Waiting (date : datetime)
| Running (p : prog (Z * string))
| Done (result : Z * string)
| Failed (e : exn).

Record loop_state : Type := mkLoop {
  sem_value : Z;
  tasks : list task;
  loop_world : world
}.

(** Resume task [i] for one step.  The exception, if any, is the one
    that leaves the task at this step. *)
Definition step_task (output_dir : Path) (i : nat) (c : loop_state)
  : option exn * loop_state :=
  match tasks c !! i with
  | None => (None, c)
  | Some (Waiting date) =>
      if 0 <? sem_value c
      then (None, mkLoop (sem_value c - 1)
                         (<[i := Running (process_date date output_dir)]> (tasks c))
                         (loop_world c))
      else (None, c)
  | Some (Running (Ret r)) =>
      (None, mkLoop (sem_value c + 1) (<[i := Done r]> (tasks c)) (loop_world c))
  | Some (Running (Raise e)) =>
      (Some e, mkLoop (sem_value c + 1) (<[i := Failed e]> (tasks c)) (loop_world c))
  | Some (Running (Vis op k)) =>
      let '(x, w') := handle op (loop_world c) in
      (None, mkLoop (sem_value c) (<[i := Running (k x)]> (tasks c)) w')
  | Some (Done _) => (None, c)
  | Some (Failed _) => (None, c)
  end.

(** The event loop going through a schedule.  [gather] is called without
    [return_exceptions]: the first exception that leaves a task is the
    one it raises, and the other tasks are not cancelled by it; they go
    on for the rest of the schedule, until the exception has reached
    [asyncio.run], which cancels what is still pending: a schedule that
    ends there is the run up to the cancellation.  Exceptions of later
    tasks are dropped.  On its way out the exception closes the client;
    what a request made after that comes back with is, as for every
    request, the answer of the oracle at that time. *)
Fixpoint run_schedule (output_dir : Path) (sched : list nat) (c : loop_state)
  : option exn * loop_state :=
  match sched with
  | [] => (None, c)
  | i :: rest =>
      match step_task output_dir i c with
      | (Some e, c') => (Some e, snd (run_schedule output_dir rest c'))
      | (None, c') => run_schedule output_dir rest c'
      end
  end.

(** The list [gather] returns once every task is done, in the order of
    the tasks. *)
Fixpoint gather_results (ts : list task) : option (list (Z * string)) :=
  match ts with
  | [] => Some []
  | Done r :: rest => (fun rs => r :: rs) <$> gather_results rest
  | _ :: _ => None
  end.

(** A task is in flight from the moment it has acquired the semaphore
    to the moment its coroutine has returned or raised. *)
Definition is_running (t : task) : bool :=
  match t with Running _ => true | _ => false end.

Definition in_flight (ts : list task) : nat :=
  length (List.filter is_running ts).

(** The whole coroutine under a schedule of the event loop.  [None] is a
    run still waiting in [gather] when the schedule ends.  When a task
    has raised, the run raises its exception, in the world the tasks have
    left at the end of the schedule. *)
Definition download_boe_pdfs (start_date end_date : datetime) (concurrency : Z)
    (output_dir : Path) (sched : list nat) (w : world)
  : option (outcome unit) * world :=
  match run (setup start_date end_date concurrency output_dir) w with
  | (Raised e, w1) => (Some (Raised e), w1)
  | (Returned (dates, stats, sem), w1) =>
      match run_schedule output_dir sched
              (mkLoop sem (List.map Waiting dates) w1) with
      | (Some e, c) => (Some (Raised e), loop_world c)
      | (None, c) =>
          match gather_results (tasks c) with
          | None => (None, loop_world c)
          | Some results =>
              let '(o, w2) :=
                run (stats ← aggregate 0 (length dates) results stats;
                     report stats) (loop_world c) in
              (Some o, w2)
          end
      end
  end.


(** ** Reading a trace *)

(** The network requests of a list of events, in order. *)
Definition requests (evs : list event) : list (string * headers) :=
  omap (fun ev => match ev with
                  | EvGet url hs _ => Some (url, hs)
                  | _ => None
                  end) evs.

(** The delays slept, in order. *)
Definition sleeps (evs : list event) : list Z :=
  omap (fun ev => match ev with
                  | EvSleep secs => Some secs
                  | _ => None
                  end) evs.

(** The contents of the writes that went through, in order. *)
Definition written (evs : list event) : list (list byte) :=
  omap (fun ev => match ev with
                  | EvWrite _ data None => Some data
                  | _ => None
                  end) evs.

(** The content of the last write that went through. *)
Definition last_written (evs : list event) : option (list byte) :=
  last (written evs).

(** The exception a request ends in when it fails the way the retry loops
    catch: an [httpx.HTTPError] from the transport, or a status outside
    2xx turned into one by [raise_for_status]. *)
Definition get_failure (g : get_result) : option exn :=
  match g with
  | GetRaises e => if is_HTTPError e then Some e else None
  | GotResponse r =>
      if is_success r then None else Some (HTTPStatusError (status_code r))
  end.

Definition is_404 (g : get_result) : bool :=
  match g with
  | GotResponse r => status_code r =? 404
  | GetRaises _ => false
  end.

(** ** Worlds along a run *)

(** The world after request number [clock w] has been answered. *)
Definition after_get (url : string) (hs : headers) (w : world) : world :=
  log (EvGet url hs (net w (clock w) url hs)) (tick w).

(** What the filesystem part of a download does once the body is there. *)
Definition store (path : Path) (data : list byte) (w : world) : outcome unit * world :=
  match fs_mkdir true true (path_parent path) (fs w) with
  | inl e => (Raised e, log (EvMkdir (path_parent path) (Some e)) w)
  | inr f1 =>
      let w1 := log (EvMkdir (path_parent path) None) (set_fs f1 w) in
      match fs_write path data f1 with
      | inl e => (Raised e, log (EvWrite path data (Some e)) w1)
      | inr f2 => (Returned tt, log (EvWrite path data None) (set_fs f2 w1))
      end
  end.

(** The events of requests that fail one after the other, each followed by
    the sleep the retry loops take before the next attempt; [attempt] is
    the loop variable at the first of them. *)
Fixpoint retry_events (url : string) (hs : headers) (attempt : Z)
    (gs : list get_result) : list event :=
  match gs with
  | [] => []
  | g :: rest =>
      EvGet url hs g :: EvSleep (RETRY_DELAY * (attempt + 1))
        :: retry_events url hs (attempt + 1) rest
  end.

(** The oracle answers the next requests for [url] with [gs], in order. *)
Definition answers (w : world) (url : string) (hs : headers)
    (gs : list get_result) : Prop :=
  forall (i : nat) (g : get_result),
    gs !! i = Some g -> net w (i + clock w)%nat url hs = g.

(** ** Sums over day outcomes *)

(** The statistics dictionary with the four keys line 112 creates. *)
Definition stats_of (downloaded no_boe errors cached : Z) : gmap string Z :=
  <["downloaded" := downloaded]>
    (<["no_boe" := no_boe]> (<["errors" := errors]> (<["cached" := cached]> ∅))).

(** The sum of the counts of a list of day outcomes. *)
Definition total_downloaded (results : list (Z * string)) : Z :=
  foldr Z.add 0 (List.map fst results).

(** The number of day outcomes with a given status tag. *)
Definition tally (status : string) (results : list (Z * string)) : Z :=
  Z.of_nat (length (List.filter (fun r => String.eqb (snd r) status) results)).

(** What a download to [path] may do to the filesystem: write [path] and
    make its parent directory. *)
Definition event_ok (path : Path) (ev : event) : Prop :=
  match ev with
  | EvWrite p _ _ => p = path
  | EvMkdir p _ => p = path_parent path
  | _ => True
  end.

(** [w'] comes after [w] by the events [evs], which touch the filesystem
    only as a download to [path] may; the oracle is the same, and [path]
    holds what was last written to it, if anything was. *)
Definition tracks (path : Path) (w w' : world) (evs : list event) : Prop :=
  trace w' = trace w ++ evs /\
  net w' = net w /\
  Forall (event_ok path) evs /\
  fs w' !! path =
    match last_written evs with
    | Some data => Some (File data)
    | None => fs w !! path
    end.

(** One write when a download returns, none when it raises. *)
Definition one_write (o : outcome unit) (evs : list event) : Prop :=
  match o with
  | Returned _ => exists data, written evs = [data]
  | Raised _ => written evs = []
  end.

(** ** The entries of a day and what becomes of them *)

(** What becomes of an entry in a run: its body is stored, from the
    response every request for its URL is answered with; or every request
    for its URL fails with the same answer, and the exception of the
    last attempt is reported. *)
Inductive fate : Type :=
| Stored (r : Response)
| Refused (g : get_result) (e : exn).

(** An entry: its URL, its identifier, and what becomes of it. *)
Definition entry : Type := string * pyval * fate.

Definition entry_url (en : entry) : string := fst (fst en).
Definition entry_identifier (en : entry) : pyval := snd (fst en).
Definition entry_fate (en : entry) : fate := snd en.

(** The oracle treats the entry as its fate says, at every request. *)
Definition fate_ok (oracle : nat -> string -> headers -> get_result)
    (en : entry) : Prop :=
  match entry_fate en with
  | Stored r =>
      is_success r = true /\
      forall n, oracle n (entry_url en) [] = GotResponse r
  | Refused g e =>
      get_failure g = Some e /\
      forall n, oracle n (entry_url en) [] = g
  end.

(** The events of the download of an entry to [path]: for a stored entry
    the request, the making of the directories and the write; for a
    refused one the three requests with the two sleeps between them, and
    the line that reports the failure. *)
Definition entry_events (path : Path) (date_str : string) (en : entry)
  : list event :=
  match entry_fate en with
  | Stored r =>
      [EvGet (entry_url en) [] (GotResponse r);
       EvMkdir (path_parent path) None;
       EvWrite path (content r) None]
  | Refused g e =>
      retry_events (entry_url en) [] 0 [g; g]
      ++ [EvGet (entry_url en) [] g;
          EvPrint (MsgFailedDownload (entry_identifier en) date_str e)]
  end.

(** The bodies of the stored entries, in order. *)
Definition stored_bodies (entries : list entry) : list (list byte) :=
  omap (fun en => match entry_fate en with
                  | Stored r => Some (content r)
                  | Refused _ _ => None
                  end) entries.

(** The filesystem after the bodies have been stored at [path] one after
    the other, as [download_pdf] stores them (lines 24-25), when every
    [mkdir] and every write goes through. *)
Fixpoint store_all (path : Path) (bodies : list (list byte))
    (f : gmap (list string) fnode) : option (gmap (list string) fnode) :=
  match bodies with
  | [] => Some f
  | data :: rest =>
      match fs_mkdir true true (path_parent path) f with
      | inl _ => None
      | inr f1 =>
          match fs_write path data f1 with
          | inl _ => None
          | inr f2 => store_all path rest f2
          end
      end
  end.

(** ** Sample worlds *)

Definition date_2024_01_07 : datetime := mkDatetime 738892 0.

Definition world_of (f : gmap (list string) fnode)
    (oracle : nat -> string -> headers -> get_result) : world :=
  mkWorld f oracle 0 [].

Definition net_always (g : get_result) : nat -> string -> headers -> get_result :=
  fun _ _ _ => g.

(** An oracle that answers the requests of a run from a script, in order,
    and with [default] once the script is over. *)
Definition net_script (script : list get_result) (default : get_result)
  : nat -> string -> headers -> get_result :=
  fun n _ _ => nth n script default.

Definition resp_404 : Response := mkResponse 404 [] None.

Definition timed_out : get_result := GetRaises (TransportError "timed out").

Definition resp_json (v : pyval) : Response := mkResponse 200 [] (Some v).

Definition pdf_bytes : list byte := [x25; x50; x44; x46].

Definition fs_with_artifact : gmap (list string) fnode :=
  <[["boe"; "2024"; "01"; "07"; "boe.pdf"] := File pdf_bytes]>
    (<[["boe"; "2024"; "01"; "07"] := Dir]>
      (<[["boe"; "2024"; "01"] := Dir]>
        (<[["boe"; "2024"] := Dir]> (<[["boe"] := Dir]> ∅)))).

(** An oracle that answers by URL. *)
Definition net_by_url (table : list (string * get_result)) (default : get_result)
  : nat -> string -> headers -> get_result :=
  fun _ url _ =>
    match List.find (fun e => String.eqb (fst e) url) table with
    | Some (_, g) => g
    | None => default
    end.

Definition diario_entry (url identifier : string) : pyval :=
  PDict [("sumario_diario",
          PDict [("identificador", PStr identifier);
                 ("url_pdf", PDict [("texto", PStr url)])])].

Definition url_a : string :=
  "https://www.boe.es/boe/dias/2024/01/07/pdfs/BOE-S-2024-7.pdf".
Definition url_b : string :=
  "https://www.boe.es/boe/dias/2024/01/07/pdfs/BOE-S-2024-8.pdf".

(** A summary with two entries. *)
Definition summary_two : pyval :=
  PDict [("data", PDict [("sumario", PDict [("diario",
    PList [diario_entry url_a "BOE-S-2024-7";
           diario_entry url_b "BOE-S-2024-8"])])])].

Definition bytes_a : list byte := [x25; x50; x44; x46; x41].
Definition bytes_b : list byte := [x25; x50; x44; x46; x42].

Definition api_2024_01_07 : string :=
  "https://www.boe.es/datosabiertos/api/boe/sumario/20240107".

(** Both artifacts can be fetched. *)
Definition world_two_entries : world :=
  world_of ∅
    (net_by_url [(api_2024_01_07, GotResponse (resp_json summary_two));
                 (url_a, GotResponse (mkResponse 200 bytes_a None));
                 (url_b, GotResponse (mkResponse 200 bytes_b None))]
                timed_out).

(** Every request for the second artifact times out. *)
Definition world_second_fails : world :=
  world_of ∅
    (net_by_url [(api_2024_01_07, GotResponse (resp_json summary_two));
                 (url_a, GotResponse (mkResponse 200 bytes_a None))]
                timed_out).

(** Every request for the first artifact times out. *)
Definition world_first_fails : world :=
  world_of ∅
    (net_by_url [(api_2024_01_07, GotResponse (resp_json summary_two));
                 (url_b, GotResponse (mkResponse 200 bytes_b None))]
                timed_out).

(** ** The dates of a run *)

(** [n] consecutive days from [d] on, at the time of day of [d]. *)
Definition days_from (d : datetime) (n : nat) : list datetime :=
  List.map (fun i => mkDatetime (ordinal d + Z.of_nat i) (usec d)) (seq 0 n).

(** The number of days [d] with [start <= d <= end_date] among the days
    [start], [start + 1 day], ...: the day of [end_date] counts when the
    time of day of [start] is not later than that of [end_date]. *)
Definition day_count (start end_date : datetime) : Z :=
  Z.max 0 (ordinal end_date - ordinal start +
           (if usec start <=? usec end_date then 1 else 0)).

(** ** The lines a run prints *)

(** The world after the events [evs], none of which touches the
    filesystem or the network. *)
Definition log_all (evs : list event) (w : world) : world :=
  mkWorld (fs w) (net w) (clock w) (trace w ++ evs).

(** The progress lines for the days [i + 1], ..., [i + n] of [total]: one
    for every multiple of 365 among them, in order. *)
Definition progress_lines (i : nat) (total n : nat) : list event :=
  List.map (fun k => EvPrint (MsgProgress (365 * k) total))
    (seq (i / 365 + 1) ((i + n) / 365 - i / 365)).

(** The five lines of the final report for a list of day outcomes. *)
Definition report_lines (results : list (Z * string)) : list event :=
  [EvPrint MsgCompleted;
   EvPrint (MsgDownloaded (total_downloaded results));
   EvPrint (MsgCached (tally "cached" results));
   EvPrint (MsgNoBoe (tally "no_boe" results));
   EvPrint (MsgErrors (tally "error" results))].

(** ** What a run does to the filesystem *)

(** How the entry at [q] may differ between [f] and [f'] when the events
    between them are [evs]: not at all; or it was missing and is now a
    directory, on the way to a directory some [mkdir] of [evs] made; or it
    is a file holding what some write of [evs] put there. *)
Definition touched (evs : list event) (f f' : gmap (list string) fnode)
    (q : Path) : Prop :=
  f' !! q = f !! q \/
  (f !! q = None /\ f' !! q = Some Dir /\
   exists p, In (EvMkdir p None) evs /\ q `prefix_of` p) \/
  (exists data, In (EvWrite q data None) evs /\ f' !! q = Some (File data)).

(** ** What a run costs *)


(** ** Summaries of the documented shape *)

(** The summary the API documents for a day with the given entries, each
    a URL and an identifier. *)
Definition summary_of (entries : list (string * string)) : pyval :=
  PDict [("data", PDict [("sumario", PDict [("diario",
    PList (List.map (fun e => diario_entry (fst e) (snd e)) entries))])])].

(** The entries [process_date] keeps: those whose URL is not empty. *)
Definition with_url (entries : list (string * string)) : list (pyval * pyval) :=
  List.map (fun e => (PStr (fst e), PStr (snd e)))
    (List.filter (fun e => negb (String.eqb (fst e) "")) entries).

(** ** One task after the other *)

(** The number of requests a coroutine makes when run from [w]. *)
Fixpoint ops {A : Type} (p : prog A) (w : world) : nat :=
  match p with
  | Vis op k => let '(x, w') := handle op w in S (ops (k x) w')
  | _ => O
  end.

(** The days processed one after the other, each from the world the one
    before left, up to the first that raises. *)
Fixpoint run_in_turn (output_dir : Path) (dates : list datetime) (w : world)
  : (exn + list (Z * string)) * world :=
  match dates with
  | [] => (inr [], w)
  | date :: rest =>
      match run (process_date date output_dir) w with
      | (Raised e, w1) => (inl e, w1)
      | (Returned r, w1) =>
          match run_in_turn output_dir rest w1 with
          | (inl e, w2) => (inl e, w2)
          | (inr rs, w2) => (inr (r :: rs), w2)
          end
      end
  end.

(** The schedule that resumes the tasks [i], [i + 1], ... one after the
    other, each until it is done: one step to take the semaphore, one for
    each request, one to give the semaphore back. *)
Fixpoint schedule_in_turn (output_dir : Path) (i : nat) (dates : list datetime)
    (w : world) : list nat :=
  match dates with
  | [] => []
  | date :: rest =>
      repeat i (2 + ops (process_date date output_dir) w)
      ++ schedule_in_turn output_dir (S i) rest
           (snd (run (process_date date output_dir) w))
  end.

(** ** Calendar dates *)

(** The standard library's conversion back from year, month and day to
    the ordinal, against which [ord2ymd] is read. *)
Definition is_leap (year : Z) : bool :=
  (year mod 4 =? 0) && (negb (year mod 100 =? 0) || (year mod 400 =? 0)).

Definition days_before_year (year : Z) : Z :=
  let y := year - 1 in y * 365 + y / 4 - y / 100 + y / 400.

Definition ymd2ord (year month day : Z) : Z :=
  days_before_year year
  + (DAYS_BEFORE_MONTH month + b2z ((month >? 2) && is_leap year))
  + day.

(** The month and day of [ord2ymd] for day number [n] (from 0) of a year. *)
Definition month_day (n : Z) (leapyear : bool) : Z * Z :=
  let month := Z.shiftr (n + 50) 5 in
  let preceding := DAYS_BEFORE_MONTH month + b2z ((month >? 2) && leapyear) in
  if preceding >? n then
    let month := month - 1 in
    let preceding :=
      preceding - (DAYS_IN_MONTH month + b2z ((month =? 2) && leapyear)) in
    (month, n - preceding + 1)
  else (month, n - preceding + 1).

(** What [month_day] has to give for day [n] of a year. *)
Definition month_day_ok (leapyear : bool) (n : nat) : bool :=
  let '(m, d) := month_day (Z.of_nat n) leapyear in
  (1 <=? m) && (m <=? 12) && (1 <=? d) && (d <=? 31) &&
  (DAYS_BEFORE_MONTH m + b2z ((m >? 2) && leapyear) + d =? Z.of_nat n + 1).

(** A date from 1000-01-01 to 9999-12-31: the dates whose year has four
    digits, which [%Y] prints the same way on every platform. *)
Definition valid_date (d : datetime) : Prop := 364878 <= ordinal d <= MAXORDINAL.

#[global] Arguments strftime_Ymd : simpl never.
#[global] Arguments strftime_Y_m_d : simpl never.
#[global] Arguments api_url : simpl never.
#[global] Arguments path_div : simpl never.
#[global] Arguments pdf_path_of : simpl never.
#[global] Arguments path_parent : simpl never.
#[global] Arguments fs_mkdir : simpl never.
#[global] Arguments fs_write : simpl never.
#[global] Arguments fs_exists : simpl never.

(** * Properties *)

(** ** The interpreter *)

Lemma run_bind {A B : Type} (p : prog A) (f : A -> prog B) (w : world) :
  run (p ≫= f) w =
  match run p w with
  | (Returned a, w1) => run (f a) w1
  | (Raised e, w1) => (Raised e, w1)
  end.
Proof.
  revert w. induction p as [a|e|X op k IH]; intros w; try reflexivity.
  change (run (Vis op k ≫= f) w) with
    (let '(x, w') := handle op w in run (k x ≫= f) w').
  simpl. destruct (handle op w) as [x w']. apply IH.
Qed.

Lemma run_try_except {A : Type} (p : prog A) (catches : exn -> bool)
    (handler : exn -> prog A) (w : world) :
  run (try_except p catches handler) w =
  match run p w with
  | (Returned a, w1) => (Returned a, w1)
  | (Raised e, w1) => if catches e then run (handler e) w1 else (Raised e, w1)
  end.
Proof.
  revert w. induction p as [a|e|X op k IH]; intros w; simpl.
  - reflexivity.
  - destruct (catches e); reflexivity.
  - destruct (handle op w) as [x w']. apply IH.
Qed.

Lemma handle_net {X : Type} (op : io X) (w : world) :
  net (snd (handle op w)) = net w.
Proof.
  destruct op; simpl; try reflexivity.
  - destruct (fs_mkdir parents exist_ok p (fs w)); reflexivity.
  - destruct (fs_write p data (fs w)); reflexivity.
Qed.

Lemma handle_trace {X : Type} (op : io X) (w : world) :
  exists ev, trace (snd (handle op w)) = trace w ++ [ev].
Proof.
  destruct op; simpl; eauto.
  - destruct (fs_mkdir parents exist_ok p (fs w)); simpl; eauto.
  - destruct (fs_write p data (fs w)); simpl; eauto.
Qed.

(** The oracle is the same before and after a run. *)
Lemma run_net {A : Type} (p : prog A) (w : world) :
  net (snd (run p w)) = net w.
Proof.
  revert w. induction p as [a|e|X op k IH]; intros w; simpl; try reflexivity.
  pose proof (handle_net op w) as Hn.
  destruct (handle op w) as [x w']. simpl in Hn. rewrite IH. exact Hn.
Qed.

(** A run only ever adds to the trace. *)
Lemma run_trace {A : Type} (p : prog A) (w : world) :
  exists evs, trace (snd (run p w)) = trace w ++ evs.
Proof.
  revert w. induction p as [a|e|X op k IH]; intros w; simpl.
  - exists []. symmetry. apply app_nil_r.
  - exists []. symmetry. apply app_nil_r.
  - destruct (handle_trace op w) as [ev Hev].
    destruct (handle op w) as [x w']. simpl in Hev.
    destruct (IH x w') as [evs Hevs].
    exists (ev :: evs). rewrite Hevs, Hev, <- app_assoc. reflexivity.
Qed.

(** ** The artifact path *)

Lemma digit_char_not_slash (n : Z) : Ascii.eqb (digit_char n) "/"%char = false.
Proof.
  unfold digit_char.
  assert (H : (Z.to_nat (n mod 10) < 10)%nat) by
    (pose proof (Z.mod_pos_bound n 10); lia).
  destruct (Z.to_nat (n mod 10)) as [|k]; [reflexivity|].
  do 9 (destruct k as [|k]; [reflexivity|]). lia.
Qed.

Lemma digit_char_not_dot (n : Z) : Ascii.eqb (digit_char n) "."%char = false.
Proof.
  unfold digit_char.
  assert (H : (Z.to_nat (n mod 10) < 10)%nat) by
    (pose proof (Z.mod_pos_bound n 10); lia).
  destruct (Z.to_nat (n mod 10)) as [|k]; [reflexivity|].
  do 9 (destruct k as [|k]; [reflexivity|]). lia.
Qed.


(** ** Dates and paths on concrete values *)

Example ord2ymd_2024_01_07 : ord2ymd 738892 = (2024, 1, 7).
Proof. reflexivity. Qed.

Example pdf_path_2024_01_07 :
  pdf_path_of ["boe"] (mkDatetime 738892 0) = ["boe"; "2024"; "01"; "07"; "boe.pdf"].
Proof. reflexivity. Qed.

Example api_url_2024_01_07 :
  api_url (strftime_Ymd (mkDatetime 738892 0)) =
  "https://www.boe.es/datosabiertos/api/boe/sumario/20240107".
Proof. reflexivity. Qed.

Example start_date_is_1961_01_01 : ord2ymd START_DATE_ordinal = (1961, 1, 1).
Proof. reflexivity. Qed.



Lemma parse_parts_fields (a b c d e f g h : ascii) :
  Ascii.eqb a "/"%char = false -> Ascii.eqb b "/"%char = false ->
  Ascii.eqb c "/"%char = false -> Ascii.eqb d "/"%char = false ->
  Ascii.eqb e "/"%char = false -> Ascii.eqb f "/"%char = false ->
  Ascii.eqb g "/"%char = false -> Ascii.eqb h "/"%char = false ->
  Ascii.eqb a "."%char = false -> Ascii.eqb e "."%char = false ->
  Ascii.eqb g "."%char = false ->
  parse_parts
    (String a (String b (String c (String d (String "/"
      (String e (String f (String "/" (String g (String h "")))))))))) =
  [String a (String b (String c (String d "")));
   String e (String f ""); String g (String h "")].
Proof.
  intros Ha Hb Hc Hd He Hf Hg Hh Ha' He' Hg'.
  unfold parse_parts. cbn [split_slash].
  rewrite Ha, Hb, Hc, Hd, He, Hf, Hg, Hh.
  cbv [String.append]. cbn.
  rewrite Ha', He', Hg'. reflexivity.
Qed.

Lemma parse_parts_Y_m_d (d : datetime) :
  parse_parts (strftime_Y_m_d d) =
  [fmt4 (year_of d); fmt2 (month_of d); fmt2 (day_of d)].
Proof.
  unfold strftime_Y_m_d, fmt4, fmt2.
  generalize (year_of d) (month_of d) (day_of d). intros y m dd.
  apply parse_parts_fields;
    first [apply digit_char_not_slash | apply digit_char_not_dot].
Qed.

Lemma is_absolute_Y_m_d (d : datetime) : is_absolute (strftime_Y_m_d d) = false.
Proof.
  unfold strftime_Y_m_d, fmt4. generalize (year_of d). intros y.
  cbv [is_absolute String.append]. apply digit_char_not_slash.
Qed.

(** The artifact of a date lies at [<output_dir>/<YYYY>/<MM>/<DD>/boe.pdf]. *)
Lemma pdf_path_of_parts (output_dir : Path) (d : datetime) :
  pdf_path_of output_dir d =
  output_dir ++ [fmt4 (year_of d); fmt2 (month_of d); fmt2 (day_of d); "boe.pdf"].
Proof.
  unfold pdf_path_of. unfold path_div at 2. rewrite is_absolute_Y_m_d.
  rewrite parse_parts_Y_m_d.
  generalize (fmt4 (year_of d)) (fmt2 (month_of d)) (fmt2 (day_of d)).
  intros a b c. unfold path_div.
  change (is_absolute "boe.pdf") with false.
  change (parse_parts "boe.pdf") with ["boe.pdf"]. cbv iota.
  rewrite <- app_assoc. reflexivity.
Qed.

(** ** One step of each library call *)

Lemma run_path_exists (p : Path) (w : world) :
  run (path_exists p) w =
  (Returned (fs_exists (fs w) p), log (EvExists p (fs_exists (fs w) p)) w).
Proof. reflexivity. Qed.

Lemma run_asyncio_sleep (secs : Z) (w : world) :
  run (asyncio_sleep secs) w = (Returned tt, log (EvSleep secs) w).
Proof. reflexivity. Qed.

Lemma run_print (m : message) (w : world) :
  run (print m) w = (Returned tt, log (EvPrint m) w).
Proof. reflexivity. Qed.

Lemma run_session_get (url : string) (hs : headers) (w : world) :
  run (session_get (PStr url) hs) w =
  (match net w (clock w) url hs with
   | GotResponse r => Returned r
   | GetRaises e => Raised e
   end, after_get url hs w).
Proof.
  unfold after_get. simpl. destruct (net w (clock w) url hs); reflexivity.
Qed.

(** The [try] body of the summary loop, run once. *)
Lemma run_summary_try (date_str : string) (w : world) :
  run (summary_try date_str) w =
  (match net w (clock w) (api_url date_str) accept_json with
   | GetRaises e => Raised e
   | GotResponse r =>
       if status_code r =? 404 then Returned (inl (0, "no_boe"))
       else if is_success r then
         match json r with
         | Some v => Returned (inr v)
         | None => Raised JSONDecodeError
         end
       else Raised (HTTPStatusError (status_code r))
   end, after_get (api_url date_str) accept_json w).
Proof.
  unfold summary_try. rewrite run_bind, run_session_get.
  destruct (net w (clock w) (api_url date_str) accept_json) as [r|e];
    [|reflexivity].
  destruct (status_code r =? 404); [reflexivity|].
  unfold raise_for_status, response_json.
  destruct (is_success r); [|reflexivity].
  destruct (json r); reflexivity.
Qed.

(** The [try] body of [download_pdf], run once. *)
Lemma run_download_pdf_try (url : string) (path : Path) (w : world) :
  run (download_pdf_try (PStr url) path) w =
  match net w (clock w) url [] with
  | GetRaises e => (Raised e, after_get url [] w)
  | GotResponse r =>
      if is_success r then store path (content r) (after_get url [] w)
      else (Raised (HTTPStatusError (status_code r)), after_get url [] w)
  end.
Proof.
  unfold download_pdf_try. rewrite run_bind, run_session_get.
  destruct (net w (clock w) url []) as [r|e]; [|reflexivity].
  unfold raise_for_status. destruct (is_success r); [|reflexivity].
  unfold store.
  change (run (Ret tt ≫= _) ?w0) with
    (run (path_mkdir (path_parent path) true true ≫=
          (fun _ => path_write_bytes path (content r))) w0).
  rewrite run_bind. unfold path_mkdir. simpl.
  destruct (fs_mkdir true true (path_parent path) (fs w)) as [e|f1];
    [reflexivity|].
  simpl. destruct (fs_write path (content r) f1); reflexivity.
Qed.

Lemma run_download_pdf_try_bad_url (url : pyval) (path : Path) (w : world) :
  (forall s, url <> PStr s) ->
  exists e, run (download_pdf_try url path) w = (Raised e, w) /\
            is_HTTPError e = false.
Proof.
  intros Hs. unfold download_pdf_try.
  destruct url; try (eexists; split; reflexivity).
  exfalso. eapply Hs. reflexivity.
Qed.

(** ** The loops, one turn at a time *)

Lemma run_summary_loop_cons (attempt : Z) (rest : list Z) (date_str : string)
    (data : pyval) (w : world) :
  run (summary_loop (attempt :: rest) date_str data) w =
  match run (summary_try date_str) w with
  | (Returned x, w1) => (Returned x, w1)
  | (Raised e, w1) =>
      if is_HTTPError e then
        if attempt <? MAX_RETRIES - 1
        then run (summary_loop rest date_str data)
                 (log (EvSleep (RETRY_DELAY * (attempt + 1))) w1)
        else (Returned (inl (0, "error")),
              log (EvPrint (MsgFailedAfter MAX_RETRIES date_str e)) w1)
      else (Raised e, w1)
  end.
Proof.
  cbn [summary_loop]. rewrite run_try_except.
  destruct (run (summary_try date_str) w) as [[x|e] w1]; [reflexivity|].
  destruct (is_HTTPError e); [|reflexivity].
  destruct (attempt <? MAX_RETRIES - 1).
  - rewrite run_bind, run_asyncio_sleep. reflexivity.
  - rewrite run_bind, run_print. reflexivity.
Qed.

Lemma run_download_pdf_loop_cons (attempt : Z) (rest : list Z) (url : pyval)
    (path : Path) (w : world) :
  run (download_pdf_loop (attempt :: rest) url path) w =
  match run (download_pdf_try url path) w with
  | (Returned x, w1) => (Returned x, w1)
  | (Raised e, w1) =>
      if is_HTTPError e then
        if attempt <? MAX_RETRIES - 1
        then run (download_pdf_loop rest url path)
                 (log (EvSleep (RETRY_DELAY * (attempt + 1))) w1)
        else (Raised e, w1)
      else (Raised e, w1)
  end.
Proof.
  cbn [download_pdf_loop]. rewrite run_try_except.
  destruct (run (download_pdf_try url path) w) as [[x|e] w1]; [reflexivity|].
  destruct (is_HTTPError e); [|reflexivity].
  destruct (attempt <? MAX_RETRIES - 1); [|reflexivity].
  rewrite run_bind, run_asyncio_sleep. reflexivity.
Qed.

Lemma range_MAX_RETRIES : range MAX_RETRIES = [0; 1; 2].
Proof. reflexivity. Qed.

Lemma run_download_loop_cons (output_dir : Path) (date : datetime)
    (date_str : string) (pdf_url identifier : pyval)
    (rest : list (pyval * pyval)) (downloaded : Z) (w : world) :
  run (download_loop output_dir date date_str
         ((pdf_url, identifier) :: rest) downloaded) w =
  match run (download_pdf pdf_url (pdf_path_of output_dir date)) w with
  | (Returned _, w1) =>
      run (download_loop output_dir date date_str rest (downloaded + 1)) w1
  | (Raised e, w1) =>
      run (download_loop output_dir date date_str rest downloaded)
          (log (EvPrint (MsgFailedDownload identifier date_str e)) w1)
  end.
Proof.
  cbn [download_loop]. rewrite run_bind, run_try_except, run_bind.
  fold (pdf_path_of output_dir date).
  destruct (run (download_pdf pdf_url (pdf_path_of output_dir date)) w)
    as [[[]|e] w1]; [reflexivity|].
  rewrite run_bind, run_print. reflexivity.
Qed.

(** [process_date], phase by phase. *)
Lemma run_process_date (date : datetime) (output_dir : Path) (w : world) :
  run (process_date date output_dir) w =
  let p := pdf_path_of output_dir date in
  let date_str := strftime_Ymd date in
  if fs_exists (fs w) p then (Returned (0, "cached"), log (EvExists p true) w)
  else
    match run (summary_loop (range MAX_RETRIES) date_str PNone)
              (log (EvExists p false) w) with
    | (Raised e, w1) => (Raised e, w1)
    | (Returned (inl result), w1) => (Returned result, w1)
    | (Returned (inr data), w1) =>
        if is_None data then (Returned (0, "error"), w1)
        else
          match run (extract_pdfs data) w1 with
          | (Raised e, w2) => (Raised e, w2)
          | (Returned pdfs, w2) =>
              match run (download_loop output_dir date date_str pdfs 0) w2 with
              | (Raised e, w3) => (Raised e, w3)
              | (Returned downloaded, w3) =>
                  (Returned (downloaded, "success"), w3)
              end
          end
    end.
Proof.
  unfold process_date. fold (pdf_path_of output_dir date). cbv zeta.
  rewrite run_bind, run_path_exists.
  destruct (fs_exists (fs w) (pdf_path_of output_dir date)); [reflexivity|].
  rewrite run_bind.
  destruct (run (summary_loop (range MAX_RETRIES) (strftime_Ymd date) PNone)
              (log (EvExists (pdf_path_of output_dir date) false) w))
    as [[[result|data]|e] w1]; try reflexivity.
  destruct (is_None data); [reflexivity|].
  rewrite run_bind.
  destruct (run (extract_pdfs data) w1) as [[pdfs|e] w2]; [|reflexivity].
  rewrite run_bind.
  destruct (run (download_loop output_dir date (strftime_Ymd date) pdfs 0) w2)
    as [[d|e] w3]; reflexivity.
Qed.

(** ** C1: a cached day *)

(** C1.  When the artifact of a date is already at
    [<output_root>/<YYYY>/<MM>/<DD>/boe.pdf], [process_date] returns
    [(0, "cached")] and makes no network call: the only thing it does is
    the existence check, no request is added to the trace and the request
    counter of the world does not move. *)
Theorem process_date_cached (date : datetime) (output_dir : Path) (w : world) :
  fs_exists (fs w)
    (output_dir ++ [fmt4 (year_of date); fmt2 (month_of date);
                    fmt2 (day_of date); "boe.pdf"]) = true ->
  exists w',
    run (process_date date output_dir) w = (Returned (0, "cached"), w') /\
    trace w' = trace w ++ [EvExists (pdf_path_of output_dir date) true] /\
    requests (trace w') = requests (trace w) /\
    clock w' = clock w /\
    fs w' = fs w.
Proof.
  intros Hex. rewrite <- pdf_path_of_parts in Hex.
  exists (log (EvExists (pdf_path_of output_dir date) true) w).
  rewrite run_process_date. cbv zeta. rewrite Hex.
  repeat split.
  cbn [trace log]. unfold requests. rewrite omap_app. cbn.
  apply app_nil_r.
Qed.

Lemma process_date_cached_witness :
  let w := world_of fs_with_artifact (net_always (GetRaises (TransportError "down"))) in
  fs_with_artifact !! ["boe"; "2024"; "01"; "07"; "boe.pdf"] = Some (File pdf_bytes) /\
  exists w',
    run (process_date date_2024_01_07 ["boe"]) w = (Returned (0, "cached"), w') /\
    trace w' = trace w ++ [EvExists (pdf_path_of ["boe"] date_2024_01_07) true] /\
    requests (trace w') = requests (trace w) /\
    clock w' = clock w /\
    fs w' = fs w.
Proof.
  split; [reflexivity|].
  apply (process_date_cached date_2024_01_07 ["boe"]). reflexivity.
Defined.

(** ** The summary loop, attempt by attempt *)

Section SummaryAttempt.
Variables (attempt : Z) (rest : list Z) (date_str : string) (data : pyval).
Variable w : world.

Let url := api_url date_str.
Let w1 := after_get url accept_json w.

Lemma summary_loop_404 (r : Response) :
  net w (clock w) url accept_json = GotResponse r ->
  status_code r = 404 ->
  run (summary_loop (attempt :: rest) date_str data) w =
  (Returned (inl (0, "no_boe")), w1).
Proof.
  intros Hg H404. rewrite run_summary_loop_cons, run_summary_try.
  fold url. rewrite Hg, H404. reflexivity.
Qed.

Lemma summary_loop_ok (r : Response) (v : pyval) :
  net w (clock w) url accept_json = GotResponse r ->
  is_success r = true ->
  json r = Some v ->
  run (summary_loop (attempt :: rest) date_str data) w =
  (Returned (inr v), w1).
Proof.
  intros Hg Hok Hj. rewrite run_summary_loop_cons, run_summary_try.
  fold url. rewrite Hg, Hok, Hj.
  assert (H : (status_code r =? 404) = false).
  { unfold is_success in Hok. apply Z.eqb_neq. lia. }
  rewrite H. reflexivity.
Qed.

Lemma summary_try_failure (g : get_result) (e : exn) :
  net w (clock w) url accept_json = g ->
  get_failure g = Some e ->
  is_404 g = false ->
  run (summary_try date_str) w = (Raised e, w1) /\ is_HTTPError e = true.
Proof.
  intros Hg Hf H404. rewrite run_summary_try. fold url. rewrite Hg.
  destruct g as [r|e']; cbn in Hf, H404.
  - rewrite H404. destruct (is_success r); [discriminate|].
    injection Hf as <-. split; reflexivity.
  - destruct (is_HTTPError e') eqn:He; [|discriminate].
    injection Hf as <-. split; [reflexivity|exact He].
Qed.

Lemma summary_loop_retry (g : get_result) (e : exn) :
  net w (clock w) url accept_json = g ->
  get_failure g = Some e ->
  is_404 g = false ->
  attempt < MAX_RETRIES - 1 ->
  run (summary_loop (attempt :: rest) date_str data) w =
  run (summary_loop rest date_str data)
      (log (EvSleep (RETRY_DELAY * (attempt + 1))) w1).
Proof.
  intros Hg Hf H404 Hlt. rewrite run_summary_loop_cons.
  destruct (summary_try_failure g e Hg Hf H404) as [-> ->].
  apply Z.ltb_lt in Hlt. rewrite Hlt. reflexivity.
Qed.

Lemma summary_loop_give_up (g : get_result) (e : exn) :
  net w (clock w) url accept_json = g ->
  get_failure g = Some e ->
  is_404 g = false ->
  MAX_RETRIES - 1 <= attempt ->
  run (summary_loop (attempt :: rest) date_str data) w =
  (Returned (inl (0, "error")),
   log (EvPrint (MsgFailedAfter MAX_RETRIES date_str e)) w1).
Proof.
  intros Hg Hf H404 Hge. rewrite run_summary_loop_cons.
  destruct (summary_try_failure g e Hg Hf H404) as [-> ->].
  apply Z.ltb_ge in Hge. rewrite Hge. reflexivity.
Qed.
End SummaryAttempt.

(** ** C2: a day without publication *)

(** C2.  On a cache miss, when the summary endpoint answers 404 (at the
    first attempt, or after one or two attempts that failed and were
    retried), [process_date] returns [(0, "no_boe")] at once: the request
    answered 404 is the last event of the run, it is not retried, and every
    request of the run is a summary request, so no artifact is fetched. *)
Theorem process_date_no_boe (date : datetime) (output_dir : Path) (w : world)
    (fails : list get_result) (r : Response) :
  let url := api_url (strftime_Ymd date) in
  fs_exists (fs w) (pdf_path_of output_dir date) = false ->
  (length fails < 3)%nat ->
  Forall (fun g => is_Some (get_failure g) /\ is_404 g = false) fails ->
  answers w url accept_json (fails ++ [GotResponse r]) ->
  status_code r = 404 ->
  exists w',
    run (process_date date output_dir) w = (Returned (0, "no_boe"), w') /\
    trace w' =
      trace w ++ EvExists (pdf_path_of output_dir date) false
        :: retry_events url accept_json 0 fails
        ++ [EvGet url accept_json (GotResponse r)] /\
    requests (trace w') =
      requests (trace w) ++ repeat (url, accept_json) (S (length fails)) /\
    fs w' = fs w.
Proof.
  intros url Hmiss Hlen Hfails Hans H404. subst url.
  rewrite run_process_date. cbv zeta. rewrite Hmiss, range_MAX_RETRIES.
  destruct fails as [|g1 [|g2 [|g3 fails]]]; [| | |simpl in Hlen; lia].
  - pose proof (Hans 0%nat _ eq_refl) as H0. cbn in H0.
    erewrite summary_loop_404 by (cbn; eauto).
    eexists. split; [reflexivity|]. split; [|split]; [| |reflexivity].
    + cbn. rewrite H0, <- app_assoc. reflexivity.
    + cbn. unfold requests. rewrite <- !app_assoc, !omap_app. reflexivity.
  - pose proof (Hans 0%nat _ eq_refl) as H0.
    pose proof (Hans 1%nat _ eq_refl) as H1. cbn in H0, H1.
    apply Forall_cons in Hfails as [[[e1 He1] Hn1] _].
    erewrite summary_loop_retry by (cbn; eauto; reflexivity).
    erewrite summary_loop_404 by (cbn; eauto).
    eexists. split; [reflexivity|]. split; [|split]; [| |reflexivity].
    + cbn. rewrite H0, H1, <- !app_assoc. reflexivity.
    + cbn. unfold requests. rewrite <- !app_assoc, !omap_app. reflexivity.
  - pose proof (Hans 0%nat _ eq_refl) as H0.
    pose proof (Hans 1%nat _ eq_refl) as H1.
    pose proof (Hans 2%nat _ eq_refl) as H2. cbn in H0, H1, H2.
    apply Forall_cons in Hfails as [[[e1 He1] Hn1] Hfails].
    apply Forall_cons in Hfails as [[[e2 He2] Hn2] _].
    erewrite summary_loop_retry by (cbn; eauto; reflexivity).
    erewrite summary_loop_retry by (cbn; eauto; reflexivity).
    erewrite summary_loop_404 by (cbn; eauto).
    eexists. split; [reflexivity|]. split; [|split]; [| |reflexivity].
    + cbn. rewrite H0, H1, H2, <- !app_assoc. reflexivity.
    + cbn. unfold requests. rewrite <- !app_assoc, !omap_app. reflexivity.
Qed.

Lemma process_date_no_boe_witness :
  let w := world_of ∅ (net_script [timed_out; GotResponse resp_404] timed_out) in
  let url := api_url (strftime_Ymd date_2024_01_07) in
  exists w',
    run (process_date date_2024_01_07 ["boe"]) w = (Returned (0, "no_boe"), w') /\
    trace w' =
      trace w ++ EvExists (pdf_path_of ["boe"] date_2024_01_07) false
        :: retry_events url accept_json 0 [timed_out]
        ++ [EvGet url accept_json (GotResponse resp_404)] /\
    requests (trace w') =
      requests (trace w) ++ repeat (url, accept_json) 2 /\
    fs w' = fs w.
Proof.
  apply (process_date_no_boe date_2024_01_07 ["boe"]
           (world_of ∅ (net_script [timed_out; GotResponse resp_404] timed_out))
           [timed_out] resp_404).
  - reflexivity.
  - simpl. lia.
  - repeat constructor. exists (TransportError "timed out"). reflexivity.
  - intros [|[|i]] g H; simpl in H; inversion H; reflexivity.
  - reflexivity.
Defined.

(** ** Filesystem errors *)

Lemma walk_error (f : gmap (list string) fnode) (done : Path)
    (rest : list string) (e : exn) :
  walk f done rest = Some e -> is_HTTPError e = false.
Proof.
  revert done. induction rest as [|part rest IH]; intros done H; [discriminate|].
  cbn [walk] in H. destruct rest as [|part' rest]; [discriminate|].
  destruct (fs_is_dir f (done ++ [part])); [exact (IH _ H)|].
  destruct (fs_exists f (done ++ [part])); injection H as <-; reflexivity.
Qed.

Lemma os_mkdir_error (p : Path) (f : gmap (list string) fnode) (e : exn) :
  os_mkdir p f = inl e -> is_HTTPError e = false.
Proof.
  unfold os_mkdir. intros H.
  destruct (walk f [] p) as [e0|] eqn:Hw.
  - injection H as <-. exact (walk_error _ _ _ _ Hw).
  - destruct (fs_exists f p); [|discriminate]. injection H as <-. reflexivity.
Qed.

Lemma os_mkdir_inr (p : Path) (f f' : gmap (list string) fnode) :
  os_mkdir p f = inr f' -> f' = <[p := Dir]> f /\ fs_exists f p = false.
Proof.
  unfold os_mkdir. intros H.
  destruct (walk f [] p); [discriminate|].
  destruct (fs_exists f p); [discriminate|].
  injection H as <-. split; reflexivity.
Qed.

Lemma path_mkdir_rec_error (n : nat) (parents exist_ok : bool) (p : Path)
    (f : gmap (list string) fnode) (e : exn) :
  path_mkdir_rec n parents exist_ok p f = inl e -> is_HTTPError e = false.
Proof.
  revert parents exist_ok p f.
  induction n as [|n IH]; intros parents exist_ok p f H;
    cbn [path_mkdir_rec] in H;
    destruct (os_mkdir p f) as [e0|f0] eqn:Hos; try discriminate;
    pose proof (os_mkdir_error _ _ _ Hos) as He0.
  - destruct (is_FileNotFoundError e0).
    + destruct (negb parents || is_root p); injection H as <-; exact He0.
    + destruct (negb exist_ok || negb (fs_is_dir f p)); [|discriminate].
      injection H as <-. exact He0.
  - destruct (is_FileNotFoundError e0).
    + destruct (negb parents || is_root p); [injection H as <-; exact He0|].
      destruct (path_mkdir_rec n true true (path_parent p) f) as [e1|f1] eqn:Hp.
      * injection H as <-. exact (IH _ _ _ _ Hp).
      * exact (IH _ _ _ _ H).
    + destruct (negb exist_ok || negb (fs_is_dir f p)); [|discriminate].
      injection H as <-. exact He0.
Qed.

Lemma fs_write_inr (p : Path) (data : list byte)
    (f f' : gmap (list string) fnode) :
  fs_write p data f = inr f' ->
  f' = <[p := File data]> f /\ fs_is_dir f p = false.
Proof.
  unfold fs_write. intros H.
  destruct (walk f [] p); [discriminate|].
  destruct (fs_is_dir f p); [discriminate|].
  injection H as <-. split; reflexivity.
Qed.

Lemma fs_write_error (p : Path) (data : list byte)
    (f : gmap (list string) fnode) (e : exn) :
  fs_write p data f = inl e -> is_HTTPError e = false.
Proof.
  unfold fs_write. intros H.
  destruct (walk f [] p) as [e0|] eqn:Hw.
  - injection H as <-. exact (walk_error _ _ _ _ Hw).
  - destruct (fs_is_dir f p); [|discriminate]. injection H as <-. reflexivity.
Qed.

(** A download that fails on the filesystem fails with an error the retry
    loop does not catch. *)
Lemma store_error_not_http (path : Path) (data : list byte) (w w2 : world)
    (e : exn) :
  store path data w = (Raised e, w2) -> is_HTTPError e = false.
Proof.
  unfold store. intros Hs.
  destruct (fs_mkdir true true (path_parent path) (fs w)) as [e0|f1] eqn:Hm.
  - injection Hs as <- _. eapply path_mkdir_rec_error. exact Hm.
  - destruct (fs_write path data f1) as [e0|f2] eqn:Hw; [|discriminate].
    injection Hs as <- _. eapply fs_write_error. exact Hw.
Qed.

(** ** The download loop, attempt by attempt *)

Section DownloadAttempt.
Variables (attempt : Z) (rest : list Z) (url : string) (path : Path).
Variable w : world.

Let w1 := after_get url [] w.

Lemma download_try_failure (g : get_result) (e : exn) :
  net w (clock w) url [] = g ->
  get_failure g = Some e ->
  run (download_pdf_try (PStr url) path) w = (Raised e, w1) /\
  is_HTTPError e = true.
Proof.
  intros Hg Hf. rewrite run_download_pdf_try, Hg.
  destruct g as [r|e']; cbn in Hf.
  - destruct (is_success r); [discriminate|].
    injection Hf as <-. split; reflexivity.
  - destruct (is_HTTPError e') eqn:He; [|discriminate].
    injection Hf as <-. split; [reflexivity|exact He].
Qed.

Lemma download_loop_retry (g : get_result) (e : exn) :
  net w (clock w) url [] = g ->
  get_failure g = Some e ->
  attempt < MAX_RETRIES - 1 ->
  run (download_pdf_loop (attempt :: rest) (PStr url) path) w =
  run (download_pdf_loop rest (PStr url) path)
      (log (EvSleep (RETRY_DELAY * (attempt + 1))) w1).
Proof.
  intros Hg Hf Hlt. rewrite run_download_pdf_loop_cons.
  destruct (download_try_failure g e Hg Hf) as [-> ->].
  apply Z.ltb_lt in Hlt. rewrite Hlt. reflexivity.
Qed.

Lemma download_loop_give_up (g : get_result) (e : exn) :
  net w (clock w) url [] = g ->
  get_failure g = Some e ->
  MAX_RETRIES - 1 <= attempt ->
  run (download_pdf_loop (attempt :: rest) (PStr url) path) w = (Raised e, w1).
Proof.
  intros Hg Hf Hge. rewrite run_download_pdf_loop_cons.
  destruct (download_try_failure g e Hg Hf) as [-> ->].
  apply Z.ltb_ge in Hge. rewrite Hge. reflexivity.
Qed.

Lemma download_loop_ok (r : Response) :
  net w (clock w) url [] = GotResponse r ->
  is_success r = true ->
  run (download_pdf_loop (attempt :: rest) (PStr url) path) w =
  match store path (content r) w1 with
  | (Returned x, w2) => (Returned x, w2)
  | (Raised e, w2) => (Raised e, w2)
  end.
Proof.
  intros Hg Hok. rewrite run_download_pdf_loop_cons, run_download_pdf_try.
  rewrite Hg, Hok. fold w1.
  destruct (store path (content r) w1) as [[x|e] w2] eqn:Hs; [reflexivity|].
  pose proof (store_error_not_http _ _ _ _ _ Hs) as He.
  rewrite He. reflexivity.
Qed.
End DownloadAttempt.

(** ** C4: retries and back-off *)

(** C4, as stated, fails: with every request failing, [download_pdf] and
    the summary loop of [process_date] each make three requests (one
    attempt and two retries) and sleep 30 and 60 seconds; the 90 second
    delay of the claim never happens. *)
Lemma retry_delays_counterexample :
  let w := world_of ∅ (net_always timed_out) in
  let wd := snd (run (download_pdf (PStr "https://example/x.pdf")
                        (pdf_path_of ["boe"] date_2024_01_07)) w) in
  let ws := snd (run (process_date date_2024_01_07 ["boe"]) w) in
  sleeps (trace wd) <> [RETRY_DELAY * 1; RETRY_DELAY * 2; RETRY_DELAY * 3] /\
  sleeps (trace ws) <> [RETRY_DELAY * 1; RETRY_DELAY * 2; RETRY_DELAY * 3] /\
  sleeps (trace wd) = [30; 60] /\
  sleeps (trace ws) = [30; 60] /\
  length (requests (trace wd)) = 3%nat /\
  length (requests (trace ws)) = 3%nat.
Proof.
  cbv zeta. repeat split; try reflexivity.
  - intros H. vm_compute in H. discriminate H.
  - intros H. vm_compute in H. discriminate H.
Qed.

(** C4, amended.  Both loops make at most [MAX_RETRIES] = 3 attempts.
    When three requests in a row fail, the loop sleeps
    [RETRY_DELAY * 1] = 30 seconds before the second attempt and
    [RETRY_DELAY * 2] = 60 seconds before the third, and after the third
    failure hands the failure to its caller without sleeping again:
    [download_pdf] raises the last error to [process_date], and the summary
    loop logs it and makes [process_date] return [(0, "error")]. *)
Theorem retries_exhausted (wd ws : world) (url : string) (path : Path)
    (date : datetime) (output_dir : Path)
    (g1 g2 g3 h1 h2 h3 : get_result) (e1 e2 e3 x1 x2 x3 : exn) :
  let api := api_url (strftime_Ymd date) in
  let p := pdf_path_of output_dir date in
  answers wd url [] [g1; g2; g3] ->
  get_failure g1 = Some e1 -> get_failure g2 = Some e2 ->
  get_failure g3 = Some e3 ->
  fs_exists (fs ws) p = false ->
  answers ws api accept_json [h1; h2; h3] ->
  get_failure h1 = Some x1 -> get_failure h2 = Some x2 ->
  get_failure h3 = Some x3 ->
  is_404 h1 = false -> is_404 h2 = false -> is_404 h3 = false ->
  (exists wd',
     run (download_pdf (PStr url) path) wd = (Raised e3, wd') /\
     trace wd' = trace wd ++
       [EvGet url [] g1; EvSleep (RETRY_DELAY * 1);
        EvGet url [] g2; EvSleep (RETRY_DELAY * 2);
        EvGet url [] g3] /\
     sleeps (trace wd') = sleeps (trace wd) ++ [30; 60]) /\
  (exists ws',
     run (process_date date output_dir) ws = (Returned (0, "error"), ws') /\
     trace ws' = trace ws ++
       [EvExists p false;
        EvGet api accept_json h1; EvSleep (RETRY_DELAY * 1);
        EvGet api accept_json h2; EvSleep (RETRY_DELAY * 2);
        EvGet api accept_json h3;
        EvPrint (MsgFailedAfter MAX_RETRIES (strftime_Ymd date) x3)] /\
     sleeps (trace ws') = sleeps (trace ws) ++ [30; 60]).
Proof.
  intros api p Hd Hg1 Hg2 Hg3 Hmiss Hs Hh1 Hh2 Hh3 Hn1 Hn2 Hn3.
  subst api p. split.
  - pose proof (Hd 0%nat _ eq_refl) as H0.
    pose proof (Hd 1%nat _ eq_refl) as H1.
    pose proof (Hd 2%nat _ eq_refl) as H2. cbn in H0, H1, H2.
    unfold download_pdf. rewrite range_MAX_RETRIES.
    erewrite download_loop_retry by (cbn; eauto; reflexivity).
    erewrite download_loop_retry by (cbn; eauto; reflexivity).
    erewrite download_loop_give_up by (cbn; eauto; reflexivity).
    eexists. split; [reflexivity|]. split.
    + cbn. rewrite H0, H1, H2, <- !app_assoc. reflexivity.
    + cbn. unfold sleeps. rewrite <- !app_assoc, !omap_app. reflexivity.
  - pose proof (Hs 0%nat _ eq_refl) as H0.
    pose proof (Hs 1%nat _ eq_refl) as H1.
    pose proof (Hs 2%nat _ eq_refl) as H2. cbn in H0, H1, H2.
    rewrite run_process_date. cbv zeta. rewrite Hmiss, range_MAX_RETRIES.
    erewrite summary_loop_retry by (cbn; eauto; reflexivity).
    erewrite summary_loop_retry by (cbn; eauto; reflexivity).
    erewrite summary_loop_give_up by (cbn; eauto; reflexivity).
    eexists. split; [reflexivity|]. split.
    + cbn. rewrite H0, H1, H2, <- !app_assoc. reflexivity.
    + cbn. unfold sleeps. rewrite <- !app_assoc, !omap_app. reflexivity.
Qed.

Lemma retries_exhausted_witness :
  let w := world_of ∅ (net_always timed_out) in
  let url := "https://www.boe.es/boe/dias/2024/01/07/pdfs/BOE-S-2024-7.pdf" in
  let path := pdf_path_of ["boe"] date_2024_01_07 in
  let api := api_url (strftime_Ymd date_2024_01_07) in
  let e := TransportError "timed out" in
  (exists wd',
     run (download_pdf (PStr url) path) w = (Raised e, wd') /\
     trace wd' = trace w ++
       [EvGet url [] timed_out; EvSleep (RETRY_DELAY * 1);
        EvGet url [] timed_out; EvSleep (RETRY_DELAY * 2);
        EvGet url [] timed_out] /\
     sleeps (trace wd') = sleeps (trace w) ++ [30; 60]) /\
  (exists ws',
     run (process_date date_2024_01_07 ["boe"]) w = (Returned (0, "error"), ws') /\
     trace ws' = trace w ++
       [EvExists path false;
        EvGet api accept_json timed_out; EvSleep (RETRY_DELAY * 1);
        EvGet api accept_json timed_out; EvSleep (RETRY_DELAY * 2);
        EvGet api accept_json timed_out;
        EvPrint (MsgFailedAfter MAX_RETRIES (strftime_Ymd date_2024_01_07) e)] /\
     sleeps (trace ws') = sleeps (trace w) ++ [30; 60]).
Proof.
  apply (retries_exhausted
           (world_of ∅ (net_always timed_out)) (world_of ∅ (net_always timed_out))
           "https://www.boe.es/boe/dias/2024/01/07/pdfs/BOE-S-2024-7.pdf"
           (pdf_path_of ["boe"] date_2024_01_07) date_2024_01_07 ["boe"]
           timed_out timed_out timed_out timed_out timed_out timed_out
           (TransportError "timed out") (TransportError "timed out")
           (TransportError "timed out") (TransportError "timed out")
           (TransportError "timed out") (TransportError "timed out"));
    try reflexivity.
  - intros [|[|[|i]]] g H; simpl in H; inversion H; reflexivity.
  - intros [|[|[|i]]] g H; simpl in H; inversion H; reflexivity.
Defined.

(** ** Aggregation *)

Lemma initial_stats_eq : initial_stats = stats_of 0 0 0 0.
Proof. reflexivity. Qed.

Lemma dict_iadd_downloaded (v d n e c : Z) :
  dict_iadd "downloaded" v (stats_of d n e c) = Ret (stats_of (d + v) n e c).
Proof.
  unfold dict_iadd, stats_of. rewrite lookup_insert_eq, insert_insert_eq.
  reflexivity.
Qed.

Lemma dict_iadd_no_boe (v d n e c : Z) :
  dict_iadd "no_boe" v (stats_of d n e c) = Ret (stats_of d (n + v) e c).
Proof.
  unfold dict_iadd, stats_of.
  rewrite lookup_insert_ne by done. rewrite lookup_insert_eq.
  rewrite (insert_insert_ne _ "no_boe" "downloaded") by done.
  rewrite insert_insert_eq. reflexivity.
Qed.

Lemma dict_iadd_errors (v d n e c : Z) :
  dict_iadd "errors" v (stats_of d n e c) = Ret (stats_of d n (e + v) c).
Proof.
  unfold dict_iadd, stats_of.
  rewrite !lookup_insert_ne by done. rewrite lookup_insert_eq.
  rewrite (insert_insert_ne _ "errors" "downloaded") by done.
  rewrite (insert_insert_ne _ "errors" "no_boe") by done.
  rewrite insert_insert_eq. reflexivity.
Qed.

Lemma dict_iadd_cached (v d n e c : Z) :
  dict_iadd "cached" v (stats_of d n e c) = Ret (stats_of d n e (c + v)).
Proof.
  unfold dict_iadd, stats_of.
  rewrite !lookup_insert_ne by done. rewrite lookup_insert_eq.
  rewrite (insert_insert_ne _ "cached" "downloaded") by done.
  rewrite (insert_insert_ne _ "cached" "no_boe") by done.
  rewrite (insert_insert_ne _ "cached" "errors") by done.
  rewrite insert_insert_eq. reflexivity.
Qed.

Lemma stats_of_ext (d n e c d' n' e' c' : Z) :
  d = d' -> n = n' -> e = e' -> c = c' ->
  stats_of d n e c = stats_of d' n' e' c'.
Proof. congruence. Qed.

Lemma tally_cons (status : string) (count : Z) (s : string)
    (rest : list (Z * string)) :
  tally status ((count, s) :: rest) =
  (if String.eqb s status then 1 else 0) + tally status rest.
Proof.
  unfold tally. cbn [List.filter snd].
  destruct (String.eqb s status); cbn [length]; lia.
Qed.

(** The aggregation loop never fails on the dictionary of line 112, and
    adds to each entry what the outcomes contribute. *)
Lemma run_aggregate (results : list (Z * string)) (i : Z) (total : nat)
    (d n e c : Z) (w : world) :
  exists w',
    run (aggregate i total results (stats_of d n e c)) w =
    (Returned (stats_of (d + total_downloaded results)
                        (n + tally "no_boe" results)
                        (e + tally "error" results)
                        (c + tally "cached" results)), w').
Proof.
  revert i d n e c w.
  induction results as [|[count status] rest IH]; intros i d n e c w.
  - exists w. cbn. rewrite !Z.add_0_r. reflexivity.
  - cbn [aggregate]. rewrite dict_iadd_downloaded.
    change (run (Ret ?s ≫= ?f) w) with (run (f s) w). cbv beta.
    rewrite !(tally_cons _ count status rest).
    assert (Htot : total_downloaded ((count, status) :: rest) =
                   count + total_downloaded rest) by reflexivity.
    rewrite Htot. clear Htot.
    assert (Hstep : forall s0 : gmap string Z,
              exists w0, forall k,
                run (Ret s0 ≫= (fun stats : gmap string Z =>
                       (if (i + 1) mod 365 =? 0
                        then print (MsgProgress (Z.to_nat (i + 1)) total)
                        else Ret tt) ≫= (fun _ : unit => k stats))) w =
                run (k s0 : prog (gmap string Z)) w0).
    { intros s0. destruct ((i + 1) mod 365 =? 0).
      - exists (log (EvPrint (MsgProgress (Z.to_nat (i + 1)) total)) w).
        intros k. reflexivity.
      - exists w. intros k. reflexivity. }
    destruct (String.eqb status "no_boe") eqn:H1;
      [|destruct (String.eqb status "error") eqn:H2;
        [|destruct (String.eqb status "cached") eqn:H3]].
    + apply String.eqb_eq in H1. subst status.
      rewrite dict_iadd_no_boe.
      destruct (Hstep (stats_of (d + count) (n + 1) e c)) as [w0 Hw0].
      rewrite Hw0. destruct (IH (i + 1) (d + count) (n + 1) e c w0) as [w' Hw'].
      exists w'. rewrite Hw'. do 2 f_equal.
      apply stats_of_ext; cbn [String.eqb Ascii.eqb Bool.eqb]; lia.
    + apply String.eqb_eq in H2. subst status.
      rewrite dict_iadd_errors.
      destruct (Hstep (stats_of (d + count) n (e + 1) c)) as [w0 Hw0].
      rewrite Hw0. destruct (IH (i + 1) (d + count) n (e + 1) c w0) as [w' Hw'].
      exists w'. rewrite Hw'. do 2 f_equal.
      apply stats_of_ext; cbn [String.eqb Ascii.eqb Bool.eqb]; lia.
    + apply String.eqb_eq in H3. subst status.
      rewrite dict_iadd_cached.
      destruct (Hstep (stats_of (d + count) n e (c + 1))) as [w0 Hw0].
      rewrite Hw0. destruct (IH (i + 1) (d + count) n e (c + 1) w0) as [w' Hw'].
      exists w'. rewrite Hw'. do 2 f_equal.
      apply stats_of_ext; cbn [String.eqb Ascii.eqb Bool.eqb]; lia.
    + destruct (Hstep (stats_of (d + count) n e c)) as [w0 Hw0].
      rewrite Hw0. destruct (IH (i + 1) (d + count) n e c w0) as [w' Hw'].
      exists w'. rewrite Hw'. do 2 f_equal.
      apply stats_of_ext; lia.
Qed.

(** ** C6: run statistics *)

Lemma total_downloaded_perm (rs rs' : list (Z * string)) :
  Permutation rs rs' -> total_downloaded rs = total_downloaded rs'.
Proof.
  unfold total_downloaded.
  induction 1 as [|x l l' _ IH|x y l|l l' l'' _ IH1 _ IH2]; cbn.
  - reflexivity.
  - rewrite IH. reflexivity.
  - lia.
  - congruence.
Qed.

Lemma tally_perm (status : string) (rs rs' : list (Z * string)) :
  Permutation rs rs' -> tally status rs = tally status rs'.
Proof.
  induction 1 as [|[c s] l l' _ IH|[c1 s1] [c2 s2] l|l l' l'' _ IH1 _ IH2].
  - reflexivity.
  - rewrite !tally_cons, IH. reflexivity.
  - rewrite !tally_cons. lia.
  - congruence.
Qed.

(** C6, as stated, fails: the statistics have no tally of the days whose
    status is "success".  After one day with outcome [(0, "success")] the
    dictionary holds 0 under each of its four keys, so no entry counts that
    day. *)
Lemma no_success_tally_counterexample :
  let results := [(0, "success")] in
  exists stats w',
    run (aggregate 0 1 results initial_stats) (world_of ∅ (net_always timed_out))
      = (Returned stats, w') /\
    tally "success" results = 1 /\
    dom stats = {["downloaded"; "no_boe"; "errors"; "cached"]} /\
    ~ exists key, stats !! key = Some (tally "success" results).
Proof.
  cbv zeta.
  destruct (run_aggregate [(0, "success")] 0 1 0 0 0 0
              (world_of ∅ (net_always timed_out))) as [w' H].
  exists (stats_of 0 0 0 0), w'. split; [|split; [|split]].
  - rewrite initial_stats_eq, H. reflexivity.
  - reflexivity.
  - unfold stats_of. rewrite !dom_insert_L, dom_empty_L. set_solver.
  - intros [key Hk]. change (tally "success" [(0, "success")]) with 1 in Hk.
    unfold stats_of in Hk. rewrite !lookup_insert in Hk.
    repeat case_decide; try discriminate.
    all: try (rewrite lookup_empty in Hk; discriminate).
Qed.

(** C6, amended.  The statistics after the aggregation loop are the sums
    over the day outcomes: "downloaded" is the sum of the counts, and
    "no_boe", "errors" and "cached" count the days with status "no_boe",
    "error" and "cached" (days with status "success" are not counted).
    The order of the outcomes does not matter: any reordering of the list
    gives the same statistics. *)
Theorem aggregate_is_sum (results results' : list (Z * string)) (i : Z)
    (total : nat) (w : world) :
  Permutation results results' ->
  fst (run (aggregate i total results' initial_stats) w) =
  Returned (stats_of (total_downloaded results)
                     (tally "no_boe" results)
                     (tally "error" results)
                     (tally "cached" results)).
Proof.
  intros Hperm. rewrite initial_stats_eq.
  destruct (run_aggregate results' i total 0 0 0 0 w) as [w' ->].
  cbn [fst]. f_equal.
  rewrite (total_downloaded_perm _ _ Hperm).
  rewrite !(tally_perm _ _ _ Hperm). reflexivity.
Qed.

Lemma aggregate_is_sum_witness :
  let results := [(2, "success"); (0, "cached"); (0, "no_boe"); (0, "error")] in
  let results' := [(0, "cached"); (2, "success"); (0, "no_boe"); (0, "error")] in
  fst (run (aggregate 0 4 results' initial_stats) (world_of ∅ (net_always timed_out))) =
  Returned (stats_of (total_downloaded results) (tally "no_boe" results)
                     (tally "error" results) (tally "cached" results)).
Proof.
  apply (aggregate_is_sum
           [(2, "success"); (0, "cached"); (0, "no_boe"); (0, "error")]
           [(0, "cached"); (2, "success"); (0, "no_boe"); (0, "error")]
           0 4 (world_of ∅ (net_always timed_out))).
  apply perm_swap.
Defined.

Example aggregate_four_days :
  fst (run (aggregate 0 4
              [(0, "cached"); (2, "success"); (0, "no_boe"); (0, "error")]
              initial_stats) (world_of ∅ (net_always timed_out))) =
  Returned (stats_of 2 1 1 1).
Proof. vm_compute. reflexivity. Qed.

(** ** Set-up and report of a run *)

Lemma generate_dates_stop (current end_date : datetime) (dates : list datetime) :
  datetime_le current end_date = false ->
  generate_dates current end_date dates = inr dates.
Proof.
  intros Hle. rewrite generate_dates_equation_1.
  unfold generate_dates_unfold_clause_1.
  destruct (inspect (datetime_le current end_date)) as [[|] Hb].
  - exfalso. congruence.
  - reflexivity.
Qed.

Lemma run_setup (start_date end_date : datetime) (concurrency : Z)
    (output_dir : Path) (w : world) (f' : gmap (list string) fnode)
    (dates : list datetime) :
  fs_mkdir false true output_dir (fs w) = inr f' ->
  generate_dates start_date end_date [] = inr dates ->
  0 <= concurrency ->
  run (setup start_date end_date concurrency output_dir) w =
  (Returned (dates, initial_stats, concurrency),
   log (EvPrint (MsgProcessing (length dates) start_date end_date))
     (log (EvMkdir output_dir None) (set_fs f' w))).
Proof.
  intros Hm Hd Hc. unfold setup. rewrite run_bind.
  unfold path_mkdir. cbn [run handle]. rewrite Hm. cbn [run].
  rewrite Hd. rewrite run_bind. cbn [run]. rewrite run_bind, run_print.
  unfold new_semaphore. apply Z.ltb_ge in Hc. rewrite Hc. reflexivity.
Qed.

Lemma stats_of_lookup (d n e c : Z) :
  stats_of d n e c !! "downloaded" = Some d /\
  stats_of d n e c !! "no_boe" = Some n /\
  stats_of d n e c !! "errors" = Some e /\
  stats_of d n e c !! "cached" = Some c.
Proof.
  unfold stats_of. repeat split; by simplify_map_eq.
Qed.

Lemma run_report (d n e c : Z) (w : world) :
  run (report (stats_of d n e c)) w =
  (Returned tt,
   log (EvPrint (MsgErrors e))
     (log (EvPrint (MsgNoBoe n))
        (log (EvPrint (MsgCached c))
           (log (EvPrint (MsgDownloaded d))
              (log (EvPrint MsgCompleted) w))))).
Proof.
  destruct (stats_of_lookup d n e c) as (Hd & Hn & He & Hc).
  unfold report, dict_getitem. rewrite Hd, Hn, He, Hc. reflexivity.
Qed.

(** With no task, every schedule leaves the event loop where it is. *)
Lemma run_schedule_no_task (output_dir : Path) (sched : list nat) (sem : Z)
    (w : world) :
  run_schedule output_dir sched (mkLoop sem [] w) = (None, mkLoop sem [] w).
Proof.
  induction sched as [|i rest IH]; [reflexivity|].
  cbn [run_schedule]. unfold step_task. cbn [tasks]. rewrite lookup_nil.
  exact IH.
Qed.

(** ** C9: an inverted date range *)

(** C9, as stated, fails: an inverted range does not by itself make the
    run complete.  Two calls come before the dates are used and raise on
    their own: [asyncio.Semaphore] refuses a negative concurrency with
    ValueError, and [output_dir.mkdir(exist_ok=True)], which makes no
    parents, raises FileNotFoundError when the parent of the output
    directory is missing. *)
Lemma inverted_range_raises_counterexample :
  let start_date := mkDatetime 738892 0 in
  let end_date := mkDatetime 738891 0 in
  let w := world_of ∅ (net_always timed_out) in
  datetime_gt start_date end_date = true /\
  fst (download_boe_pdfs start_date end_date (-1) ["boe"] [] w) =
    Some (Raised (ValueError "Semaphore initial value must be >= 0")) /\
  fst (download_boe_pdfs start_date end_date CONCURRENT_LIMIT ["data"; "boe"] [] w) =
    Some (Raised (OSError "FileNotFoundError")).
Proof. cbv zeta. repeat split. Qed.

(** C9, amended.  When [start_date > end_date], the output directory can
    be created and the concurrency is not negative, [download_boe_pdfs]
    builds an empty list of dates and, whatever the event loop does,
    completes without raising: it processes no day, makes no request, and
    reports 0 downloaded, 0 cached, 0 days without BOE and 0 errors. *)
Theorem inverted_range_completes (start_date end_date : datetime)
    (concurrency : Z) (output_dir : Path) (sched : list nat) (w : world)
    (f' : gmap (list string) fnode) :
  datetime_gt start_date end_date = true ->
  fs_mkdir false true output_dir (fs w) = inr f' ->
  0 <= concurrency ->
  generate_dates start_date end_date [] = inr [] /\
  exists w',
    download_boe_pdfs start_date end_date concurrency output_dir sched w =
      (Some (Returned tt), w') /\
    trace w' = trace w ++
      [EvMkdir output_dir None;
       EvPrint (MsgProcessing 0 start_date end_date);
       EvPrint MsgCompleted;
       EvPrint (MsgDownloaded 0); EvPrint (MsgCached 0);
       EvPrint (MsgNoBoe 0); EvPrint (MsgErrors 0)] /\
    clock w' = clock w.
Proof.
  intros Hgt Hm Hc.
  assert (Hle : datetime_le start_date end_date = false).
  { unfold datetime_gt in Hgt. destruct (datetime_le start_date end_date);
      [discriminate|reflexivity]. }
  pose proof (generate_dates_stop start_date end_date [] Hle) as Hd.
  split; [exact Hd|].
  unfold download_boe_pdfs.
  rewrite (run_setup _ _ _ _ _ f' [] Hm Hd Hc).
  cbn [List.map length]. rewrite run_schedule_no_task.
  cbn [tasks gather_results loop_world].
  rewrite run_bind. rewrite initial_stats_eq.
  cbn [aggregate run]. rewrite run_report.
  eexists. split; [reflexivity|]. split; [|reflexivity].
  cbn [trace log set_fs]. rewrite <- !app_assoc. reflexivity.
Qed.

Lemma inverted_range_completes_witness :
  let start_date := mkDatetime 738892 0 in
  let end_date := mkDatetime 738891 0 in
  let w := world_of ∅ (net_always timed_out) in
  generate_dates start_date end_date [] = inr [] /\
  exists w',
    download_boe_pdfs start_date end_date CONCURRENT_LIMIT ["boe"] [0; 1; 0]%nat w =
      (Some (Returned tt), w') /\
    trace w' = trace w ++
      [EvMkdir ["boe"] None;
       EvPrint (MsgProcessing 0 start_date end_date);
       EvPrint MsgCompleted;
       EvPrint (MsgDownloaded 0); EvPrint (MsgCached 0);
       EvPrint (MsgNoBoe 0); EvPrint (MsgErrors 0)] /\
    clock w' = clock w.
Proof.
  apply (inverted_range_completes (mkDatetime 738892 0) (mkDatetime 738891 0)
           CONCURRENT_LIMIT ["boe"] [0; 1; 0]%nat
           (world_of ∅ (net_always timed_out)) (<[["boe"] := Dir]> ∅)).
  - reflexivity.
  - reflexivity.
  - unfold CONCURRENT_LIMIT. lia.
Defined.

(** ** C5: unexpected summary bodies *)

Lemma extract_pdfs_missing_data (items : list (string * pyval)) :
  dict_lookup items "data" = None ->
  extract_pdfs (PDict items) = Ret [].
Proof. intros H. unfold extract_pdfs, py_get. rewrite H. reflexivity. Qed.

(** A summary whose fields are missing gives no entry and the outcome
    [(0, "success")]. *)
Example process_date_empty_object :
  fst (run (process_date date_2024_01_07 ["boe"])
         (world_of ∅ (net_always (GotResponse (resp_json (PDict [])))))) =
  Returned (0, "success").
Proof. reflexivity. Qed.

(** C5 does not hold of the code.  A 2xx summary whose JSON has a field of
    an unexpected shape makes [process_date] raise: [{"data": null}] and
    a top-level list end in AttributeError (the [.get] chain of line 71
    covers a missing key, not a value that is no dict), an entry of
    ["diario"] that is no dict does the same at line 76, and a body that
    is not JSON ends in JSONDecodeError, which the [except] of line 59 does
    not catch.  A body that is the JSON [null] gives [(0, "error")]. *)
Theorem process_date_malformed_raises :
  let run_with (r : Response) :=
    fst (run (process_date date_2024_01_07 ["boe"])
           (world_of ∅ (net_always (GotResponse r)))) in
  run_with (resp_json (PDict [("data", PNone)])) =
    Raised (AttributeError "object has no attribute 'get'") /\
  run_with (resp_json (PList [])) =
    Raised (AttributeError "object has no attribute 'get'") /\
  run_with (resp_json
              (PDict [("data", PDict [("sumario",
                 PDict [("diario", PList [PStr "BOE-S-2024-7"])])])])) =
    Raised (AttributeError "object has no attribute 'get'") /\
  run_with (mkResponse 200 [] None) = Raised JSONDecodeError /\
  run_with (resp_json PNone) = Returned (0, "error").
Proof. cbv zeta. repeat split. Qed.

(** The exception leaves [gather] and ends the whole run. *)
Example malformed_day_aborts_run :
  fst (download_boe_pdfs date_2024_01_07 date_2024_01_07 CONCURRENT_LIMIT
         ["boe"] [0; 0; 0; 0]%nat
         (world_of ∅ (net_always
            (GotResponse (resp_json (PDict [("data", PNone)])))))) =
  Some (Raised (AttributeError "object has no attribute 'get'")).
Proof. vm_compute. reflexivity. Qed.

(** ** What a download does to the world *)

Lemma path_parent_length (p : Path) :
  (length (path_parent p) <= length p)%nat.
Proof.
  unfold path_parent. destruct (is_root p); [lia|].
  induction p as [|a [|b p'] IH]; cbn in *; lia.
Qed.

(** Making a directory leaves every longer path as it was. *)
Lemma path_mkdir_rec_lookup (n : nat) (parents exist_ok : bool) (p q : Path)
    (f f' : gmap (list string) fnode) :
  path_mkdir_rec n parents exist_ok p f = inr f' ->
  (length p < length q)%nat ->
  f' !! q = f !! q.
Proof.
  revert parents exist_ok p f f'.
  induction n as [|n IH]; intros parents exist_ok p f f' Hm Hlen.
  - cbn [path_mkdir_rec] in Hm.
    destruct (os_mkdir p f) as [e|f0] eqn:Hos.
    + destruct (is_FileNotFoundError e).
      * destruct (negb parents || is_root p); discriminate.
      * destruct (negb exist_ok || negb (fs_is_dir f p)); [discriminate|].
        injection Hm as <-. reflexivity.
    + injection Hm as <-. apply os_mkdir_inr in Hos as [-> _].
      apply lookup_insert_ne. intros ->. lia.
  - cbn [path_mkdir_rec] in Hm.
    destruct (os_mkdir p f) as [e|f0] eqn:Hos.
    + destruct (is_FileNotFoundError e).
      * destruct (negb parents || is_root p); [discriminate|].
        destruct (path_mkdir_rec n true true (path_parent p) f)
          as [e1|f1] eqn:Hp; [discriminate|].
        pose proof (path_parent_length p) as Hpl.
        rewrite (IH _ _ _ _ _ Hm Hlen).
        apply (IH _ _ _ _ _ Hp). lia.
      * destruct (negb exist_ok || negb (fs_is_dir f p)); [discriminate|].
        injection Hm as <-. reflexivity.
    + injection Hm as <-. apply os_mkdir_inr in Hos as [-> _].
      apply lookup_insert_ne. intros ->. lia.
Qed.

Lemma fs_write_lookup (p : Path) (data : list byte)
    (f f' : gmap (list string) fnode) :
  fs_write p data f = inr f' -> f' !! p = Some (File data).
Proof.
  intros Hw. apply fs_write_inr in Hw as [-> _]. apply lookup_insert_eq.
Qed.

Lemma written_app (evs1 evs2 : list event) :
  written (evs1 ++ evs2) = written evs1 ++ written evs2.
Proof. apply omap_app. Qed.

Lemma last_written_app (evs1 evs2 : list event) :
  last_written (evs1 ++ evs2) =
  match last_written evs2 with
  | Some data => Some data
  | None => last_written evs1
  end.
Proof.
  unfold last_written. rewrite written_app.
  generalize (written evs1) (written evs2).
  intros l1 l2. destruct l2 as [|x l2] using rev_ind.
  - rewrite app_nil_r. reflexivity.
  - rewrite app_assoc, !last_snoc. reflexivity.
Qed.

Lemma last_written_nil (evs : list event) :
  written evs = [] -> last_written evs = None.
Proof. unfold last_written. intros ->. reflexivity. Qed.

Lemma tracks_refl (path : Path) (w : world) : tracks path w w [].
Proof.
  unfold tracks. rewrite app_nil_r. repeat split. constructor.
Qed.

Lemma tracks_trans (path : Path) (w1 w2 w3 : world) (evs1 evs2 : list event) :
  tracks path w1 w2 evs1 -> tracks path w2 w3 evs2 ->
  tracks path w1 w3 (evs1 ++ evs2).
Proof.
  intros (Ht1 & Hn1 & Hf1 & Hl1) (Ht2 & Hn2 & Hf2 & Hl2).
  unfold tracks. repeat split.
  - rewrite Ht2, Ht1, app_assoc. reflexivity.
  - congruence.
  - apply Forall_app. split; assumption.
  - rewrite Hl2, last_written_app.
    destruct (last_written evs2); [reflexivity|exact Hl1].
Qed.

(** An event that leaves the filesystem alone. *)
Lemma tracks_log (path : Path) (w : world) (ev : event) :
  event_ok path ev ->
  last_written [ev] = None ->
  tracks path w (log ev w) [ev].
Proof.
  intros Hok Hl. unfold tracks. rewrite Hl. repeat split.
  constructor; [exact Hok|constructor].
Qed.

Lemma tracks_after_get (path : Path) (url : string) (hs : headers) (w : world) :
  tracks path w (after_get url hs w)
    [EvGet url hs (net w (clock w) url hs)].
Proof.
  unfold tracks, after_get. repeat split.
  constructor; [exact I|constructor].
Qed.

(** The mkdir and write of a download: one write when it goes through,
    none when it raises. *)
Lemma store_tracks (path : Path) (data : list byte) (w w' : world)
    (o : outcome unit) :
  (length (path_parent path) < length path)%nat ->
  store path data w = (o, w') ->
  exists evs, tracks path w w' evs /\
    written evs = match o with Returned _ => [data] | Raised _ => [] end.
Proof.
  intros Hlen Hs. unfold store in Hs.
  destruct (fs_mkdir true true (path_parent path) (fs w)) as [e|f1] eqn:Hm.
  - injection Hs as <- <-. exists [EvMkdir (path_parent path) (Some e)].
    split; [|reflexivity].
    apply tracks_log; [reflexivity|reflexivity].
  - pose proof (path_mkdir_rec_lookup _ _ _ _ path _ _ Hm Hlen) as Hsame.
    destruct (fs_write path data f1) as [e|f2] eqn:Hw.
    + injection Hs as <- <-.
      exists [EvMkdir (path_parent path) None; EvWrite path data (Some e)].
      split; [|reflexivity].
      unfold tracks. cbn. rewrite <- app_assoc. repeat split.
      * repeat constructor.
      * exact Hsame.
    + injection Hs as <- <-.
      exists [EvMkdir (path_parent path) None; EvWrite path data None].
      split; [|reflexivity].
      unfold tracks. cbn. rewrite <- app_assoc. repeat split.
      * repeat constructor.
      * apply (fs_write_lookup _ _ _ _ Hw).
Qed.

(** ** Every run of a download *)

Section DownloadRuns.
Variable path : Path.
Hypothesis path_long : (length (path_parent path) < length path)%nat.

Lemma download_pdf_try_tracks (url : pyval) (w w' : world) (o : outcome unit) :
  run (download_pdf_try url path) w = (o, w') ->
  exists evs, tracks path w w' evs /\ one_write o evs /\
    (forall s, url = PStr s -> exists g rest, evs = EvGet s [] g :: rest).
Proof.
  intros Hrun.
  destruct url as [| | | |s| |];
    try (injection Hrun as <- <-; exists [];
         split; [apply tracks_refl|split; [reflexivity|discriminate]]).
  rewrite run_download_pdf_try in Hrun.
  pose proof (tracks_after_get path s [] w) as Hget.
  destruct (net w (clock w) s []) as [r|e] eqn:Hg.
  - destruct (is_success r).
    + destruct (store_tracks path _ _ _ _ path_long Hrun) as (evs & Ht & Hw).
      eexists. split; [exact (tracks_trans _ _ _ _ _ _ Hget Ht)|]. split.
      * unfold one_write. rewrite written_app, Hw.
        destruct o; [eexists|]; reflexivity.
      * intros s' [= <-]. eexists. eexists. reflexivity.
    + injection Hrun as <- <-. eexists. split; [exact Hget|]. split.
      * reflexivity.
      * intros s' [= <-]. eexists. eexists. reflexivity.
  - injection Hrun as <- <-. eexists. split; [exact Hget|]. split.
    + reflexivity.
    + intros s' [= <-]. eexists. eexists. reflexivity.
Qed.

Lemma download_pdf_loop_tracks (attempts : list Z) (url : pyval)
    (w w' : world) (o : outcome unit) :
  (exists a, last attempts = Some a /\ MAX_RETRIES - 1 <= a) ->
  run (download_pdf_loop attempts url path) w = (o, w') ->
  exists evs, tracks path w w' evs /\ one_write o evs /\
    (forall s, url = PStr s -> exists g rest, evs = EvGet s [] g :: rest).
Proof.
  revert w. induction attempts as [|attempt rest IH]; intros w Hlast Hrun.
  - destruct Hlast as (a & Ha & _). discriminate.
  - rewrite run_download_pdf_loop_cons in Hrun.
    destruct (run (download_pdf_try url path) w) as [[[]|e] w1] eqn:Htry.
    + injection Hrun as <- <-.
      exact (download_pdf_try_tracks _ _ _ _ Htry).
    + destruct (download_pdf_try_tracks _ _ _ _ Htry) as (evs & Ht & Hw & Hg).
      cbn [one_write] in Hw.
      destruct (is_HTTPError e);
        [destruct (attempt <? MAX_RETRIES - 1) eqn:Hlt|].
      * assert (Hlast' : exists a, last rest = Some a /\ MAX_RETRIES - 1 <= a).
        { destruct Hlast as (a & Ha & Hge). destruct rest as [|a' rest'].
          - injection Ha as ->. apply Z.ltb_lt in Hlt. lia.
          - exists a. split; [exact Ha|exact Hge]. }
        destruct (IH _ Hlast' Hrun) as (evs2 & Ht2 & Hw2 & _).
        pose proof (tracks_log path w1
                      (EvSleep (RETRY_DELAY * (attempt + 1))) I eq_refl) as Hs.
        exists (evs ++ [EvSleep (RETRY_DELAY * (attempt + 1))] ++ evs2).
        split; [exact (tracks_trans _ _ _ _ _ _ Ht
                         (tracks_trans _ _ _ _ _ _ Hs Ht2))|]. split.
        -- unfold one_write in *. rewrite !written_app, Hw. exact Hw2.
        -- intros s Hs'. destruct (Hg s Hs') as (g & rest0 & ->).
           eexists. eexists. reflexivity.
      * injection Hrun as <- <-. exists evs. split; [exact Ht|].
        split; [exact Hw|exact Hg].
      * injection Hrun as <- <-. exists evs. split; [exact Ht|].
        split; [exact Hw|exact Hg].
Qed.

Lemma download_pdf_tracks (url : pyval) (w w' : world) (o : outcome unit) :
  run (download_pdf url path) w = (o, w') ->
  exists evs, tracks path w w' evs /\ one_write o evs /\
    (forall s, url = PStr s -> exists g rest, evs = EvGet s [] g :: rest).
Proof.
  intros Hrun. unfold download_pdf in Hrun. rewrite range_MAX_RETRIES in Hrun.
  apply (download_pdf_loop_tracks [0; 1; 2] url w w' o); [|exact Hrun].
  exists 2. split; [reflexivity|unfold MAX_RETRIES; lia].
Qed.
End DownloadRuns.

(** A URL whose every request fails makes [download_pdf] raise, after three
    requests and the two sleeps between them. *)
Lemma download_pdf_always_failing (url : string) (path : Path) (w : world) :
  (forall n, is_Some (get_failure (net w n url []))) ->
  exists e w',
    run (download_pdf (PStr url) path) w = (Raised e, w') /\
    length (requests (trace w')) = (length (requests (trace w)) + 3)%nat.
Proof.
  intros Hfail.
  destruct (Hfail (clock w)) as [e1 He1].
  destruct (Hfail (S (clock w))) as [e2 He2].
  destruct (Hfail (S (S (clock w)))) as [e3 He3].
  unfold download_pdf. rewrite range_MAX_RETRIES.
  erewrite download_loop_retry by (cbn; eauto; reflexivity).
  erewrite download_loop_retry by (cbn; eauto; reflexivity).
  erewrite download_loop_give_up by (cbn; eauto; reflexivity).
  eexists. eexists. split; [reflexivity|].
  cbn. unfold requests. rewrite !omap_app, !length_app. cbn. lia.
Qed.

(** ** Every run of the download phase *)

Lemma pdf_path_long (output_dir : Path) (date : datetime) :
  (length (path_parent (pdf_path_of output_dir date)) <
   length (pdf_path_of output_dir date))%nat.
Proof.
  rewrite pdf_path_of_parts.
  generalize (fmt4 (year_of date)) (fmt2 (month_of date)) (fmt2 (day_of date)).
  intros a b c. unfold path_parent.
  assert (Hroot : is_root (output_dir ++ [a; b; c; "boe.pdf"]) = false).
  { destruct output_dir as [|x [|y l]]; reflexivity. }
  rewrite Hroot.
  change [a; b; c; "boe.pdf"] with ([a; b; c] ++ ["boe.pdf"]).
  rewrite app_assoc, removelast_last, !length_app. cbn. lia.
Qed.

(** The download phase never raises; it tries every entry in turn and
    counts the downloads that went through, one write each. *)
Lemma download_loop_runs (output_dir : Path) (date : datetime)
    (date_str : string) (pdfs : list (pyval * pyval)) (d0 : Z) (w : world) :
  exists d w' evs,
    run (download_loop output_dir date date_str pdfs d0) w = (Returned d, w') /\
    tracks (pdf_path_of output_dir date) w w' evs /\
    d0 <= d <= d0 + Z.of_nat (length pdfs) /\
    d = d0 + Z.of_nat (length (written evs)) /\
    Forall (fun p => forall s, fst p = PStr s -> exists g, In (EvGet s [] g) evs)
           pdfs /\
    (Exists (fun p => exists s, fst p = PStr s /\
                        forall n, is_Some (get_failure (net w n s []))) pdfs ->
     d < d0 + Z.of_nat (length pdfs)).
Proof.
  revert d0 w. induction pdfs as [|[pdf_url identifier] rest IH]; intros d0 w.
  - exists d0, w, []. split; [reflexivity|]. split; [apply tracks_refl|].
    split; [cbn; lia|]. split; [cbn; lia|]. split; [constructor|].
    intros H. inversion H.
  - rewrite run_download_loop_cons.
    destruct (run (download_pdf pdf_url (pdf_path_of output_dir date)) w)
      as [o w1] eqn:Hdl.
    destruct (download_pdf_tracks _ (pdf_path_long output_dir date) _ _ _ _ Hdl)
      as (evs1 & Ht1 & Hw1 & Hg1).
    destruct o as [[]|e]; cbn [one_write] in Hw1.
    + destruct Hw1 as [data Hw1].
      destruct (IH (d0 + 1) w1) as (d & w' & evs2 & Hrun & Ht2 & Hd & Hn & Hall & Hex).
      exists d, w', (evs1 ++ evs2). split; [exact Hrun|].
      split; [exact (tracks_trans _ _ _ _ _ _ Ht1 Ht2)|].
      split; [cbn [length]; lia|].
      split; [rewrite written_app, length_app, Hw1; cbn [length]; lia|].
      split.
      * constructor.
        -- intros s Hs. cbn in Hs. destruct (Hg1 s Hs) as (g & r0 & ->).
           exists g. left. reflexivity.
        -- eapply Forall_impl; [exact Hall|].
           intros p Hp s Hs. destruct (Hp s Hs) as [g Hin].
           exists g. apply in_or_app. right. exact Hin.
      * intros Hexists. apply Exists_cons in Hexists as [Hhere|Hrest].
        -- destruct Hhere as (s & Hs & Hfail). cbn in Hs. subst pdf_url.
           destruct (download_pdf_always_failing s (pdf_path_of output_dir date)
                       w Hfail) as (e & w2 & Hr & _).
           rewrite Hr in Hdl. discriminate.
        -- cbn [length]. assert (d < d0 + 1 + Z.of_nat (length rest)); [|lia].
           apply Hex. eapply Exists_impl; [exact Hrest|].
           intros p (s & Hs & Hfail). exists s. split; [exact Hs|].
           destruct Ht1 as (_ & Hn1 & _). rewrite Hn1. exact Hfail.
    + pose proof (tracks_log (pdf_path_of output_dir date) w1
                    (EvPrint (MsgFailedDownload identifier date_str e))
                    I eq_refl) as Hp.
      destruct (IH d0 (log (EvPrint (MsgFailedDownload identifier date_str e)) w1))
        as (d & w' & evs2 & Hrun & Ht2 & Hd & Hn & Hall & Hex).
      exists d, w',
        (evs1 ++ [EvPrint (MsgFailedDownload identifier date_str e)] ++ evs2).
      split; [exact Hrun|].
      split; [exact (tracks_trans _ _ _ _ _ _ Ht1
                       (tracks_trans _ _ _ _ _ _ Hp Ht2))|].
      split; [cbn [length]; lia|].
      split; [rewrite !written_app, !length_app, Hw1; cbn; lia|].
      split.
      * constructor.
        -- intros s Hs. cbn in Hs. destruct (Hg1 s Hs) as (g & r0 & ->).
           exists g. left. reflexivity.
        -- eapply Forall_impl; [exact Hall|].
           intros p Hq s Hs. destruct (Hq s Hs) as [g Hin].
           exists g. apply in_or_app. right. right. exact Hin.
      * intros _. cbn [length]. lia.
Qed.

(** ** Reading the summary *)

Lemma bind_ret {A B : Type} (a : A) (f : A -> prog B) : (Ret a ≫= f) = f a.
Proof. reflexivity. Qed.

Lemma bind_raise {A B : Type} (e : exn) (f : A -> prog B) :
  (Raise e ≫= f) = Raise e.
Proof. reflexivity. Qed.

Lemma py_get_pure (v : pyval) (key : string) (default : pyval) :
  (exists x, py_get v key default = Ret x) \/
  (exists e, py_get v key default = Raise e).
Proof. destruct v; cbn; eauto. Qed.

Lemma extract_loop_pure (diarios : list pyval) (pdfs : list (pyval * pyval)) :
  (exists r, extract_loop diarios pdfs = Ret r) \/
  (exists e, extract_loop diarios pdfs = Raise e).
Proof.
  revert pdfs. induction diarios as [|diario rest IH]; intros pdfs.
  - left. eexists. reflexivity.
  - cbn [extract_loop].
    destruct (py_get_pure diario "sumario_diario" (PDict [])) as [[x ->]|[e ->]];
      [rewrite bind_ret|right; eexists; reflexivity].
    destruct (py_get_pure x "url_pdf" (PDict [])) as [[y ->]|[e ->]];
      [rewrite bind_ret|right; eexists; reflexivity].
    destruct (py_get_pure y "texto" PNone) as [[z ->]|[e ->]];
      [rewrite bind_ret|right; eexists; reflexivity].
    destruct (truthy z); [|apply IH].
    destruct (py_get_pure x "identificador" (PStr "unknown")) as [[i ->]|[e ->]];
      [rewrite bind_ret; apply IH|right; eexists; reflexivity].
Qed.

(** Extracting the entries does no I/O: it gives a list or raises. *)
Lemma extract_pdfs_pure (data : pyval) :
  (exists pdfs, extract_pdfs data = Ret pdfs) \/
  (exists e, extract_pdfs data = Raise e).
Proof.
  unfold extract_pdfs.
  destruct (py_get_pure data "data" (PDict [])) as [[x ->]|[e ->]];
    [rewrite bind_ret|right; eexists; reflexivity].
  destruct (py_get_pure x "sumario" (PDict [])) as [[y ->]|[e ->]];
    [rewrite bind_ret|right; eexists; reflexivity].
  destruct (py_get_pure y "diario" (PList [])) as [[z ->]|[e ->]];
    [rewrite bind_ret|right; eexists; reflexivity].
  apply extract_loop_pure.
Qed.


(** ** Every run of the summary loop *)

Lemma summary_loop_tracks (path : Path) (attempts : list Z) (date_str : string)
    (data0 : pyval) (w w' : world) (o : outcome ((Z * string) + pyval)) :
  run (summary_loop attempts date_str data0) w = (o, w') ->
  exists evs, tracks path w w' evs /\
    written evs = [] /\
    (forall res, o = Returned (inl res) ->
                 res = (0, "no_boe") \/ res = (0, "error")) /\
    (forall data, o = Returned (inr data) ->
       data = data0 \/
       exists r, In (EvGet (api_url date_str) accept_json (GotResponse r)) evs /\
                 is_success r = true /\ json r = Some data).
Proof.
  revert w. induction attempts as [|attempt rest IH]; intros w Hrun.
  - injection Hrun as <- <-. exists []. split; [apply tracks_refl|].
    split; [reflexivity|]. split.
    + intros res [=].
    + intros data [= <-]. left. reflexivity.
  - rewrite run_summary_loop_cons, run_summary_try in Hrun.
    pose proof (tracks_after_get path (api_url date_str) accept_json w) as Hget.
    set (w1 := after_get (api_url date_str) accept_json w) in *.
    assert (Hfail : forall e,
      (if is_HTTPError e
       then if attempt <? MAX_RETRIES - 1
            then run (summary_loop rest date_str data0)
                   (log (EvSleep (RETRY_DELAY * (attempt + 1))) w1)
            else (Returned (inl (0, "error")),
                  log (EvPrint (MsgFailedAfter MAX_RETRIES date_str e)) w1)
       else (Raised e, w1)) = (o, w') ->
      exists evs2, tracks path w1 w' evs2 /\ written evs2 = [] /\
        (forall res, o = Returned (inl res) ->
                     res = (0, "no_boe") \/ res = (0, "error")) /\
        (forall data, o = Returned (inr data) ->
           data = data0 \/
           exists r, In (EvGet (api_url date_str) accept_json (GotResponse r)) evs2 /\
                     is_success r = true /\ json r = Some data)).
    { intros e He. destruct (is_HTTPError e);
        [destruct (attempt <? MAX_RETRIES - 1)|].
      - destruct (IH _ He) as (evs2 & Ht2 & Hl2 & Hres & Hdata).
        pose proof (tracks_log path w1
                      (EvSleep (RETRY_DELAY * (attempt + 1))) I eq_refl) as Hs.
        exists ([EvSleep (RETRY_DELAY * (attempt + 1))] ++ evs2).
        split; [exact (tracks_trans _ _ _ _ _ _ Hs Ht2)|].
        split; [rewrite written_app, Hl2; reflexivity|].
        split; [exact Hres|].
        intros data Hd. destruct (Hdata data Hd) as [->|(r & Hin & Hok & Hj)].
        + left. reflexivity.
        + right. exists r. split; [right; exact Hin|]. split; assumption.
      - injection He as <- <-. eexists. split.
        + apply tracks_log; [exact I|reflexivity].
        + split; [reflexivity|]. split.
          * intros res [= <-]. right. reflexivity.
          * intros data [=].
      - injection He as <- <-. exists []. split; [apply tracks_refl|].
        split; [reflexivity|]. split; intros ? [=]. }
    assert (Hwrap : forall evs2,
      tracks path w1 w' evs2 -> written evs2 = [] ->
      tracks path w w'
        (EvGet (api_url date_str) accept_json
           (net w (clock w) (api_url date_str) accept_json) :: evs2) /\
      written
        (EvGet (api_url date_str) accept_json
           (net w (clock w) (api_url date_str) accept_json) :: evs2) = []).
    { intros evs2 Ht2 Hl2. split.
      - exact (tracks_trans _ _ _ _ _ _ Hget Ht2).
      - change (EvGet ?a ?b ?c :: evs2) with ([EvGet a b c] ++ evs2).
        rewrite written_app, Hl2. reflexivity. }
    destruct (net w (clock w) (api_url date_str) accept_json) as [r|e] eqn:Hg.
    + destruct (status_code r =? 404).
      * injection Hrun as <- <-. destruct (Hwrap [] (tracks_refl _ _) eq_refl)
          as [Ht Hl].
        eexists. split; [exact Ht|]. split; [exact Hl|]. split.
        -- intros res [= <-]. left. reflexivity.
        -- intros data [=].
      * destruct (is_success r) eqn:Hok.
        -- destruct (json r) as [v|] eqn:Hj.
           ++ injection Hrun as <- <-.
              destruct (Hwrap [] (tracks_refl _ _) eq_refl) as [Ht Hl].
              eexists. split; [exact Ht|]. split; [exact Hl|]. split.
              ** intros res [=].
              ** intros data [= <-]. right. exists r.
                 split; [left; reflexivity|]. split; assumption.
           ++ injection Hrun as <- <-.
              destruct (Hwrap [] (tracks_refl _ _) eq_refl) as [Ht Hl].
              eexists. split; [exact Ht|]. split; [exact Hl|].
              split; intros ? [=].
        -- destruct (Hfail (HTTPStatusError (status_code r)) Hrun) as (evs2 & Ht2 & Hl2 & Hres & Hdata).
           destruct (Hwrap evs2 Ht2 Hl2) as [Ht Hl].
           eexists. split; [exact Ht|]. split; [exact Hl|].
           split; [exact Hres|].
           intros data Hd. destruct (Hdata data Hd) as [->|(r' & Hin & Hok' & Hj)].
           ++ left. reflexivity.
           ++ right. exists r'. split; [right; exact Hin|]. split; assumption.
    + destruct (Hfail e Hrun) as (evs2 & Ht2 & Hl2 & Hres & Hdata).
      destruct (Hwrap evs2 Ht2 Hl2) as [Ht Hl].
      eexists. split; [exact Ht|]. split; [exact Hl|].
      split; [exact Hres|].
      intros data Hd. destruct (Hdata data Hd) as [->|(r' & Hin & Hok' & Hj)].
      * left. reflexivity.
      * right. exists r'. split; [right; exact Hin|]. split; assumption.
Qed.

(** ** Every run of [process_date] *)

Lemma process_date_runs (date : datetime) (output_dir : Path) (w w' : world)
    (o : outcome (Z * string)) :
  run (process_date date output_dir) w = (o, w') ->
  exists evs, tracks (pdf_path_of output_dir date) w w' evs /\
    match o with
    | Raised _ => True
    | Returned (count, status) =>
        (status = "cached" /\ count = 0 /\ written evs = []) \/
        (status = "no_boe" /\ count = 0 /\ written evs = []) \/
        (status = "error" /\ count = 0 /\ written evs = []) \/
        (status = "success" /\
         count = Z.of_nat (length (written evs)) /\
         exists r data pdfs,
           In (EvGet (api_url (strftime_Ymd date)) accept_json (GotResponse r)) evs /\
           is_success r = true /\ json r = Some data /\
           extract_pdfs data = Ret pdfs /\
           0 <= count <= Z.of_nat (length pdfs))
    end.
Proof.
  intros Hrun. rewrite run_process_date in Hrun. cbv zeta in Hrun.
  set (path := pdf_path_of output_dir date) in *.
  destruct (fs_exists (fs w) path).
  { injection Hrun as <- <-. eexists. split.
    - apply tracks_log; [exact I|reflexivity].
    - left. repeat split. }
  pose proof (tracks_log path w (EvExists path false) I eq_refl) as Hex.
  destruct (run (summary_loop (range MAX_RETRIES) (strftime_Ymd date) PNone)
              (log (EvExists path false) w)) as [o1 w1] eqn:Hsum.
  destruct (summary_loop_tracks path _ _ _ _ _ _ Hsum)
    as (evs1 & Ht1 & Hl1 & Hres & Hdata).
  pose proof (tracks_trans _ _ _ _ _ _ Hex Ht1) as Ht01.
  assert (Hl01 : written ([EvExists path false] ++ evs1) = []).
  { rewrite written_app, Hl1. reflexivity. }
  destruct o1 as [[res|data]|e].
  - injection Hrun as <- <-. eexists. split; [exact Ht01|].
    destruct (Hres res eq_refl) as [-> | ->].
    + right. left. repeat split. exact Hl01.
    + right. right. left. repeat split. exact Hl01.
  - destruct (is_None data) eqn:Hnone.
    { injection Hrun as <- <-. eexists. split; [exact Ht01|].
      right. right. left. repeat split. exact Hl01. }
    destruct (Hdata data eq_refl) as [->|(r & Hin & Hok & Hj)];
      [discriminate|].
    destruct (extract_pdfs_pure data) as [[pdfs Hp]|[e Hp]]; rewrite Hp in Hrun.
    + cbn [run] in Hrun.
      destruct (download_loop_runs output_dir date (strftime_Ymd date) pdfs 0 w1)
        as (d & w3 & evs2 & Hdl & Ht2 & Hd & Hn & _ & _).
      fold path in Ht2. rewrite Hdl in Hrun. injection Hrun as <- <-.
      eexists. split; [exact (tracks_trans _ _ _ _ _ _ Ht01 Ht2)|].
      right. right. right. split; [reflexivity|].
      split; [rewrite written_app, Hl01; cbn [app]; lia|].
      exists r, data, pdfs. split.
      { apply in_or_app. left. right. exact Hin. }
      split; [exact Hok|]. split; [exact Hj|]. split; [exact Hp|]. lia.
    + cbn [run] in Hrun. injection Hrun as <- <-.
      eexists. split; [exact Ht01|]. exact I.
  - injection Hrun as <- <-. eexists. split; [exact Ht01|]. exact I.
Qed.


(** ** The download phase, entry by entry *)

Lemma store_ok (path : Path) (data : list byte) (w : world)
    (f1 f2 : gmap (list string) fnode) :
  fs_mkdir true true (path_parent path) (fs w) = inr f1 ->
  fs_write path data f1 = inr f2 ->
  store path data w =
  (Returned tt,
   log (EvWrite path data None)
     (set_fs f2 (log (EvMkdir (path_parent path) None) (set_fs f1 w)))).
Proof.
  intros Hm Hw. unfold store. rewrite Hm, Hw. reflexivity.
Qed.

Lemma store_all_last (path : Path) (bodies : list (list byte))
    (f f' : gmap (list string) fnode) (data : list byte) :
  store_all path bodies f = Some f' ->
  last bodies = Some data ->
  f' !! path = Some (File data).
Proof.
  revert f. induction bodies as [|d rest IH]; intros f Hs Hl; [discriminate|].
  cbn [store_all] in Hs.
  destruct (fs_mkdir true true (path_parent path) f) as [e|f1]; [discriminate|].
  destruct (fs_write path d f1) as [e|f2] eqn:Hw; [discriminate|].
  destruct rest as [|d' rest].
  - injection Hs as <-. injection Hl as <-. exact (fs_write_lookup _ _ _ _ Hw).
  - apply (IH f2 Hs). exact Hl.
Qed.

(** The download loop over entries of known fate: every stored entry is
    requested once and written to the one path, every refused entry is
    requested three times and reported, and the count is the number of
    stored entries. *)
Lemma download_loop_fates (output_dir : Path) (date : datetime)
    (date_str : string) (entries : list entry) (d0 : Z) (w : world)
    (f' : gmap (list string) fnode) :
  let path := pdf_path_of output_dir date in
  Forall (fate_ok (net w)) entries ->
  store_all path (stored_bodies entries) (fs w) = Some f' ->
  exists w',
    run (download_loop output_dir date date_str
           (List.map (fun en => (PStr (entry_url en), entry_identifier en)) entries)
           d0) w =
      (Returned (d0 + Z.of_nat (length (stored_bodies entries))), w') /\
    trace w' = trace w ++ concat (List.map (entry_events path date_str) entries) /\
    fs w' = f' /\ net w' = net w.
Proof.
  intros path. revert d0 w.
  induction entries as [|[[url identifier] [r|g e]] rest IH]; intros d0 w Hall Hst.
  - injection Hst as <-. exists w. cbn. rewrite Z.add_0_r, app_nil_r.
    repeat split.
  - apply Forall_cons in Hall as [[Hok Hnet] Hall].
    cbn [entry_url entry_fate fst snd] in Hok, Hnet.
    unfold stored_bodies in Hst |- *. cbn [omap list_omap entry_fate snd] in Hst |- *.
    fold (stored_bodies rest) in Hst |- *.
    cbn [store_all] in Hst.
    destruct (fs_mkdir true true (path_parent path) (fs w)) as [e1|f1] eqn:Hm;
      [discriminate|].
    destruct (fs_write path (content r) f1) as [e2|f2] eqn:Hw; [discriminate|].
    cbn [List.map entry_url entry_identifier fst snd].
    rewrite run_download_loop_cons. fold path.
    unfold download_pdf. rewrite range_MAX_RETRIES.
    rewrite (download_loop_ok _ _ _ _ _ r (Hnet (clock w)) Hok).
    rewrite (store_ok path (content r) (after_get url [] w) f1 f2 Hm Hw).
    set (w2 := log (EvWrite path (content r) None)
                 (set_fs f2 (log (EvMkdir (path_parent path) None)
                               (set_fs f1 (after_get url [] w))))).
    destruct (IH (d0 + 1) w2 Hall Hst) as (w' & Hrun & Ht & Hf & Hn).
    exists w'. split; [rewrite Hrun; do 2 f_equal; cbn [length]; lia|].
    split; [|split; [exact Hf|exact Hn]].
    rewrite Ht. subst w2. cbn [trace log set_fs after_get tick].
    rewrite (Hnet (clock w)). cbn [concat List.map].
    unfold entry_events at 2. cbn [entry_fate entry_url fst snd].
    rewrite <- !app_assoc. reflexivity.
  - apply Forall_cons in Hall as [[Hfail Hnet] Hall].
    cbn [entry_url entry_fate fst snd] in Hfail, Hnet.
    unfold stored_bodies in Hst |- *. cbn [omap list_omap entry_fate snd] in Hst |- *.
    fold (stored_bodies rest) in Hst |- *.
    cbn [List.map entry_url entry_identifier fst snd].
    rewrite run_download_loop_cons. fold path.
    unfold download_pdf. rewrite range_MAX_RETRIES.
    erewrite download_loop_retry;
      [|apply Hnet|exact Hfail|unfold MAX_RETRIES; lia].
    erewrite download_loop_retry;
      [|apply Hnet|exact Hfail|unfold MAX_RETRIES; lia].
    erewrite download_loop_give_up;
      [|apply Hnet|exact Hfail|unfold MAX_RETRIES; lia].
    match goal with
    | |- context [run _ ?w0] =>
        match w0 with
        | log (EvPrint _) _ => set (w2 := w0)
        end
    end.
    destruct (IH d0 w2 Hall Hst) as (w' & Hrun & Ht & Hf & Hn).
    exists w'. split; [exact Hrun|].
    split; [|split; [exact Hf|exact Hn]].
    rewrite Ht. subst w2. cbn [trace log set_fs after_get tick clock net].
    rewrite !Hnet. cbn [concat List.map].
    unfold entry_events at 2. cbn [entry_fate entry_url entry_identifier fst snd].
    cbn [retry_events]. rewrite <- !app_assoc. reflexivity.
Qed.

(** ** C7: one path per date *)

(** C7.  The artifact of a day has one path,
    [<output_root>/<YYYY>/<MM>/<DD>/boe.pdf], whatever the identifier of
    the entry it comes from.

    First, in every run of [process_date], whatever the answers of the
    network and however the run ends, every write the run attempts is a
    write to that path.

    Second, the writes do take place, and the later one replaces the
    earlier one.  Take a day that is not stored yet and whose summary
    gives any number of entries, each with a URL and any identifier, and
    let each entry either be answered 2xx (its body is stored) or fail at
    every request.  Then [process_date] downloads the entries in order:
    the events of the download phase are exactly the request, the [mkdir]
    and the write to that path of each stored entry, and the three
    requests of each refused one; the bodies written are those of the
    stored entries, in order; the count is their number; and at the end
    the file holds the body of the last stored entry. *)
Theorem artifact_path_is_fixed (date : datetime) (output_dir : Path) :
  let path := output_dir ++ [fmt4 (year_of date); fmt2 (month_of date);
                             fmt2 (day_of date); "boe.pdf"] in
  (forall (w w' : world) (o : outcome (Z * string)) (evs : list event),
     run (process_date date output_dir) w = (o, w') ->
     trace w' = trace w ++ evs ->
     forall p data res, In (EvWrite p data res) evs -> p = path) /\
  (forall (w w1 : world) (data : pyval) (entries : list entry)
          (f' : gmap (list string) fnode),
     fs_exists (fs w) path = false ->
     run (summary_loop (range MAX_RETRIES) (strftime_Ymd date) PNone)
         (log (EvExists path false) w) = (Returned (inr data), w1) ->
     is_None data = false ->
     extract_pdfs data =
       Ret (List.map (fun en => (PStr (entry_url en), entry_identifier en))
              entries) ->
     Forall (fate_ok (net w)) entries ->
     store_all path (stored_bodies entries) (fs w1) = Some f' ->
     exists w',
       run (process_date date output_dir) w =
         (Returned (Z.of_nat (length (stored_bodies entries)), "success"), w') /\
       trace w' =
         trace w1 ++
         concat (List.map (entry_events path (strftime_Ymd date)) entries) /\
       written (concat (List.map (entry_events path (strftime_Ymd date)) entries)) =
         stored_bodies entries /\
       fs w' = f' /\
       (forall body, last (stored_bodies entries) = Some body ->
                     fs w' !! path = Some (File body))).
Proof.
  cbv zeta. rewrite <- pdf_path_of_parts.
  set (path := pdf_path_of output_dir date). split.
  - intros w w' o evs Hrun Htrace p data res Hin.
    destruct (process_date_runs _ _ _ _ _ Hrun) as (evs' & Ht & _).
    destruct Ht as (Ht & _ & Hok & _).
    assert (evs' = evs) as ->.
    { rewrite Ht in Htrace. apply app_inv_head in Htrace. exact Htrace. }
    rewrite Forall_forall in Hok. apply (Hok (EvWrite p data res)).
    apply list_elem_of_In. exact Hin.
  - intros w w1 data entries f' Hmiss Hsum Hnone Hp Hall Hst.
    destruct (summary_loop_tracks path _ _ _ _ _ _ Hsum)
      as (evs1 & (_ & Hn1 & _) & _).
    cbn [net log] in Hn1. rewrite <- Hn1 in Hall.
    destruct (download_loop_fates output_dir date (strftime_Ymd date) entries 0
                w1 f' Hall Hst) as (w' & Hrun & Ht & Hf & _).
    fold path in Hrun, Ht.
    exists w'. split; [|split; [exact Ht|split; [|split]]].
    + rewrite run_process_date. cbv zeta. fold path.
      rewrite Hmiss, Hsum, Hnone, Hp. cbn [run]. rewrite Hrun.
      rewrite Z.add_0_l. reflexivity.
    + clear. induction entries as [|[[url identifier] [r|g e]] rest IH];
        [reflexivity| |].
      * cbn [List.map concat]. rewrite written_app, IH. reflexivity.
      * cbn [List.map concat]. rewrite written_app, IH. reflexivity.
    + exact Hf.
    + intros body Hlast. rewrite Hf. exact (store_all_last _ _ _ _ _ Hst Hlast).
Qed.

Lemma artifact_path_is_fixed_witness :
  let path := ["boe"] ++ [fmt4 (year_of date_2024_01_07);
                          fmt2 (month_of date_2024_01_07);
                          fmt2 (day_of date_2024_01_07); "boe.pdf"] in
  (let w := world_second_fails in
   let w' := snd (run (process_date date_2024_01_07 ["boe"]) w) in
   forall p data res, In (EvWrite p data res) (trace w') -> p = path) /\
  (let w := world_two_entries in
   let w1 := snd (run (summary_loop (range MAX_RETRIES)
                         (strftime_Ymd date_2024_01_07) PNone)
                    (log (EvExists path false) w)) in
   let entries : list entry :=
     [(url_a, PStr "BOE-S-2024-7", Stored (mkResponse 200 bytes_a None));
      (url_b, PStr "BOE-S-2024-8", Stored (mkResponse 200 bytes_b None))] in
   let f' : gmap (list string) fnode :=
     <[["boe"; "2024"; "01"; "07"; "boe.pdf"] := File bytes_b]>
       (<[["boe"; "2024"; "01"; "07"; "boe.pdf"] := File bytes_a]>
         (<[["boe"; "2024"; "01"; "07"] := Dir]>
           (<[["boe"; "2024"; "01"] := Dir]>
             (<[["boe"; "2024"] := Dir]> (<[["boe"] := Dir]> ∅))))) in
   exists w',
     run (process_date date_2024_01_07 ["boe"]) w =
       (Returned (Z.of_nat (length (stored_bodies entries)), "success"), w') /\
     trace w' =
       trace w1 ++
       concat (List.map (entry_events path (strftime_Ymd date_2024_01_07))
                 entries) /\
     written (concat (List.map (entry_events path (strftime_Ymd date_2024_01_07))
                        entries)) =
       stored_bodies entries /\
     fs w' = f' /\
     (forall body, last (stored_bodies entries) = Some body ->
                   fs w' !! path = Some (File body))).
Proof.
  cbv zeta. split.
  - apply (proj1 (artifact_path_is_fixed date_2024_01_07 ["boe"])
             world_second_fails
             (snd (run (process_date date_2024_01_07 ["boe"]) world_second_fails))
             (fst (run (process_date date_2024_01_07 ["boe"]) world_second_fails))
             (trace (snd (run (process_date date_2024_01_07 ["boe"])
                            world_second_fails)))).
    + vm_compute. reflexivity.
    + vm_compute. reflexivity.
  - apply (proj2 (artifact_path_is_fixed date_2024_01_07 ["boe"])
             world_two_entries
             (snd (run (summary_loop (range MAX_RETRIES)
                          (strftime_Ymd date_2024_01_07) PNone)
                     (log (EvExists
                             (["boe"] ++ [fmt4 (year_of date_2024_01_07);
                                          fmt2 (month_of date_2024_01_07);
                                          fmt2 (day_of date_2024_01_07);
                                          "boe.pdf"])
                             false) world_two_entries)))
             summary_two
             [(url_a, PStr "BOE-S-2024-7", Stored (mkResponse 200 bytes_a None));
              (url_b, PStr "BOE-S-2024-8", Stored (mkResponse 200 bytes_b None))]
             (<[["boe"; "2024"; "01"; "07"; "boe.pdf"] := File bytes_b]>
                (<[["boe"; "2024"; "01"; "07"; "boe.pdf"] := File bytes_a]>
                  (<[["boe"; "2024"; "01"; "07"] := Dir]>
                    (<[["boe"; "2024"; "01"] := Dir]>
                      (<[["boe"; "2024"] := Dir]> (<[["boe"] := Dir]> ∅))))))).
    + reflexivity.
    + vm_compute. reflexivity.
    + reflexivity.
    + reflexivity.
    + repeat constructor.
    + vm_compute. reflexivity.
Defined.

(** Two entries on one day: both downloads go through, both write the one
    path, and the file is left with the second one. *)
Example two_entries_overwrite :
  let w' := snd (run (process_date date_2024_01_07 ["boe"]) world_two_entries) in
  fst (run (process_date date_2024_01_07 ["boe"]) world_two_entries) =
    Returned (2, "success") /\
  written (trace w') = [bytes_a; bytes_b] /\
  fs w' !! ["boe"; "2024"; "01"; "07"; "boe.pdf"] = Some (File bytes_b).
Proof. vm_compute. repeat split. Qed.

(** When the second of two entries fails, the file keeps the first. *)
Example failed_download_keeps_earlier_file :
  let w' := snd (run (process_date date_2024_01_07 ["boe"]) world_second_fails) in
  fst (run (process_date date_2024_01_07 ["boe"]) world_second_fails) =
    Returned (1, "success") /\
  written (trace w') = [bytes_a] /\
  fs w' !! ["boe"; "2024"; "01"; "07"; "boe.pdf"] = Some (File bytes_a).
Proof. vm_compute. repeat split. Qed.

(** ** C10: the day outcome *)



(** ** C3: a download that fails *)

(** C3.  On a cache miss, when the summary gives [k] entries whose URLs are
    strings and the requests for one of them fail at every attempt,
    [process_date] does not raise: it still requests every entry of the
    list, and returns status "success" with a count below [k]. *)
Theorem failed_download_is_contained (date : datetime) (output_dir : Path)
    (w w1 : world) (data : pyval) (pdfs : list (pyval * pyval)) :
  let path := pdf_path_of output_dir date in
  fs_exists (fs w) path = false ->
  run (summary_loop (range MAX_RETRIES) (strftime_Ymd date) PNone)
      (log (EvExists path false) w) = (Returned (inr data), w1) ->
  is_None data = false ->
  extract_pdfs data = Ret pdfs ->
  Forall (fun p => exists s, fst p = PStr s) pdfs ->
  Exists (fun p => exists s, fst p = PStr s /\
                    forall n, is_Some (get_failure (net w n s []))) pdfs ->
  exists count w' evs,
    run (process_date date output_dir) w = (Returned (count, "success"), w') /\
    trace w' = trace w1 ++ evs /\
    0 <= count < Z.of_nat (length pdfs) /\
    Forall (fun p => exists s g, fst p = PStr s /\ In (EvGet s [] g) evs) pdfs.
Proof.
  intros path Hmiss Hsum Hnone Hp Hstr Hfail. subst path.
  rewrite run_process_date. cbv zeta. rewrite Hmiss, Hsum, Hnone, Hp.
  cbn [run].
  destruct (summary_loop_tracks (pdf_path_of output_dir date) _ _ _ _ _ _ Hsum)
    as (evs1 & (_ & Hnet & _) & _).
  destruct (download_loop_runs output_dir date (strftime_Ymd date) pdfs 0 w1)
    as (d & w' & evs & Hrun & Ht & Hd & _ & Hall & Hlt).
  rewrite Hrun. exists d, w', evs. split; [reflexivity|].
  split; [apply Ht|]. split.
  - split; [lia|]. apply Hlt.
    eapply Exists_impl; [exact Hfail|].
    intros p (s & Hs & Hf). exists s. split; [exact Hs|].
    rewrite Hnet. exact Hf.
  - rewrite Forall_forall in Hstr, Hall. apply Forall_forall.
    intros p Hin. destruct (Hstr p Hin) as [s Hs].
    destruct (Hall p Hin s Hs) as [g Hg]. exists s, g. split; assumption.
Qed.

Lemma failed_download_is_contained_witness :
  let w := world_first_fails in
  let path := pdf_path_of ["boe"] date_2024_01_07 in
  let w1 := snd (run (summary_loop (range MAX_RETRIES)
                        (strftime_Ymd date_2024_01_07) PNone)
                   (log (EvExists path false) w)) in
  let pdfs := [(PStr url_a, PStr "BOE-S-2024-7"); (PStr url_b, PStr "BOE-S-2024-8")] in
  exists count w' evs,
    run (process_date date_2024_01_07 ["boe"]) w = (Returned (count, "success"), w') /\
    trace w' = trace w1 ++ evs /\
    0 <= count < Z.of_nat (length pdfs) /\
    Forall (fun p => exists s g, fst p = PStr s /\ In (EvGet s [] g) evs) pdfs.
Proof.
  apply (failed_download_is_contained date_2024_01_07 ["boe"] world_first_fails
           (snd (run (summary_loop (range MAX_RETRIES)
                        (strftime_Ymd date_2024_01_07) PNone)
                   (log (EvExists (pdf_path_of ["boe"] date_2024_01_07) false)
                      world_first_fails)))
           summary_two
           [(PStr url_a, PStr "BOE-S-2024-7"); (PStr url_b, PStr "BOE-S-2024-8")]).
  - reflexivity.
  - vm_compute. reflexivity.
  - reflexivity.
  - reflexivity.
  - constructor; [exists url_a; reflexivity|].
    constructor; [exists url_b; reflexivity|constructor].
  - apply Exists_cons_hd. exists url_a. split; [reflexivity|].
    intros n. exists (TransportError "timed out"). reflexivity.
Defined.

(** The same day on concrete values: the first artifact times out three
    times, the second is fetched, and the count is 1 of 2. *)
Example first_of_two_fails :
  let w' := snd (run (process_date date_2024_01_07 ["boe"]) world_first_fails) in
  fst (run (process_date date_2024_01_07 ["boe"]) world_first_fails) =
    Returned (1, "success") /\
  requests (trace w') =
    [(api_2024_01_07, accept_json);
     (url_a, []); (url_a, []); (url_a, []); (url_b, [])] /\
  sleeps (trace w') = [30; 60] /\
  written (trace w') = [bytes_b].
Proof. vm_compute. repeat split. Qed.

(** ** The semaphore *)

Lemma in_flight_insert (ts : list task) (i : nat) (t0 t : task) :
  ts !! i = Some t0 ->
  Z.of_nat (in_flight (<[i := t]> ts)) =
  Z.of_nat (in_flight ts) - Z.b2z (is_running t0) + Z.b2z (is_running t).
Proof.
  revert i. induction ts as [|a ts IH]; intros i Hi.
  - rewrite lookup_nil in Hi. discriminate.
  - destruct i as [|i].
    + injection Hi as ->. unfold in_flight. cbn [list_insert insert List.filter].
      destruct (is_running t0), (is_running t); cbn [length Z.b2z]; lia.
    + specialize (IH i Hi). unfold in_flight in *.
      change (<[S i := t]> (a :: ts)) with (a :: <[i := t]> ts).
      cbn [List.filter]. destruct (is_running a); cbn [length]; lia.
Qed.

Lemma in_flight_all_waiting (dates : list datetime) :
  in_flight (List.map Waiting dates) = 0%nat.
Proof.
  induction dates as [|d dates IH]; [reflexivity|exact IH].
Qed.

(** The semaphore's value and the number of tasks in flight always add up
    to the same number: a step moves one unit between them or leaves both
    alone. *)
Lemma step_task_conserves (output_dir : Path) (i : nat) (c : loop_state) :
  let c' := snd (step_task output_dir i c) in
  (0 <= sem_value c -> 0 <= sem_value c') /\
  Z.of_nat (in_flight (tasks c')) + sem_value c' =
  Z.of_nat (in_flight (tasks c)) + sem_value c.
Proof.
  unfold step_task.
  destruct (tasks c !! i) as [[date|[r|e|X op k]|r|e]|] eqn:Hi; cbn [snd].
  - destruct (0 <? sem_value c) eqn:Hs; cbn [snd sem_value tasks].
    + apply Z.ltb_lt in Hs. split; [lia|].
      rewrite (in_flight_insert _ _ _ _ Hi). cbn. lia.
    + split; [tauto|reflexivity].
  - cbn [snd sem_value tasks]. split; [lia|].
    rewrite (in_flight_insert _ _ _ _ Hi). cbn. lia.
  - cbn [snd sem_value tasks]. split; [lia|].
    rewrite (in_flight_insert _ _ _ _ Hi). cbn. lia.
  - destruct (handle op (loop_world c)) as [x w']. cbn [snd sem_value tasks].
    split; [tauto|].
    rewrite (in_flight_insert _ _ _ _ Hi). cbn. lia.
  - split; [tauto|reflexivity].
  - split; [tauto|reflexivity].
  - split; [tauto|reflexivity].
Qed.

Lemma run_schedule_conserves (output_dir : Path) (sched : list nat) (c : loop_state) :
  let c' := snd (run_schedule output_dir sched c) in
  (0 <= sem_value c -> 0 <= sem_value c') /\
  Z.of_nat (in_flight (tasks c')) + sem_value c' =
  Z.of_nat (in_flight (tasks c)) + sem_value c.
Proof.
  revert c. induction sched as [|i rest IH]; intros c; cbn [run_schedule].
  - cbn [snd]. split; [tauto|reflexivity].
  - pose proof (step_task_conserves output_dir i c) as Hstep.
    destruct (step_task output_dir i c) as [[e|] c1]; cbn [snd] in *.
    + destruct Hstep as [H0 Hsum]. destruct (IH c1) as [H0' Hsum'].
      split; [tauto|lia].
    + destruct Hstep as [H0 Hsum]. destruct (IH c1) as [H0' Hsum'].
      split; [tauto|lia].
Qed.

(** [setup] hands the configured limit to the semaphore unchanged, and
    only when it is not negative. *)
Lemma setup_semaphore (start_date end_date : datetime) (concurrency : Z)
    (output_dir : Path) (w w1 : world) (dates : list datetime)
    (stats : gmap string Z) (sem : Z) :
  run (setup start_date end_date concurrency output_dir) w =
    (Returned (dates, stats, sem), w1) ->
  sem = concurrency /\ 0 <= concurrency.
Proof.
  unfold setup. rewrite run_bind.
  destruct (run (path_mkdir output_dir false true) w) as [[u|e] w0]; [|discriminate].
  rewrite run_bind.
  destruct (generate_dates start_date end_date []) as [e|l]; cbn [run]; [discriminate|].
  rewrite run_bind, run_print. rewrite run_bind.
  unfold new_semaphore. destruct (concurrency <? 0) eqn:Hc; cbn [run]; [discriminate|].
  intros H. injection H as _ _ <- _. apply Z.ltb_ge in Hc. split; [reflexivity|exact Hc].
Qed.

(** ** C8: the concurrency limit *)

(** C8.  In a run of [download_boe_pdfs] with configured limit
    [concurrency], after any number of steps of any schedule of the event
    loop, the tasks in flight (those that have acquired the semaphore and
    not yet given it back) are at most [concurrency]: the one semaphore
    created by [setup] starts at [concurrency], never goes below zero, and
    its value plus the number of tasks in flight is always [concurrency].
    The schedule goes on after a task has raised, as the tasks of
    [gather] do, so the states after an exception are among those the
    bound is proved for.  A task holds the semaphore from before the first request of
    [process_date] until the coroutine returns or raises. *)
Theorem concurrency_is_bounded (start_date end_date : datetime) (concurrency : Z)
    (output_dir : Path) (w w1 : world) (dates : list datetime)
    (stats : gmap string Z) (sem : Z) (sched : list nat) (k : nat) :
  run (setup start_date end_date concurrency output_dir) w =
    (Returned (dates, stats, sem), w1) ->
  let c := snd (run_schedule output_dir (take k sched)
                  (mkLoop sem (List.map Waiting dates) w1)) in
  0 <= sem_value c /\
  Z.of_nat (in_flight (tasks c)) + sem_value c = concurrency /\
  Z.of_nat (in_flight (tasks c)) <= concurrency.
Proof.
  intros Hsetup c.
  destruct (setup_semaphore _ _ _ _ _ _ _ _ _ Hsetup) as [-> Hc].
  destruct (run_schedule_conserves output_dir (take k sched)
              (mkLoop concurrency (List.map Waiting dates) w1)) as [H0 Hsum].
  fold c in H0, Hsum. cbn [sem_value tasks] in H0, Hsum.
  rewrite in_flight_all_waiting in Hsum.
  specialize (H0 Hc). repeat split; lia.
Qed.

Lemma concurrency_is_bounded_witness :
  let start_date := mkDatetime 738892 0 in
  let end_date := mkDatetime 738893 0 in
  let w := world_of ∅ (net_always timed_out) in
  let w1 := snd (run (setup start_date end_date 1 ["boe"]) w) in
  let c := snd (run_schedule ["boe"] (take 3 [0; 1; 0; 1; 0]%nat)
                  (mkLoop 1 (List.map Waiting [start_date; end_date]) w1)) in
  0 <= sem_value c /\
  Z.of_nat (in_flight (tasks c)) + sem_value c = 1 /\
  Z.of_nat (in_flight (tasks c)) <= 1.
Proof.
  apply (concurrency_is_bounded (mkDatetime 738892 0) (mkDatetime 738893 0) 1
           ["boe"] (world_of ∅ (net_always timed_out))
           (snd (run (setup (mkDatetime 738892 0) (mkDatetime 738893 0) 1 ["boe"])
                   (world_of ∅ (net_always timed_out))))
           [mkDatetime 738892 0; mkDatetime 738893 0] initial_stats 1
           [0; 1; 0; 1; 0]%nat 3%nat).
  vm_compute. reflexivity.
Defined.

(** With a limit of 1 and two days, the second task waits while the
    first is in flight, and is admitted once the first has finished. *)
Example second_task_waits :
  let d1 := mkDatetime 738892 0 in
  let d2 := mkDatetime 738893 0 in
  let w := world_of ∅ (net_always timed_out) in
  let after sched := snd (run_schedule ["boe"] sched
                            (mkLoop 1 [Waiting d1; Waiting d2] w)) in
  let first_done := repeat 0%nat 12 in
  (List.map is_running (tasks (after [0; 1; 1]%nat)) = [true; false] /\
   sem_value (after [0; 1; 1]%nat) = 0) /\
  (List.map is_running (tasks (after (first_done ++ [1%nat]))) = [false; true] /\
   sem_value (after (first_done ++ [1%nat])) = 0).
Proof.
  vm_compute. repeat split.
Qed.

(** A task that raises gives the semaphore back, and the task that was
    waiting is admitted after the exception: with a limit of 1 and two
    days whose summary is malformed, the first task raises at its fourth
    step, the second then runs alone, and raises in its turn. *)
Example second_task_runs_after_a_raise :
  let d1 := mkDatetime 738892 0 in
  let d2 := mkDatetime 738893 0 in
  let w := world_of ∅ (net_always
             (GotResponse (resp_json (PDict [("data", PNone)])))) in
  let after sched := run_schedule ["boe"] sched
                       (mkLoop 1 [Waiting d1; Waiting d2] w) in
  let first_raised := repeat 0%nat 4 in
  (fst (after first_raised) =
     Some (AttributeError "object has no attribute 'get'") /\
   List.map is_running (tasks (snd (after first_raised))) = [false; false] /\
   sem_value (snd (after first_raised)) = 1) /\
  (List.map is_running (tasks (snd (after (first_raised ++ [1; 1]%nat)))) =
     [false; true] /\
   sem_value (snd (after (first_raised ++ [1; 1]%nat))) = 0) /\
  (List.map is_running
     (tasks (snd (after (first_raised ++ repeat 1%nat 4)))) = [false; false] /\
   sem_value (snd (after (first_raised ++ repeat 1%nat 4))) = 1 /\
   requests (trace (loop_world (snd (after (first_raised ++ repeat 1%nat 4))))) =
     [(api_url "20240107", accept_json); (api_url "20240108", accept_json)]).
Proof.
  vm_compute. repeat split.
Qed.

(** * Further properties *)

(** ** The dates of a run *)

Lemma days_from_S (d : datetime) (n : nat) :
  days_from d (S n) = d :: days_from (mkDatetime (ordinal d + 1) (usec d)) n.
Proof.
  unfold days_from. cbn [seq List.map]. f_equal.
  - destruct d as [o u]. cbn. f_equal. lia.
  - rewrite <- seq_shift, List.map_map. apply List.map_ext.
    intros i. cbn [ordinal usec]. f_equal. lia.
Qed.

Lemma generate_dates_step (current end_date : datetime) (dates : list datetime) :
  generate_dates current end_date dates =
  if datetime_le current end_date then
    match add_one_day current with
    | inl e => inl e
    | inr next => generate_dates next end_date (dates ++ [current])
    end
  else inr dates.
Proof.
  assert (Hif : forall (b : bool) (X Y : exn + list datetime),
             datetime_le current end_date = b ->
             (if datetime_le current end_date then X else Y) = if b then X else Y).
  { intros b X Y <-. reflexivity. }
  assert (Hma : forall (a : exn + datetime) (X : exn -> exn + list datetime) Y,
             add_one_day current = a ->
             match add_one_day current with inl e => X e | inr n => Y n end =
             match a with inl e => X e | inr n => Y n end).
  { intros a X Y <-. reflexivity. }
  rewrite generate_dates_equation_1 at 1.
  unfold generate_dates_unfold_clause_1.
  destruct (inspect (datetime_le current end_date)) as [[|] Hb];
    rewrite (Hif _ _ _ Hb); [|reflexivity].
  unfold generate_dates_unfold_clause_1_clause_2.
  destruct (inspect (add_one_day current)) as [[e|next] Hn];
    rewrite (Hma _ _ _ Hn); reflexivity.
Qed.

Lemma generate_dates_from (k : nat) (current end_date : datetime)
    (dates : list datetime) :
  ordinal end_date <= MAXORDINAL ->
  day_count current end_date <= Z.of_nat k ->
  generate_dates current end_date dates =
  if datetime_le current end_date && (ordinal end_date =? MAXORDINAL)
     && (usec current <=? usec end_date)
  then inl (OverflowError "date value out of range")
  else inr (dates ++ days_from current (Z.to_nat (day_count current end_date))).
Proof.
  revert current dates. induction k as [|k IH]; intros current dates Hmax Hk;
    rewrite generate_dates_step; unfold datetime_le, day_count in *.
  - destruct (Z.ltb_spec (ordinal current) (ordinal end_date)),
      (Z.eqb_spec (ordinal current) (ordinal end_date)),
      (Z.leb_spec (usec current) (usec end_date)); cbn [orb andb]; try lia.
    all: replace (Z.to_nat _) with 0%nat by lia.
    all: cbn [days_from seq List.map]; rewrite app_nil_r; reflexivity.
  - destruct (Z.ltb_spec (ordinal current) (ordinal end_date)) as [Hlt|Hge];
      cbn [orb andb].
    + unfold add_one_day.
      destruct (Z.gtb_spec (ordinal current + 1) MAXORDINAL) as [Hov|Hok]; [lia|].
      rewrite IH; cbn [ordinal usec]; [|exact Hmax|
        destruct (Z.leb_spec (usec current) (usec end_date)); lia].
      unfold datetime_le. cbn [ordinal usec].
      destruct (Z.eqb_spec (ordinal end_date) MAXORDINAL) as [He|He],
        (Z.leb_spec (usec current) (usec end_date)) as [Hu|Hu];
        destruct (Z.ltb_spec (ordinal current + 1) (ordinal end_date)),
          (Z.eqb_spec (ordinal current + 1) (ordinal end_date));
        cbn [orb andb]; try lia; try reflexivity.
      all: f_equal; rewrite <- app_assoc; f_equal; cbn [app].
      all: match goal with
           | |- _ = days_from _ (Z.to_nat ?n) =>
               replace (Z.to_nat n) with (S (Z.to_nat (n - 1))) by lia
           end.
      all: rewrite days_from_S; do 2 f_equal; lia.
    + destruct (Z.eqb_spec (ordinal current) (ordinal end_date)) as [Heq|Hne],
        (Z.leb_spec (usec current) (usec end_date)) as [Hu|Hu]; cbn [orb andb].
      * unfold add_one_day.
        destruct (Z.gtb_spec (ordinal current + 1) MAXORDINAL) as [Hov|Hok].
        { destruct (Z.eqb_spec (ordinal end_date) MAXORDINAL); [reflexivity|lia]. }
        destruct (Z.eqb_spec (ordinal end_date) MAXORDINAL); [lia|].
        rewrite IH; cbn [ordinal usec]; [|exact Hmax|
          destruct (Z.leb_spec (usec current) (usec end_date)); lia].
        unfold datetime_le. cbn [ordinal usec].
        destruct (Z.ltb_spec (ordinal current + 1) (ordinal end_date)),
          (Z.eqb_spec (ordinal current + 1) (ordinal end_date)),
          (Z.leb_spec (usec current) (usec end_date));
          cbn [orb andb]; try lia.
        f_equal. rewrite <- app_assoc. f_equal. cbn [app].
        replace (Z.to_nat (Z.max 0 (ordinal end_date - ordinal current + 1)))
          with 1%nat by lia.
        replace (Z.to_nat _) with 0%nat by lia.
        cbn. destruct current as [o u]. cbn. do 2 f_equal. lia.
      * replace (Z.to_nat _) with 0%nat by lia.
        cbn [days_from seq List.map]. rewrite app_nil_r. reflexivity.
      * replace (Z.to_nat _) with 0%nat by lia.
        cbn [days_from seq List.map]. rewrite app_nil_r. reflexivity.
      * replace (Z.to_nat _) with 0%nat by lia.
        cbn [days_from seq List.map]. rewrite app_nil_r. reflexivity.
Qed.

(** Before the last representable day, the loop of lines 102-106 returns
    the consecutive days from [start_date] on, each at the time of day of
    [start_date]: as many as there are days [d] of that sequence with
    [d <= end_date]. *)
Theorem generate_dates_consecutive (start_date end_date : datetime) :
  ordinal end_date < MAXORDINAL ->
  generate_dates start_date end_date [] =
  inr (days_from start_date (Z.to_nat (day_count start_date end_date))).
Proof.
  intros Hmax.
  rewrite (generate_dates_from (Z.to_nat (day_count start_date end_date)));
    [|lia|unfold day_count; lia].
  destruct (Z.eqb_spec (ordinal end_date) MAXORDINAL) as [He|He]; [lia|].
  rewrite andb_false_r. reflexivity.
Qed.

Lemma generate_dates_consecutive_witness :
  generate_dates (mkDatetime 738892 0) (mkDatetime 738894 3600000000) [] =
  inr (days_from (mkDatetime 738892 0)
         (Z.to_nat (day_count (mkDatetime 738892 0) (mkDatetime 738894 3600000000)))).
Proof.
  apply (generate_dates_consecutive (mkDatetime 738892 0)
           (mkDatetime 738894 3600000000)).
  unfold MAXORDINAL. cbn [ordinal]. lia.
Defined.

(** A start later in the day than the end leaves the day of [end_date]
    out. *)
Example generate_dates_time_of_day :
  generate_dates (mkDatetime 738892 1) (mkDatetime 738894 0) [] =
  inr [mkDatetime 738892 1; mkDatetime 738893 1].
Proof. vm_compute. reflexivity. Qed.

(** A range that ends on 9999-12-31 cannot be walked: after the last day
    has been noted, line 106 adds one day to it, and the run ends in
    OverflowError with the output directory made and nothing printed or
    requested. *)
Theorem last_day_overflows (start_date end_date : datetime) (concurrency : Z)
    (output_dir : Path) (sched : list nat) (w : world)
    (f' : gmap (list string) fnode) :
  ordinal end_date = MAXORDINAL ->
  datetime_le start_date end_date = true ->
  usec start_date <= usec end_date ->
  fs_mkdir false true output_dir (fs w) = inr f' ->
  download_boe_pdfs start_date end_date concurrency output_dir sched w =
  (Some (Raised (OverflowError "date value out of range")),
   log (EvMkdir output_dir None) (set_fs f' w)).
Proof.
  intros Hmax Hle Hu Hm. unfold download_boe_pdfs, setup.
  rewrite run_bind. unfold path_mkdir. cbn [run handle]. rewrite Hm. cbn [run].
  rewrite (generate_dates_from (Z.to_nat (day_count start_date end_date)));
    [|lia|unfold day_count; lia].
  rewrite Hle, Hmax, Z.eqb_refl. apply Z.leb_le in Hu. rewrite Hu.
  reflexivity.
Qed.

Lemma last_day_overflows_witness :
  download_boe_pdfs (mkDatetime 3652058 0) (mkDatetime 3652059 0) CONCURRENT_LIMIT
    ["boe"] [0; 1; 0]%nat (world_of ∅ (net_always timed_out)) =
  (Some (Raised (OverflowError "date value out of range")),
   log (EvMkdir ["boe"] None)
     (set_fs (<[["boe"] := Dir]> ∅) (world_of ∅ (net_always timed_out)))).
Proof.
  apply (last_day_overflows (mkDatetime 3652058 0) (mkDatetime 3652059 0)
           CONCURRENT_LIMIT ["boe"] [0; 1; 0]%nat
           (world_of ∅ (net_always timed_out)) (<[["boe"] := Dir]> ∅)).
  - reflexivity.
  - reflexivity.
  - cbn [usec]. lia.
  - reflexivity.
Defined.

(** ** The lines a run prints *)

Lemma log_all_nil (w : world) : log_all [] w = w.
Proof. destruct w. unfold log_all. cbn. rewrite app_nil_r. reflexivity. Qed.

Lemma log_all_app (evs1 evs2 : list event) (w : world) :
  log_all evs2 (log_all evs1 w) = log_all (evs1 ++ evs2) w.
Proof. unfold log_all. cbn. rewrite app_assoc. reflexivity. Qed.

Lemma log_log_all (ev : event) (w : world) : log ev w = log_all [ev] w.
Proof. reflexivity. Qed.

Lemma div_365_step (i : nat) :
  ((Z.of_nat i + 1) mod 365 =? 0) = true /\ (S i / 365 = S (i / 365))%nat /\
    (S i = 365 * S (i / 365))%nat \/
  ((Z.of_nat i + 1) mod 365 =? 0) = false /\ (S i / 365 = i / 365)%nat.
Proof.
  destruct (Z.eqb_spec ((Z.of_nat i + 1) mod 365) 0) as [H|H]; [left|right];
    (split; [reflexivity|]).
  - pose proof (Nat.div_mod_eq i 365). pose proof (Nat.div_mod_eq (S i) 365).
    pose proof (Nat.mod_upper_bound i 365). pose proof (Nat.mod_upper_bound (S i) 365).
    assert (Hm : (S i mod 365 = 0)%nat).
    { apply Nat2Z.inj. rewrite Nat2Z.inj_mod. rewrite Nat2Z.inj_succ.
      unfold Z.succ. exact H. }
    split; nia.
  - pose proof (Nat.div_mod_eq i 365). pose proof (Nat.div_mod_eq (S i) 365).
    pose proof (Nat.mod_upper_bound i 365). pose proof (Nat.mod_upper_bound (S i) 365).
    assert (Hm : (S i mod 365 <> 0)%nat).
    { intros Hm. apply H. change 365 with (Z.of_nat 365).
      replace (Z.of_nat i + 1) with (Z.of_nat (S i)) by lia.
      rewrite <- Nat2Z.inj_mod, Hm. reflexivity. }
    nia.
Qed.

Lemma progress_lines_S (i total n : nat) :
  progress_lines i total (S n) =
  (if (Z.of_nat i + 1) mod 365 =? 0
   then [EvPrint (MsgProgress (Z.to_nat (Z.of_nat i + 1)) total)] else [])
  ++ progress_lines (S i) total n.
Proof.
  unfold progress_lines.
  replace (i + S n)%nat with (S i + n)%nat by lia.
  assert (Hmono : (S i / 365 <= (S i + n) / 365)%nat).
  { apply Nat.Div0.div_le_mono. lia. }
  destruct (div_365_step i) as [(-> & Hd & Hs)|(-> & Hd)].
  - replace ((S i + n) / 365 - i / 365)%nat
      with (S ((S i + n) / 365 - S i / 365)) by lia.
    cbn [seq List.map app]. f_equal.
    + do 2 f_equal. lia.
    + do 2 f_equal. lia.
  - rewrite Hd. reflexivity.
Qed.

Lemma progress_lines_0 (i total : nat) : progress_lines i total 0 = [].
Proof.
  unfold progress_lines. rewrite Nat.add_0_r, Nat.sub_diag. reflexivity.
Qed.

(** The aggregation loop with its effects: the world changes by the
    progress lines only. *)
Lemma run_aggregate_world (results : list (Z * string)) (i total : nat)
    (d n e c : Z) (w : world) :
  run (aggregate (Z.of_nat i) total results (stats_of d n e c)) w =
  (Returned (stats_of (d + total_downloaded results)
                      (n + tally "no_boe" results)
                      (e + tally "error" results)
                      (c + tally "cached" results)),
   log_all (progress_lines i total (length results)) w).
Proof.
  revert i d n e c w.
  induction results as [|[count status] rest IH]; intros i d n e c w.
  - cbn [length]. rewrite progress_lines_0, log_all_nil. cbn.
    rewrite !Z.add_0_r. reflexivity.
  - cbn [aggregate length]. rewrite dict_iadd_downloaded.
    change (run (Ret ?s ≫= ?f) w) with (run (f s) w). cbv beta.
    rewrite !(tally_cons _ count status rest).
    assert (Htot : total_downloaded ((count, status) :: rest) =
                   count + total_downloaded rest) by reflexivity.
    rewrite Htot. clear Htot.
    rewrite progress_lines_S, <- log_all_app.
    set (w0 := log_all (if (Z.of_nat i + 1) mod 365 =? 0
                        then [EvPrint (MsgProgress (Z.to_nat (Z.of_nat i + 1)) total)]
                        else []) w).
    assert (Hstep : forall (s0 : gmap string Z) k,
                run (Ret s0 ≫= (fun stats : gmap string Z =>
                       (if (Z.of_nat i + 1) mod 365 =? 0
                        then print (MsgProgress (Z.to_nat (Z.of_nat i + 1)) total)
                        else Ret tt) ≫= (fun _ : unit => k stats))) w =
                run (k s0 : prog (gmap string Z)) w0).
    { intros s0 k. subst w0. destruct ((Z.of_nat i + 1) mod 365 =? 0).
      - reflexivity.
      - rewrite log_all_nil. reflexivity. }
    replace (Z.of_nat i + 1) with (Z.of_nat (S i)) in * by lia.
    destruct (String.eqb status "no_boe") eqn:H1;
      [|destruct (String.eqb status "error") eqn:H2;
        [|destruct (String.eqb status "cached") eqn:H3]].
    + apply String.eqb_eq in H1. subst status.
      rewrite dict_iadd_no_boe, Hstep, IH. do 2 f_equal.
      apply stats_of_ext; cbn [String.eqb Ascii.eqb Bool.eqb]; lia.
    + apply String.eqb_eq in H2. subst status.
      rewrite dict_iadd_errors, Hstep, IH. do 2 f_equal.
      apply stats_of_ext; cbn [String.eqb Ascii.eqb Bool.eqb]; lia.
    + apply String.eqb_eq in H3. subst status.
      rewrite dict_iadd_cached, Hstep, IH. do 2 f_equal.
      apply stats_of_ext; cbn [String.eqb Ascii.eqb Bool.eqb]; lia.
    + rewrite Hstep, IH. do 2 f_equal.
      apply stats_of_ext; lia.
Qed.

Lemma setup_returns (start_date end_date : datetime) (concurrency : Z)
    (output_dir : Path) (w w1 : world) (dates : list datetime)
    (stats : gmap string Z) (sem : Z) :
  run (setup start_date end_date concurrency output_dir) w =
    (Returned (dates, stats, sem), w1) ->
  generate_dates start_date end_date [] = inr dates /\ stats = initial_stats.
Proof.
  unfold setup. rewrite run_bind.
  destruct (run (path_mkdir output_dir false true) w) as [[u|e] w0]; [|discriminate].
  rewrite run_bind.
  destruct (generate_dates start_date end_date []) as [e|l]; cbn [run]; [discriminate|].
  rewrite run_bind, run_print. rewrite run_bind.
  unfold new_semaphore. destruct (concurrency <? 0) eqn:Hc; cbn [run]; [discriminate|].
  intros H. injection H as <- <- _ _. split; reflexivity.
Qed.

Lemma step_task_length (output_dir : Path) (i : nat) (c : loop_state) :
  length (tasks (snd (step_task output_dir i c))) = length (tasks c).
Proof.
  unfold step_task.
  destruct (tasks c !! i) as [[date|[r|e|X op k]|r|e]|]; cbn [snd tasks];
    try reflexivity.
  - destruct (0 <? sem_value c); cbn [snd tasks];
      [apply length_insert|reflexivity].
  - apply length_insert.
  - apply length_insert.
  - destruct (handle op (loop_world c)) as [x w']. cbn [snd tasks].
    apply length_insert.
Qed.

Lemma run_schedule_length (output_dir : Path) (sched : list nat) (c : loop_state) :
  length (tasks (snd (run_schedule output_dir sched c))) = length (tasks c).
Proof.
  revert c. induction sched as [|i rest IH]; intros c; [reflexivity|].
  cbn [run_schedule].
  pose proof (step_task_length output_dir i c) as Hs.
  destruct (step_task output_dir i c) as [[e|] c1]; cbn [snd] in *.
  - rewrite IH. exact Hs.
  - rewrite IH. exact Hs.
Qed.

Lemma gather_results_done (ts : list task) (results : list (Z * string)) :
  gather_results ts = Some results -> ts = List.map Done results.
Proof.
  revert results. induction ts as [|t ts IH]; intros results H.
  - injection H as <-. reflexivity.
  - destruct t as [date|p|r|e]; cbn [gather_results] in H; try discriminate.
    destruct (gather_results ts) as [rs|]; [|discriminate].
    injection H as <-. cbn [List.map]. f_equal. apply IH. reflexivity.
Qed.

(** From a dictionary with the four keys of line 112 and an index of 0,
    the aggregation loop prints one progress line for every 365 outcomes
    (365, 730, ... of the total) and does nothing else to the world. *)
Theorem progress_every_365_days (results : list (Z * string)) (total : nat)
    (w : world) :
  snd (run (aggregate 0 total results initial_stats) w) =
  log_all (List.map (fun k => EvPrint (MsgProgress (365 * k) total))
             (seq 1 (length results / 365))) w.
Proof.
  rewrite initial_stats_eq.
  change 0 with (Z.of_nat 0) at 1.
  rewrite run_aggregate_world. cbn [snd]. unfold progress_lines.
  rewrite Nat.add_0_l, Nat.sub_0_r. reflexivity.
Qed.

(** Once every task is done, the run returns normally: after the progress
    lines it prints the five lines of the report, whose numbers are the
    sums over the day outcomes, one outcome per date of the range, in the
    order of the dates whatever the order in which the tasks finished. *)
Theorem completed_run_reports (start_date end_date : datetime) (concurrency : Z)
    (output_dir : Path) (sched : list nat) (w w1 : world)
    (dates : list datetime) (stats : gmap string Z) (sem : Z)
    (c : loop_state) (results : list (Z * string)) :
  run (setup start_date end_date concurrency output_dir) w =
    (Returned (dates, stats, sem), w1) ->
  run_schedule output_dir sched (mkLoop sem (List.map Waiting dates) w1) =
    (None, c) ->
  gather_results (tasks c) = Some results ->
  length results = length dates /\
  tasks c = List.map Done results /\
  download_boe_pdfs start_date end_date concurrency output_dir sched w =
  (Some (Returned tt),
   log_all (progress_lines 0 (length dates) (length dates) ++ report_lines results)
     (loop_world c)).
Proof.
  intros Hsetup Hsched Hgather.
  destruct (setup_returns _ _ _ _ _ _ _ _ _ Hsetup) as [_ ->].
  pose proof (gather_results_done _ _ Hgather) as Hdone.
  assert (Hlen : length results = length dates).
  { pose proof (run_schedule_length output_dir sched
                  (mkLoop sem (List.map Waiting dates) w1)) as Hl.
    rewrite Hsched in Hl. cbn [snd tasks] in Hl.
    rewrite Hdone in Hl. rewrite !length_map in Hl. exact Hl. }
  split; [exact Hlen|]. split; [exact Hdone|].
  unfold download_boe_pdfs. rewrite Hsetup, Hsched, Hgather.
  rewrite run_bind. rewrite initial_stats_eq.
  change 0 with (Z.of_nat 0) at 1.
  rewrite run_aggregate_world. rewrite !Z.add_0_l, run_report.
  rewrite Hlen. rewrite !log_log_all, !log_all_app.
  rewrite <- ?app_assoc. reflexivity.
Qed.

Lemma completed_run_reports_witness :
  let d := date_2024_01_07 in
  let sched := repeat 0%nat 12 in
  let w1 := snd (run (setup d d CONCURRENT_LIMIT ["boe"]) world_two_entries) in
  let c := snd (run_schedule ["boe"] sched
                  (mkLoop CONCURRENT_LIMIT (List.map Waiting [d]) w1)) in
  let results := [(2, "success")] in
  length results = length [d] /\
  tasks c = List.map Done results /\
  download_boe_pdfs d d CONCURRENT_LIMIT ["boe"] sched world_two_entries =
  (Some (Returned tt),
   log_all (progress_lines 0 (length [d]) (length [d]) ++ report_lines results)
     (loop_world c)).
Proof.
  apply (completed_run_reports date_2024_01_07 date_2024_01_07 CONCURRENT_LIMIT
           ["boe"] (repeat 0%nat 12) world_two_entries
           (snd (run (setup date_2024_01_07 date_2024_01_07 CONCURRENT_LIMIT ["boe"])
                   world_two_entries))
           [date_2024_01_07] initial_stats CONCURRENT_LIMIT
           (snd (run_schedule ["boe"] (repeat 0%nat 12)
                   (mkLoop CONCURRENT_LIMIT (List.map Waiting [date_2024_01_07])
                      (snd (run (setup date_2024_01_07 date_2024_01_07
                                   CONCURRENT_LIMIT ["boe"]) world_two_entries)))))
           [(2, "success")]).
  - vm_compute. reflexivity.
  - vm_compute. reflexivity.
  - vm_compute. reflexivity.
Defined.

(** Two years of cached days: two progress lines, then the report. *)
Example progress_lines_two_years :
  progress_lines 0 731 731 =
  [EvPrint (MsgProgress 365 731); EvPrint (MsgProgress 730 731)].
Proof. vm_compute. reflexivity. Qed.

(** ** The limits of the concurrency argument *)

Lemma run_schedule_all_waiting (output_dir : Path) (sched : list nat)
    (dates : list datetime) (w : world) :
  run_schedule output_dir sched (mkLoop 0 (List.map Waiting dates) w) =
  (None, mkLoop 0 (List.map Waiting dates) w).
Proof.
  induction sched as [|i rest IH]; [reflexivity|].
  cbn [run_schedule]. unfold step_task. cbn [tasks sem_value].
  rewrite list_lookup_fmap.
  destruct (dates !! i) as [date|]; cbn [fmap option_fmap option_map];
    exact IH.
Qed.

(** With a concurrency of 0 and at least one date, no task is ever
    admitted: under every schedule the run is still waiting in [gather],
    and nothing happens after the set-up (no request, no line, no file). *)
Theorem zero_concurrency_never_starts (start_date end_date : datetime)
    (output_dir : Path) (sched : list nat) (w w1 : world)
    (dates : list datetime) (stats : gmap string Z) (sem : Z) :
  run (setup start_date end_date 0 output_dir) w =
    (Returned (dates, stats, sem), w1) ->
  dates <> [] ->
  download_boe_pdfs start_date end_date 0 output_dir sched w = (None, w1).
Proof.
  intros Hsetup Hne.
  destruct (setup_semaphore _ _ _ _ _ _ _ _ _ Hsetup) as [-> _].
  unfold download_boe_pdfs. rewrite Hsetup, run_schedule_all_waiting.
  cbn [tasks loop_world].
  destruct dates as [|d dates]; [congruence|reflexivity].
Qed.

Lemma zero_concurrency_never_starts_witness :
  download_boe_pdfs date_2024_01_07 date_2024_01_07 0 ["boe"]
    [0; 0; 1; 0]%nat world_two_entries =
  (None, snd (run (setup date_2024_01_07 date_2024_01_07 0 ["boe"])
                world_two_entries)).
Proof.
  apply (zero_concurrency_never_starts date_2024_01_07 date_2024_01_07 ["boe"]
           [0; 0; 1; 0]%nat world_two_entries
           (snd (run (setup date_2024_01_07 date_2024_01_07 0 ["boe"])
                   world_two_entries))
           [date_2024_01_07] initial_stats 0).
  - vm_compute. reflexivity.
  - discriminate.
Defined.

(** A negative concurrency is refused by the semaphore, and only there:
    the output directory has been made and the first line printed when
    ValueError ends the run, before any task exists. *)
Theorem negative_concurrency_refused (start_date end_date : datetime)
    (concurrency : Z) (output_dir : Path) (sched : list nat) (w : world)
    (f' : gmap (list string) fnode) (dates : list datetime) :
  concurrency < 0 ->
  fs_mkdir false true output_dir (fs w) = inr f' ->
  generate_dates start_date end_date [] = inr dates ->
  download_boe_pdfs start_date end_date concurrency output_dir sched w =
  (Some (Raised (ValueError "Semaphore initial value must be >= 0")),
   log (EvPrint (MsgProcessing (length dates) start_date end_date))
     (log (EvMkdir output_dir None) (set_fs f' w))).
Proof.
  intros Hc Hm Hd. unfold download_boe_pdfs, setup.
  rewrite run_bind. unfold path_mkdir. cbn [run handle]. rewrite Hm. cbn [run].
  rewrite Hd. rewrite run_bind. cbn [run]. rewrite run_bind, run_print.
  unfold new_semaphore. apply Z.ltb_lt in Hc. rewrite Hc. reflexivity.
Qed.

Lemma negative_concurrency_refused_witness :
  download_boe_pdfs date_2024_01_07 date_2024_01_07 (-1) ["boe"] [0]%nat
    world_two_entries =
  (Some (Raised (ValueError "Semaphore initial value must be >= 0")),
   log (EvPrint (MsgProcessing (length [date_2024_01_07])
                   date_2024_01_07 date_2024_01_07))
     (log (EvMkdir ["boe"] None)
        (set_fs (<[["boe"] := Dir]> ∅) world_two_entries))).
Proof.
  apply (negative_concurrency_refused date_2024_01_07 date_2024_01_07 (-1)
           ["boe"] [0]%nat world_two_entries (<[["boe"] := Dir]> ∅)
           [date_2024_01_07]).
  - lia.
  - reflexivity.
  - vm_compute. reflexivity.
Defined.

(** ** The attempts of a download *)

Lemma requests_app (evs1 evs2 : list event) :
  requests (evs1 ++ evs2) = requests evs1 ++ requests evs2.
Proof. apply omap_app. Qed.

Lemma sleeps_app (evs1 evs2 : list event) :
  sleeps (evs1 ++ evs2) = sleeps evs1 ++ sleeps evs2.
Proof. apply omap_app. Qed.

(** Storing the body asks nothing of the network and does not sleep. *)
Lemma store_events (path : Path) (data : list byte) (w w' : world)
    (o : outcome unit) :
  store path data w = (o, w') ->
  exists evs, trace w' = trace w ++ evs /\ requests evs = [] /\
    sleeps evs = [] /\ clock w' = clock w /\ net w' = net w.
Proof.
  unfold store. intros Hs.
  destruct (fs_mkdir true true (path_parent path) (fs w)) as [e|f1].
  - injection Hs as <- <-. eexists. repeat split.
  - destruct (fs_write path data f1) as [e|f2]; injection Hs as <- <-.
    + exists [EvMkdir (path_parent path) None; EvWrite path data (Some e)].
      cbn. rewrite <- app_assoc. repeat split.
    + exists [EvMkdir (path_parent path) None; EvWrite path data None].
      cbn. rewrite <- app_assoc. repeat split.
Qed.

(** One attempt is one request. *)
Lemma download_try_events (url : string) (path : Path) (w w' : world)
    (o : outcome unit) :
  run (download_pdf_try (PStr url) path) w = (o, w') ->
  exists evs, trace w' = trace w ++ evs /\ requests evs = [(url, [])] /\
    sleeps evs = [] /\ clock w' = S (clock w) /\ net w' = net w.
Proof.
  rewrite run_download_pdf_try. intros Hrun.
  assert (Hget : trace (after_get url [] w) =
                 trace w ++ [EvGet url [] (net w (clock w) url [])]) by reflexivity.
  destruct (net w (clock w) url []) as [r|e].
  - destruct (is_success r).
    + destruct (store_events _ _ _ _ _ Hrun) as (evs & Ht & Hr & Hs & Hc & Hn).
      eexists. split; [rewrite Ht, Hget, <- app_assoc; reflexivity|].
      rewrite requests_app, sleeps_app, Hr, Hs, Hc, Hn. repeat split.
    + injection Hrun as <- <-. eexists. split; [exact Hget|]. repeat split.
  - injection Hrun as <- <-. eexists. split; [exact Hget|]. repeat split.
Qed.

Lemma download_pdf_loop_attempts (n a : nat) (url : string) (path : Path)
    (w w' : world) (o : outcome unit) :
  (a + n = 3)%nat -> (0 < n)%nat ->
  run (download_pdf_loop (List.map Z.of_nat (seq a n)) (PStr url) path) w = (o, w') ->
  exists evs k, (k < n)%nat /\ trace w' = trace w ++ evs /\
    requests evs = repeat (url, []) (S k) /\
    sleeps evs = List.map (fun j => RETRY_DELAY * (Z.of_nat j + 1)) (seq a k) /\
    clock w' = (clock w + S k)%nat /\ net w' = net w /\
    (forall e, o = Raised e -> is_HTTPError e = true -> (a + S k = 3)%nat).
Proof.
  revert a w. induction n as [|n IH]; intros a w Han Hn Hrun; [lia|].
  cbn [seq List.map] in Hrun. rewrite run_download_pdf_loop_cons in Hrun.
  destruct (run (download_pdf_try (PStr url) path) w) as [[[]|e] w1] eqn:Htry;
    destruct (download_try_events _ _ _ _ _ Htry) as (evs1 & Ht1 & Hr1 & Hs1 & Hc1 & Hn1).
  - injection Hrun as <- <-. exists evs1, 0%nat.
    split; [lia|]. split; [exact Ht1|]. split; [exact Hr1|].
    split; [exact Hs1|]. split; [lia|]. split; [exact Hn1|]. discriminate.
  - destruct (is_HTTPError e) eqn:He.
    + destruct (Z.ltb_spec (Z.of_nat a) (MAX_RETRIES - 1)) as [Hlt|Hge].
      * unfold MAX_RETRIES in Hlt.
        destruct (IH (S a) _ ltac:(lia) ltac:(lia) Hrun)
          as (evs2 & k & Hk & Ht2 & Hr2 & Hs2 & Hc2 & Hn2 & Hex).
        exists (evs1 ++ [EvSleep (RETRY_DELAY * (Z.of_nat a + 1))] ++ evs2), (S k).
        split; [lia|]. split.
        { rewrite Ht2. cbn [log trace]. rewrite Ht1, <- !app_assoc. reflexivity. }
        split.
        { rewrite !requests_app, Hr1, Hr2. reflexivity. }
        split.
        { rewrite !sleeps_app, Hs1, Hs2. reflexivity. }
        split; [rewrite Hc2; cbn [log clock]; lia|].
        split; [rewrite Hn2; exact Hn1|].
        intros e' Ho He'. specialize (Hex e' Ho He'). lia.
      * injection Hrun as <- <-. exists evs1, 0%nat. unfold MAX_RETRIES in Hge.
        split; [lia|]. split; [exact Ht1|]. split; [exact Hr1|].
        split; [exact Hs1|]. split; [lia|]. split; [exact Hn1|].
        intros _ _ _. lia.
    + injection Hrun as <- <-. exists evs1, 0%nat.
      split; [lia|]. split; [exact Ht1|]. split; [exact Hr1|].
      split; [exact Hs1|]. split; [lia|]. split; [exact Hn1|].
      intros e' [= <-] He'. congruence.
Qed.

(** Every run of [download_pdf] makes between one and three requests,
    all for the given URL and without headers, and sleeps 30 s between
    the first and the second and 60 s between the second and the third,
    never after the last: at most 90 s in all.  It raises an HTTP error
    only after the third request. *)
Theorem download_pdf_attempts (url : string) (path : Path) (w w' : world)
    (o : outcome unit) :
  run (download_pdf (PStr url) path) w = (o, w') ->
  exists evs k, (k <= 2)%nat /\ trace w' = trace w ++ evs /\
    requests evs = repeat (url, []) (S k) /\
    sleeps evs = take k [30; 60] /\
    clock w' = (clock w + S k)%nat /\
    (forall e, o = Raised e -> is_HTTPError e = true -> k = 2%nat).
Proof.
  intros Hrun. unfold download_pdf in Hrun.
  change (range MAX_RETRIES) with (List.map Z.of_nat (seq 0 3)) in Hrun.
  destruct (download_pdf_loop_attempts 3 0 _ _ _ _ _ eq_refl ltac:(lia) Hrun)
    as (evs & k & Hk & Ht & Hr & Hs & Hc & _ & Hex).
  exists evs, k. split; [lia|]. split; [exact Ht|]. split; [exact Hr|].
  split.
  { rewrite Hs. destruct k as [|[|[|k]]]; try lia; reflexivity. }
  split; [exact Hc|].
  intros e Ho He. specialize (Hex e Ho He). lia.
Qed.

Lemma download_pdf_attempts_witness :
  let path := pdf_path_of ["boe"] date_2024_01_07 in
  let w := world_first_fails in
  let w' := snd (run (download_pdf (PStr url_a) path) w) in
  exists evs k, (k <= 2)%nat /\ trace w' = trace w ++ evs /\
    requests evs = repeat (url_a, []) (S k) /\
    sleeps evs = take k [30; 60] /\
    clock w' = (clock w + S k)%nat /\
    (forall e, (Raised (TransportError "timed out") : outcome unit) = Raised e ->
               is_HTTPError e = true -> k = 2%nat).
Proof.
  apply (download_pdf_attempts url_a (pdf_path_of ["boe"] date_2024_01_07)
           world_first_fails
           (snd (run (download_pdf (PStr url_a)
                        (pdf_path_of ["boe"] date_2024_01_07)) world_first_fails))
           (Raised (TransportError "timed out"))).
  vm_compute. reflexivity.
Defined.

(** ** A download that recovers *)

(** When at most two requests fail the way the loop retries and the next
    is answered 2xx, [download_pdf] returns: the failed requests are each
    followed by their sleep, and the body of the answer is stored at
    [path], whose directories are made first. *)
Theorem download_pdf_recovers (url : string) (path : Path) (w : world)
    (fails : list get_result) (r : Response)
    (f1 f2 : gmap (list string) fnode) :
  (length fails < 3)%nat ->
  Forall (fun g => is_Some (get_failure g)) fails ->
  answers w url [] (fails ++ [GotResponse r]) ->
  is_success r = true ->
  fs_mkdir true true (path_parent path) (fs w) = inr f1 ->
  fs_write path (content r) f1 = inr f2 ->
  exists w',
    run (download_pdf (PStr url) path) w = (Returned tt, w') /\
    trace w' = trace w ++ retry_events url [] 0 fails ++
      [EvGet url [] (GotResponse r);
       EvMkdir (path_parent path) None;
       EvWrite path (content r) None] /\
    fs w' = f2 /\
    fs w' !! path = Some (File (content r)).
Proof.
  intros Hlen Hfails Hans Hok Hm Hw.
  pose proof (fs_write_lookup _ _ _ _ Hw) as Hfile.
  unfold download_pdf. rewrite range_MAX_RETRIES.
  destruct fails as [|g1 [|g2 [|g3 fails]]]; [| | |simpl in Hlen; lia].
  - pose proof (Hans 0%nat _ eq_refl) as H0. cbn in H0.
    erewrite download_loop_ok by (cbn; eauto).
    erewrite store_ok by (cbn [fs after_get log tick]; eauto).
    eexists. split; [reflexivity|]. split; [|split; [reflexivity|exact Hfile]].
    cbn. rewrite H0, <- !app_assoc. reflexivity.
  - pose proof (Hans 0%nat _ eq_refl) as H0.
    pose proof (Hans 1%nat _ eq_refl) as H1. cbn in H0, H1.
    apply Forall_cons in Hfails as [[e1 He1] _].
    erewrite download_loop_retry by (cbn; eauto; reflexivity).
    erewrite download_loop_ok by (cbn; eauto).
    erewrite store_ok by (cbn [fs after_get log tick]; eauto).
    eexists. split; [reflexivity|]. split; [|split; [reflexivity|exact Hfile]].
    cbn. rewrite H0, H1, <- !app_assoc. reflexivity.
  - pose proof (Hans 0%nat _ eq_refl) as H0.
    pose proof (Hans 1%nat _ eq_refl) as H1.
    pose proof (Hans 2%nat _ eq_refl) as H2. cbn in H0, H1, H2.
    apply Forall_cons in Hfails as [[e1 He1] Hfails].
    apply Forall_cons in Hfails as [[e2 He2] _].
    erewrite download_loop_retry by (cbn; eauto; reflexivity).
    erewrite download_loop_retry by (cbn; eauto; reflexivity).
    erewrite download_loop_ok by (cbn; eauto).
    erewrite store_ok by (cbn [fs after_get log tick]; eauto).
    eexists. split; [reflexivity|]. split; [|split; [reflexivity|exact Hfile]].
    cbn. rewrite H0, H1, H2, <- !app_assoc. reflexivity.
Qed.

Lemma download_pdf_recovers_witness :
  let path := pdf_path_of ["boe"] date_2024_01_07 in
  let r := mkResponse 200 bytes_a None in
  let w := world_of ∅ (net_script [timed_out; GotResponse r] timed_out) in
  exists w',
    run (download_pdf (PStr url_a) path) w = (Returned tt, w') /\
    trace w' = trace w ++ retry_events url_a [] 0 [timed_out] ++
      [EvGet url_a [] (GotResponse r);
       EvMkdir (path_parent path) None;
       EvWrite path (content r) None] /\
    fs w' = <[path := File bytes_a]>
              (<[["boe"; "2024"; "01"; "07"] := Dir]>
                (<[["boe"; "2024"; "01"] := Dir]>
                  (<[["boe"; "2024"] := Dir]> (<[["boe"] := Dir]> ∅)))) /\
    fs w' !! path = Some (File (content r)).
Proof.
  apply (download_pdf_recovers url_a (pdf_path_of ["boe"] date_2024_01_07)
           (world_of ∅ (net_script [timed_out; GotResponse (mkResponse 200 bytes_a None)]
                          timed_out))
           [timed_out] (mkResponse 200 bytes_a None)
           (<[["boe"; "2024"; "01"; "07"] := Dir]>
              (<[["boe"; "2024"; "01"] := Dir]>
                (<[["boe"; "2024"] := Dir]> (<[["boe"] := Dir]> ∅))))).
  - simpl. lia.
  - repeat constructor. exists (TransportError "timed out"). reflexivity.
  - intros [|[|i]] g H; simpl in H; inversion H; reflexivity.
  - reflexivity.
  - vm_compute. reflexivity.
  - vm_compute. reflexivity.
Defined.

(** An error of the filesystem while the body is stored is no HTTP error:
    [download_pdf] does not catch it, so it leaves after this one request,
    without a sleep and without another attempt. *)
Theorem store_failure_not_retried (url : string) (path : Path) (w : world)
    (r : Response) (e : exn) :
  net w (clock w) url [] = GotResponse r ->
  is_success r = true ->
  (fs_mkdir true true (path_parent path) (fs w) = inl e \/
   exists f1, fs_mkdir true true (path_parent path) (fs w) = inr f1 /\
              fs_write path (content r) f1 = inl e) ->
  exists w',
    run (download_pdf (PStr url) path) w = (Raised e, w') /\
    is_HTTPError e = false /\
    requests (trace w') = requests (trace w) ++ [(url, [])] /\
    sleeps (trace w') = sleeps (trace w) /\
    written (trace w') = written (trace w).
Proof.
  intros Hg Hok Hfs. unfold download_pdf. rewrite range_MAX_RETRIES.
  rewrite (download_loop_ok _ _ _ _ _ r Hg Hok).
  unfold store. cbn [fs after_get log tick].
  destruct Hfs as [Hm|(f1 & Hm & Hw)].
  - rewrite Hm. eexists. split; [reflexivity|].
    split; [exact (path_mkdir_rec_error _ _ _ _ _ _ Hm)|].
    cbn [trace log after_get tick].
    rewrite <- !app_assoc, requests_app, sleeps_app, written_app, Hg.
    cbn. rewrite !app_nil_r. repeat split.
  - rewrite Hm, Hw. eexists. split; [reflexivity|].
    split; [exact (fs_write_error _ _ _ _ Hw)|].
    cbn [trace log after_get tick set_fs].
    rewrite <- !app_assoc, requests_app, sleeps_app, written_app, Hg.
    cbn. rewrite !app_nil_r. repeat split.
Qed.

Lemma store_failure_not_retried_witness :
  let path := pdf_path_of ["boe"] date_2024_01_07 in
  let w := world_of (<[path := Dir]> fs_with_artifact)
             (net_always (GotResponse (mkResponse 200 bytes_a None))) in
  exists w',
    run (download_pdf (PStr url_a) path) w =
      (Raised (OSError "IsADirectoryError"), w') /\
    is_HTTPError (OSError "IsADirectoryError") = false /\
    requests (trace w') = requests (trace w) ++ [(url_a, [])] /\
    sleeps (trace w') = sleeps (trace w) /\
    written (trace w') = written (trace w).
Proof.
  apply (store_failure_not_retried url_a (pdf_path_of ["boe"] date_2024_01_07)
           (world_of (<[pdf_path_of ["boe"] date_2024_01_07 := Dir]> fs_with_artifact)
              (net_always (GotResponse (mkResponse 200 bytes_a None))))
           (mkResponse 200 bytes_a None) (OSError "IsADirectoryError")).
  - reflexivity.
  - reflexivity.
  - right. exists (<[pdf_path_of ["boe"] date_2024_01_07 := Dir]> fs_with_artifact).
    split; vm_compute; reflexivity.
Defined.

(** ** A second run over the same day *)

Lemma pdf_path_not_root (output_dir : Path) (date : datetime) :
  is_root (pdf_path_of output_dir date) = false.
Proof.
  rewrite pdf_path_of_parts.
  generalize (fmt4 (year_of date)) (fmt2 (month_of date)) (fmt2 (day_of date)).
  intros a b c. destruct output_dir as [|x [|y l]]; reflexivity.
Qed.

Lemma fs_exists_pdf_path (f : gmap (list string) fnode) (output_dir : Path)
    (date : datetime) :
  fs_exists f (pdf_path_of output_dir date) =
  match f !! pdf_path_of output_dir date with Some _ => true | None => false end.
Proof.
  unfold fs_exists. rewrite pdf_path_not_root. reflexivity.
Qed.

(** A day that ended with at least one download is a cache hit from then
    on: run again in the world the first run left, [process_date] returns
    [(0, "cached")] after the existence check alone. *)
Theorem stored_day_is_cached (date : datetime) (output_dir : Path)
    (w w' : world) (count : Z) :
  run (process_date date output_dir) w = (Returned (count, "success"), w') ->
  0 < count ->
  run (process_date date output_dir) w' =
  (Returned (0, "cached"), log (EvExists (pdf_path_of output_dir date) true) w').
Proof.
  intros Hrun Hpos.
  destruct (process_date_runs _ _ _ _ _ Hrun) as (evs & Ht & Ho).
  destruct Ht as (_ & _ & _ & Hfs).
  destruct Ho as [(H & _)|[(H & _)|[(H & _)|(_ & Hc & _)]]]; try discriminate.
  assert (Hex : fs_exists (fs w') (pdf_path_of output_dir date) = true).
  { rewrite fs_exists_pdf_path, Hfs. unfold last_written.
    destruct (written evs) as [|x l] using rev_ind; [cbn in Hc; lia|].
    rewrite last_snoc. reflexivity. }
  rewrite run_process_date. cbv zeta. rewrite Hex. reflexivity.
Qed.

Lemma stored_day_is_cached_witness :
  let w' := snd (run (process_date date_2024_01_07 ["boe"]) world_two_entries) in
  run (process_date date_2024_01_07 ["boe"]) w' =
  (Returned (0, "cached"),
   log (EvExists (pdf_path_of ["boe"] date_2024_01_07) true) w').
Proof.
  apply (stored_day_is_cached date_2024_01_07 ["boe"] world_two_entries
           (snd (run (process_date date_2024_01_07 ["boe"]) world_two_entries)) 2).
  - vm_compute. reflexivity.
  - lia.
Defined.

Lemma missing_is_not_cached (date : datetime) (output_dir : Path) (w : world)
    (count : Z) :
  fs_exists (fs w) (pdf_path_of output_dir date) = false ->
  fst (run (process_date date output_dir) w) <> Returned (count, "cached").
Proof.
  intros Hmiss. rewrite run_process_date. cbv zeta. rewrite Hmiss.
  destruct (run (summary_loop (range MAX_RETRIES) (strftime_Ymd date) PNone)
              (log (EvExists (pdf_path_of output_dir date) false) w))
    as [o1 w1] eqn:Hsum.
  destruct (summary_loop_tracks (pdf_path_of output_dir date) _ _ _ _ _ _ Hsum)
    as (evs1 & _ & _ & Hres & _).
  destruct o1 as [[res|data]|e]; cbn [fst].
  - destruct (Hres res eq_refl) as [-> | ->]; discriminate.
  - destruct (is_None data); [discriminate|].
    destruct (run (extract_pdfs data) w1) as [[pdfs|e] w2]; [|discriminate].
    destruct (run (download_loop output_dir date (strftime_Ymd date) pdfs 0) w2)
      as [[d|e] w3]; discriminate.
  - discriminate.
Qed.

Lemma summary_loop_fs (attempts : list Z) (date_str : string) (data0 : pyval)
    (w w' : world) (o : outcome ((Z * string) + pyval)) :
  run (summary_loop attempts date_str data0) w = (o, w') -> fs w' = fs w.
Proof.
  revert w. induction attempts as [|attempt rest IH]; intros w Hrun.
  - injection Hrun as _ <-. reflexivity.
  - rewrite run_summary_loop_cons, run_summary_try in Hrun.
    set (w1 := after_get (api_url date_str) accept_json w) in *.
    assert (Hfail : forall e,
      (if is_HTTPError e
       then if attempt <? MAX_RETRIES - 1
            then run (summary_loop rest date_str data0)
                   (log (EvSleep (RETRY_DELAY * (attempt + 1))) w1)
            else (Returned (inl (0, "error")),
                  log (EvPrint (MsgFailedAfter MAX_RETRIES date_str e)) w1)
       else (Raised e, w1)) = (o, w') -> fs w' = fs w).
    { intros e He. destruct (is_HTTPError e);
        [destruct (attempt <? MAX_RETRIES - 1)|].
      - apply IH in He. rewrite He. reflexivity.
      - injection He as _ <-. reflexivity.
      - injection He as _ <-. reflexivity. }
    destruct (net w (clock w) (api_url date_str) accept_json) as [r|e].
    + destruct (status_code r =? 404); [injection Hrun as _ <-; reflexivity|].
      destruct (is_success r).
      * destruct (json r); injection Hrun as _ <-; reflexivity.
      * exact (Hfail (HTTPStatusError (status_code r)) Hrun).
    + exact (Hfail e Hrun).
Qed.

(** A day that ended as "no_boe" (the summary answered 404) or as "error"
    (the summary could not be fetched, or was JSON null) has written
    nothing: the
    filesystem is as it was, the artifact path is still absent, and a
    later run over the same day is no cache hit, so the day is asked for
    again. *)
Theorem unstored_day_is_not_cached (date : datetime) (output_dir : Path)
    (w w' : world) (count : Z) (status : string) :
  run (process_date date output_dir) w = (Returned (count, status), w') ->
  status = "no_boe" \/ status = "error" ->
  count = 0 /\
  fs w' = fs w /\
  fs_exists (fs w') (pdf_path_of output_dir date) = false /\
  forall count',
    fst (run (process_date date output_dir) w') <> Returned (count', "cached").
Proof.
  intros Hrun Hst.
  rewrite run_process_date in Hrun. cbv zeta in Hrun.
  destruct (fs_exists (fs w) (pdf_path_of output_dir date)) eqn:Hmiss.
  { injection Hrun as _ <- _. destruct Hst; discriminate. }
  destruct (run (summary_loop (range MAX_RETRIES) (strftime_Ymd date) PNone)
              (log (EvExists (pdf_path_of output_dir date) false) w))
    as [o1 w1] eqn:Hsum.
  pose proof (summary_loop_fs _ _ _ _ _ _ Hsum) as Hfs. cbn [fs log] in Hfs.
  destruct (summary_loop_tracks (pdf_path_of output_dir date) _ _ _ _ _ _ Hsum)
    as (evs1 & _ & _ & Hres & _).
  assert (Hend : count = 0 /\ w' = w1).
  { destruct o1 as [[res|data]|e].
    - injection Hrun as -> <-.
      destruct (Hres _ eq_refl) as [[= -> _]|[= -> _]]; split; reflexivity.
    - destruct (is_None data).
      + injection Hrun as <- _ <-. split; reflexivity.
      + destruct (run (extract_pdfs data) w1) as [[pdfs|e] w2]; [|discriminate].
        destruct (run (download_loop output_dir date (strftime_Ymd date) pdfs 0) w2)
          as [[d|e] w3]; [|discriminate].
        injection Hrun as _ <- _. destruct Hst; discriminate.
    - discriminate. }
  destruct Hend as [-> ->].
  assert (Hmiss' : fs_exists (fs w1) (pdf_path_of output_dir date) = false)
    by (rewrite Hfs; exact Hmiss).
  split; [reflexivity|]. split; [exact Hfs|]. split; [exact Hmiss'|].
  intros count'. apply missing_is_not_cached. exact Hmiss'.
Qed.

Lemma unstored_day_is_not_cached_witness :
  let w := world_of ∅ (net_always timed_out) in
  let w' := snd (run (process_date date_2024_01_07 ["boe"]) w) in
  0 = 0 /\
  fs w' = fs w /\
  fs_exists (fs w') (pdf_path_of ["boe"] date_2024_01_07) = false /\
  forall count',
    fst (run (process_date date_2024_01_07 ["boe"]) w') <> Returned (count', "cached").
Proof.
  apply (unstored_day_is_not_cached date_2024_01_07 ["boe"]
           (world_of ∅ (net_always timed_out))
           (snd (run (process_date date_2024_01_07 ["boe"])
                   (world_of ∅ (net_always timed_out))))
           0 "error").
  - vm_compute. reflexivity.
  - right. reflexivity.
Defined.

(** ** What a run does to the filesystem *)

Lemma path_parent_prefix (p : Path) : path_parent p `prefix_of` p.
Proof.
  unfold path_parent. destruct (is_root p); [reflexivity|].
  destruct p as [|x l] using rev_ind; [reflexivity|].
  rewrite removelast_last. exists [x]. reflexivity.
Qed.

Lemma os_mkdir_changes (p : Path) (f f' : gmap (list string) fnode) (q : Path) :
  os_mkdir p f = inr f' ->
  f' !! q = f !! q \/ (q = p /\ f !! q = None /\ f' !! q = Some Dir).
Proof.
  intros H. apply os_mkdir_inr in H as [-> Hex].
  assert (Hp : f !! p = None).
  { unfold fs_exists in Hex. destruct (is_root p); [discriminate|].
    destruct (f !! p); [discriminate|reflexivity]. }
  destruct (decide (q = p)) as [->|Hne].
  - right. rewrite lookup_insert_eq. auto.
  - left. rewrite lookup_insert_ne by congruence. reflexivity.
Qed.

(** [mkdir] only adds directories, at the path or above it. *)
Lemma path_mkdir_rec_changes (n : nat) (parents exist_ok : bool) (p : Path)
    (f f' : gmap (list string) fnode) (q : Path) :
  path_mkdir_rec n parents exist_ok p f = inr f' ->
  f' !! q = f !! q \/
  (f !! q = None /\ f' !! q = Some Dir /\ q `prefix_of` p).
Proof.
  revert parents exist_ok p f f'.
  induction n as [|n IH]; intros parents exist_ok p f f' Hm;
    cbn [path_mkdir_rec] in Hm;
    destruct (os_mkdir p f) as [e|f0] eqn:Hos.
  - destruct (is_FileNotFoundError e).
    + destruct (negb parents || is_root p); discriminate.
    + destruct (negb exist_ok || negb (fs_is_dir f p)); [discriminate|].
      injection Hm as <-. left. reflexivity.
  - injection Hm as <-.
    destruct (os_mkdir_changes _ _ _ q Hos) as [H|(-> & H1 & H2)]; [left; exact H|].
    right. repeat split; assumption || reflexivity.
  - destruct (is_FileNotFoundError e).
    + destruct (negb parents || is_root p); [discriminate|].
      destruct (path_mkdir_rec n true true (path_parent p) f) as [e1|f1] eqn:Hp;
        [discriminate|].
      destruct (IH _ _ _ _ _ Hp) as [H1|(H1 & H1' & Hpre1)];
        destruct (IH _ _ _ _ _ Hm) as [H2|(H2 & H2' & Hpre2)].
      * left. congruence.
      * right. split; [congruence|]. split; assumption.
      * right. split; [exact H1|]. split; [congruence|].
        etransitivity; [exact Hpre1|apply path_parent_prefix].
      * congruence.
    + destruct (negb exist_ok || negb (fs_is_dir f p)); [discriminate|].
      injection Hm as <-. left. reflexivity.
  - injection Hm as <-.
    destruct (os_mkdir_changes _ _ _ q Hos) as [H|(-> & H1 & H2)]; [left; exact H|].
    right. repeat split; assumption || reflexivity.
Qed.

Lemma fs_write_changes (p : Path) (data : list byte)
    (f f' : gmap (list string) fnode) (q : Path) :
  fs_write p data f = inr f' ->
  f' !! q = f !! q \/ (q = p /\ f' !! q = Some (File data)).
Proof.
  intros Hw. apply fs_write_inr in Hw as [-> _].
  destruct (decide (q = p)) as [->|Hne].
  - right. rewrite lookup_insert_eq. auto.
  - left. rewrite lookup_insert_ne by congruence. reflexivity.
Qed.

Lemma touched_refl (f : gmap (list string) fnode) (q : Path) : touched [] f f q.
Proof. left. reflexivity. Qed.

Lemma touched_trans (evs1 evs2 : list event) (f f1 f2 : gmap (list string) fnode)
    (q : Path) :
  touched evs1 f f1 q -> touched evs2 f1 f2 q -> touched (evs1 ++ evs2) f f2 q.
Proof.
  unfold touched.
  intros [H1|[(H1 & H1' & p1 & Hin1 & Hp1)|(d1 & Hin1 & H1)]]
         [H2|[(H2 & H2' & p2 & Hin2 & Hp2)|(d2 & Hin2 & H2)]].
  - left. congruence.
  - right. left. split; [congruence|]. split; [exact H2'|].
    exists p2. split; [apply in_or_app; right; exact Hin2|exact Hp2].
  - right. right. exists d2. split; [apply in_or_app; right; exact Hin2|exact H2].
  - right. left. split; [exact H1|]. split; [congruence|].
    exists p1. split; [apply in_or_app; left; exact Hin1|exact Hp1].
  - congruence.
  - right. right. exists d2. split; [apply in_or_app; right; exact Hin2|exact H2].
  - right. right. exists d1. split; [apply in_or_app; left; exact Hin1|congruence].
  - congruence.
  - right. right. exists d2. split; [apply in_or_app; right; exact Hin2|exact H2].
Qed.

(** One request changes the filesystem as its event says. *)
Lemma handle_touched {X : Type} (op : io X) (w : world) (q : Path) :
  exists ev, trace (snd (handle op w)) = trace w ++ [ev] /\
    touched [ev] (fs w) (fs (snd (handle op w))) q.
Proof.
  destruct op as [p|url hs|secs|p parents exist_ok|p data|m]; cbn [handle].
  - eexists. split; [reflexivity|left; reflexivity].
  - eexists. split; [reflexivity|left; reflexivity].
  - eexists. split; [reflexivity|left; reflexivity].
  - destruct (fs_mkdir parents exist_ok p (fs w)) as [e|f'] eqn:Hm.
    + eexists. split; [reflexivity|left; reflexivity].
    + eexists. split; [reflexivity|].
      destruct (path_mkdir_rec_changes _ _ _ _ _ _ q Hm) as [H|(H & H' & Hpre)].
      * left. exact H.
      * right. left. split; [exact H|]. split; [exact H'|].
        exists p. split; [left; reflexivity|exact Hpre].
  - destruct (fs_write p data (fs w)) as [e|f'] eqn:Hw.
    + eexists. split; [reflexivity|left; reflexivity].
    + eexists. split; [reflexivity|].
      destruct (fs_write_changes _ _ _ _ q Hw) as [H|(-> & H)].
      * left. exact H.
      * right. right. exists data. split; [left; reflexivity|exact H].
  - eexists. split; [reflexivity|left; reflexivity].
Qed.

(** Every coroutine changes the filesystem as its events say. *)
Lemma run_touched {A : Type} (p : prog A) (w : world) (q : Path) :
  exists evs, trace (snd (run p w)) = trace w ++ evs /\
    touched evs (fs w) (fs (snd (run p w))) q.
Proof.
  revert w. induction p as [a|e|X op k IH]; intros w.
  - exists []. cbn. rewrite app_nil_r. split; [reflexivity|apply touched_refl].
  - exists []. cbn. rewrite app_nil_r. split; [reflexivity|apply touched_refl].
  - cbn [run]. destruct (handle_touched op w q) as (ev & Ht & Hq).
    destruct (handle op w) as [x w1]. cbn [snd] in *.
    destruct (IH x w1) as (evs & Ht2 & Hq2).
    exists ([ev] ++ evs). split.
    + rewrite Ht2, Ht, <- app_assoc. reflexivity.
    + exact (touched_trans _ _ _ _ _ _ Hq Hq2).
Qed.

(** [process_date] leaves every entry of the filesystem as it was, but
    for the directories on the way to the day's directory, which it makes
    where they are missing, and the day's artifact, which it writes. *)
Theorem process_date_touches_only_its_day (date : datetime) (output_dir : Path)
    (w w' : world) (o : outcome (Z * string)) (q : Path) :
  run (process_date date output_dir) w = (o, w') ->
  fs w' !! q = fs w !! q \/
  (fs w !! q = None /\ fs w' !! q = Some Dir /\
   q `prefix_of` path_parent (pdf_path_of output_dir date)) \/
  (q = pdf_path_of output_dir date /\ exists data, fs w' !! q = Some (File data)).
Proof.
  intros Hrun.
  destruct (process_date_runs _ _ _ _ _ Hrun) as (evs & (Ht & _ & Hok & _) & _).
  destruct (run_touched (process_date date output_dir) w q) as (evs' & Ht' & Hq).
  rewrite Hrun in Ht', Hq. cbn [snd] in Ht', Hq.
  rewrite Ht in Ht'. apply app_inv_head in Ht'. subst evs'.
  rewrite List.Forall_forall in Hok.
  destruct Hq as [H|[(H & H' & p & Hin & Hpre)|(data & Hin & H)]].
  - left. exact H.
  - right. left. split; [exact H|]. split; [exact H'|].
    specialize (Hok _ Hin). cbn in Hok. subst p. exact Hpre.
  - right. right. specialize (Hok _ Hin). cbn in Hok. subst q.
    split; [reflexivity|]. exists data. exact H.
Qed.

Lemma process_date_touches_only_its_day_witness :
  let w := world_of (<[["boe"; "1999"] := Dir]> (<[["boe"] := Dir]> ∅))
             (net_by_url [(api_2024_01_07, GotResponse (resp_json summary_two));
                          (url_b, GotResponse (mkResponse 200 bytes_b None))]
                timed_out) in
  let w' := snd (run (process_date date_2024_01_07 ["boe"]) w) in
  let q := ["boe"; "1999"] in
  fs w' !! q = fs w !! q \/
  (fs w !! q = None /\ fs w' !! q = Some Dir /\
   q `prefix_of` path_parent (pdf_path_of ["boe"] date_2024_01_07)) \/
  (q = pdf_path_of ["boe"] date_2024_01_07 /\
   exists data, fs w' !! q = Some (File data)).
Proof.
  apply (process_date_touches_only_its_day date_2024_01_07 ["boe"]
           (world_of (<[["boe"; "1999"] := Dir]> (<[["boe"] := Dir]> ∅))
              (net_by_url [(api_2024_01_07, GotResponse (resp_json summary_two));
                           (url_b, GotResponse (mkResponse 200 bytes_b None))]
                 timed_out))
           (snd (run (process_date date_2024_01_07 ["boe"])
                   (world_of (<[["boe"; "1999"] := Dir]> (<[["boe"] := Dir]> ∅))
                      (net_by_url [(api_2024_01_07, GotResponse (resp_json summary_two));
                                   (url_b, GotResponse (mkResponse 200 bytes_b None))]
                         timed_out))))
           (Returned (1, "success")) ["boe"; "1999"]).
  vm_compute. reflexivity.
Defined.

(** ** What a day costs *)



Lemma take_delays_bound (k : nat) : 0 <= foldr Z.add 0 (take k [30; 60]) <= 90.
Proof. destruct k as [|[|[|k]]]; cbn; lia. Qed.





(** ** Reading the entries of a summary *)

Lemma extract_loop_entries (entries : list (string * string))
    (pdfs : list (pyval * pyval)) :
  extract_loop (List.map (fun e => diario_entry (fst e) (snd e)) entries) pdfs =
  Ret (pdfs ++ with_url entries).
Proof.
  revert pdfs. induction entries as [|[url identifier] rest IH]; intros pdfs.
  - cbn. rewrite app_nil_r. reflexivity.
  - cbn [List.map fst snd]. unfold diario_entry at 1. cbn [extract_loop].
    cbn [py_get dict_lookup String.eqb Ascii.eqb Bool.eqb mbind prog_bind bind
         truthy].
    unfold with_url. cbn [List.filter fst].
    destruct (negb (String.eqb url "")).
    + specialize (IH (pdfs ++ [(PStr url, PStr identifier)])).
      unfold with_url in IH. cbn [List.map fst snd].
      rewrite <- app_assoc in IH. exact IH.
    + apply IH.
Qed.

(** From a summary of the documented shape, [process_date] reads the
    entries in their order, each with its URL and identifier, and leaves
    out those whose URL is the empty string. *)
Theorem extract_pdfs_reads_entries (entries : list (string * string)) :
  extract_pdfs (summary_of entries) = Ret (with_url entries).
Proof.
  unfold extract_pdfs, summary_of.
  cbn [py_get dict_lookup String.eqb Ascii.eqb Bool.eqb mbind prog_bind bind].
  apply (extract_loop_entries entries []).
Qed.

(** The loop of lines 75-79 only appends to the list, and at most one
    entry for each element of ["diario"]. *)
Theorem extract_loop_appends (diarios : list pyval) (pdfs r : list (pyval * pyval)) :
  extract_loop diarios pdfs = Ret r ->
  exists new, r = pdfs ++ new /\ (length new <= length diarios)%nat.
Proof.
  revert pdfs. induction diarios as [|diario rest IH]; intros pdfs Hr.
  - injection Hr as <-. exists []. rewrite app_nil_r. split; [reflexivity|cbn; lia].
  - cbn [extract_loop] in Hr.
    destruct (py_get_pure diario "sumario_diario" (PDict [])) as [[x Hx]|[e He]];
      [rewrite Hx, bind_ret in Hr|rewrite He in Hr; discriminate].
    destruct (py_get_pure x "url_pdf" (PDict [])) as [[y Hy]|[e He]];
      [rewrite Hy, bind_ret in Hr|rewrite He in Hr; discriminate].
    destruct (py_get_pure y "texto" PNone) as [[z Hz]|[e He]];
      [rewrite Hz, bind_ret in Hr|rewrite He in Hr; discriminate].
    destruct (truthy z) eqn:Htz.
    + destruct (py_get_pure x "identificador" (PStr "unknown")) as [[i Hi]|[e He]];
        [rewrite Hi, bind_ret in Hr|rewrite He in Hr; discriminate].
      destruct (IH _ Hr) as (new & -> & Hlen).
      exists ((z, i) :: new). rewrite <- app_assoc. split; [reflexivity|cbn; lia].
    + destruct (IH _ Hr) as (new & -> & Hlen).
      exists new. split; [reflexivity|cbn; lia].
Qed.

Lemma extract_loop_appends_witness :
  exists new,
    [(PStr url_a, PStr "BOE-S-2024-7"); (PStr url_b, PStr "unknown")] =
      [(PStr url_a, PStr "BOE-S-2024-7")] ++ new /\
    (length new <=
     length [PDict []; PDict [("sumario_diario",
                               PDict [("url_pdf", PDict [("texto", PStr url_b)])])]])%nat.
Proof.
  apply (extract_loop_appends
           [PDict []; PDict [("sumario_diario",
                              PDict [("url_pdf", PDict [("texto", PStr url_b)])])]]
           [(PStr url_a, PStr "BOE-S-2024-7")]
           [(PStr url_a, PStr "BOE-S-2024-7"); (PStr url_b, PStr "unknown")]).
  reflexivity.
Defined.

(** When ["diario"] holds one object instead of a list, it is read as a
    list of that one object (lines 72-73). *)
Theorem single_diario_object_is_one_entry (url identifier : string) :
  extract_pdfs
    (PDict [("data", PDict [("sumario", PDict [("diario",
       diario_entry url identifier)])])]) =
  extract_pdfs (summary_of [(url, identifier)]).
Proof.
  unfold extract_pdfs, summary_of, diario_entry.
  cbn [py_get dict_lookup String.eqb Ascii.eqb Bool.eqb mbind prog_bind bind
       List.map fst snd].
  reflexivity.
Qed.

(** ** One task after the other *)

Lemma run_schedule_app (output_dir : Path) (s1 s2 : list nat) (c c1 : loop_state) :
  run_schedule output_dir s1 c = (None, c1) ->
  run_schedule output_dir (s1 ++ s2) c = run_schedule output_dir s2 c1.
Proof.
  revert c. induction s1 as [|i s1 IH]; intros c H.
  - injection H as <-. reflexivity.
  - cbn [run_schedule app] in *.
    destruct (step_task output_dir i c) as [[e|] c']; [discriminate|].
    apply IH. exact H.
Qed.

Lemma run_schedule_cons (output_dir : Path) (i : nat) (rest : list nat)
    (c : loop_state) :
  run_schedule output_dir (i :: rest) c =
  match step_task output_dir i c with
  | (Some e, c') => (Some e, snd (run_schedule output_dir rest c'))
  | (None, c') => run_schedule output_dir rest c'
  end.
Proof. reflexivity. Qed.

(** A running task resumed alone goes through its coroutine as [run]
    does, and gives the semaphore back at the end. *)
Lemma run_task_alone (output_dir : Path) (i : nat) (p : prog (Z * string))
    (sem : Z) (ts : list task) (w w' : world) (r : Z * string) :
  (i < length ts)%nat ->
  run p w = (Returned r, w') ->
  run_schedule output_dir (repeat i (S (ops p w)))
    (mkLoop sem (<[i := Running p]> ts) w) =
  (None, mkLoop (sem + 1) (<[i := Done r]> ts) w').
Proof.
  intros Hi. revert w. induction p as [a|e|X op k IH]; intros w Hrun.
  - injection Hrun as <- <-. cbn [ops repeat run_schedule]. unfold step_task.
    cbn [tasks sem_value loop_world].
    rewrite list_lookup_insert_eq by exact Hi.
    rewrite list_insert_insert_eq. reflexivity.
  - discriminate.
  - cbn [run ops] in *. destruct (handle op w) as [x w1] eqn:Hh.
    cbn [repeat run_schedule]. unfold step_task at 1.
    cbn [tasks sem_value loop_world].
    rewrite list_lookup_insert_eq by exact Hi. rewrite Hh.
    rewrite list_insert_insert_eq. apply IH. exact Hrun.
Qed.

Lemma gather_results_all_done (results : list (Z * string)) :
  gather_results (List.map Done results) = Some results.
Proof.
  induction results as [|r rs IH]; [reflexivity|].
  cbn [List.map gather_results]. rewrite IH. reflexivity.
Qed.

Lemma run_report_phase (results : list (Z * string)) (total : nat) (w : world) :
  run (aggregate 0 total results initial_stats ≫= report) w =
  (Returned tt,
   log_all (progress_lines 0 total (length results) ++ report_lines results) w).
Proof.
  rewrite run_bind, initial_stats_eq.
  change 0 with (Z.of_nat 0) at 1.
  rewrite run_aggregate_world. rewrite !Z.add_0_l, run_report.
  rewrite !log_log_all, !log_all_app.
  rewrite <- ?app_assoc. reflexivity.
Qed.

Lemma run_in_turn_schedule (output_dir : Path) (dates : list datetime)
    (done results : list (Z * string)) (sem : Z) (w w' : world) :
  0 < sem ->
  run_in_turn output_dir dates w = (inr results, w') ->
  run_schedule output_dir (schedule_in_turn output_dir (length done) dates w)
    (mkLoop sem (List.map Done done ++ List.map Waiting dates) w) =
  (None, mkLoop sem (List.map Done (done ++ results)) w').
Proof.
  intros Hsem. revert done results w.
  induction dates as [|date rest IH]; intros done results w Hrun.
  - injection Hrun as <- <-. cbn. rewrite !app_nil_r. reflexivity.
  - cbn [run_in_turn] in Hrun. cbn [schedule_in_turn].
    destruct (run (process_date date output_dir) w) as [[r|e] w1] eqn:Hp;
      [|discriminate].
    destruct (run_in_turn output_dir rest w1) as [[e|rs] w2] eqn:Hrest;
      [discriminate|]. injection Hrun as <- <-.
    cbn [snd].
    set (i := length done).
    set (ts := List.map Done done ++ List.map Waiting (date :: rest)).
    assert (Hi : (i < length ts)%nat).
    { subst i ts. rewrite length_app, !length_map. cbn. lia. }
    assert (Hlook : ts !! i = Some (Waiting date)).
    { subst i ts. rewrite lookup_app_r by (rewrite length_map; lia).
      rewrite length_map, Nat.sub_diag. reflexivity. }
    assert (Hdone : <[i := Done r]> ts =
                    List.map Done (done ++ [r]) ++ List.map Waiting rest).
    { subst i ts. rewrite insert_app_r_alt by (rewrite length_map; lia).
      rewrite length_map, Nat.sub_diag. cbn [List.map].
      rewrite map_app, <- app_assoc. reflexivity. }
    change (2 + ops (process_date date output_dir) w)%nat
      with (S (S (ops (process_date date output_dir) w))).
    rewrite (run_schedule_app _ _ _ _
               (mkLoop sem (<[i := Done r]> ts) w1)).
    + rewrite Hdone.
      replace (S i) with (length (done ++ [r])) by (rewrite length_app; cbn; lia).
      rewrite (IH (done ++ [r]) rs w1 Hrest).
      rewrite <- app_assoc. reflexivity.
    + change (repeat i (S (S (ops (process_date date output_dir) w))))
        with (i :: repeat i (S (ops (process_date date output_dir) w))).
      rewrite run_schedule_cons. unfold step_task.
      cbn [tasks sem_value loop_world]. rewrite Hlook.
      apply Z.ltb_lt in Hsem. rewrite Hsem.
      rewrite (run_task_alone output_dir i (process_date date output_dir)
                 (sem - 1) ts w w1 r Hi Hp).
      replace (sem - 1 + 1) with sem by lia. reflexivity.
Qed.

(** With a concurrency of at least 1, the run can always come to its
    end: when the event loop resumes the tasks one after the other, and
    processing the days one after the other raises nowhere, the run
    returns normally, the world is the one the days leave when processed
    in turn, and the report sums their outcomes. *)
Theorem tasks_in_turn_complete (start_date end_date : datetime) (concurrency : Z)
    (output_dir : Path) (w w1 w2 : world) (dates : list datetime)
    (stats : gmap string Z) (sem : Z) (results : list (Z * string)) :
  run (setup start_date end_date concurrency output_dir) w =
    (Returned (dates, stats, sem), w1) ->
  0 < concurrency ->
  run_in_turn output_dir dates w1 = (inr results, w2) ->
  download_boe_pdfs start_date end_date concurrency output_dir
    (schedule_in_turn output_dir 0 dates w1) w =
  (Some (Returned tt),
   log_all (progress_lines 0 (length dates) (length dates) ++ report_lines results)
     w2).
Proof.
  intros Hsetup Hc Hturn.
  destruct (setup_semaphore _ _ _ _ _ _ _ _ _ Hsetup) as [-> _].
  destruct (setup_returns _ _ _ _ _ _ _ _ _ Hsetup) as [_ ->].
  assert (Hlen : length results = length dates).
  { clear Hsetup. revert results w1 w2 Hturn.
    induction dates as [|d ds IH]; intros results w1 w2 Hturn.
    - injection Hturn as <- _. reflexivity.
    - cbn [run_in_turn] in Hturn.
      destruct (run (process_date d output_dir) w1) as [[r|e] w3]; [|discriminate].
      destruct (run_in_turn output_dir ds w3) as [[e|rs] w4] eqn:Hrs; [discriminate|].
      injection Hturn as <- _. cbn [length]. f_equal. exact (IH _ _ _ Hrs). }
  unfold download_boe_pdfs. rewrite Hsetup.
  pose proof (run_in_turn_schedule output_dir dates [] results concurrency w1 w2
                Hc Hturn) as Hs.
  cbn [List.map app length] in Hs. rewrite Hs. cbn [tasks loop_world].
  rewrite gather_results_all_done, run_report_phase, Hlen. reflexivity.
Qed.

Lemma tasks_in_turn_complete_witness :
  let d1 := date_2024_01_07 in
  let d2 := mkDatetime 738893 0 in
  let w1 := snd (run (setup d1 d2 1 ["boe"]) world_two_entries) in
  let w2 := snd (run_in_turn ["boe"] [d1; d2] w1) in
  download_boe_pdfs d1 d2 1 ["boe"] (schedule_in_turn ["boe"] 0 [d1; d2] w1)
    world_two_entries =
  (Some (Returned tt),
   log_all (progress_lines 0 (length [d1; d2]) (length [d1; d2]) ++
            report_lines [(2, "success"); (0, "error")]) w2).
Proof.
  apply (tasks_in_turn_complete date_2024_01_07 (mkDatetime 738893 0) 1 ["boe"]
           world_two_entries
           (snd (run (setup date_2024_01_07 (mkDatetime 738893 0) 1 ["boe"])
                   world_two_entries))
           (snd (run_in_turn ["boe"] [date_2024_01_07; mkDatetime 738893 0]
                   (snd (run (setup date_2024_01_07 (mkDatetime 738893 0) 1 ["boe"])
                           world_two_entries))))
           [date_2024_01_07; mkDatetime 738893 0] initial_stats 1
           [(2, "success"); (0, "error")]).
  - vm_compute. reflexivity.
  - lia.
  - vm_compute. reflexivity.
Defined.









(** The second day is processed after the first has raised, and its
    request is in the trace the run leaves. *)
Example later_day_goes_on_after_raise :
  let d1 := date_2024_01_07 in
  let d2 := mkDatetime 738893 0 in
  let w := world_of ∅ (net_always (GotResponse (resp_json (PDict [("data", PNone)])))) in
  let w1 := snd (run (setup d1 d2 CONCURRENT_LIMIT ["boe"]) w) in
  let result := download_boe_pdfs d1 d2 CONCURRENT_LIMIT ["boe"]
                  (schedule_in_turn ["boe"] 0 [d1; d2] w1) w in
  fst result = Some (Raised (AttributeError "object has no attribute 'get'")) /\
  requests (trace (snd result)) =
    [(api_url "20240107", accept_json); (api_url "20240108", accept_json)].
Proof. vm_compute. repeat split. Qed.

(** ** Calendar dates and the paths of the days *)

Lemma month_day_checked (leapyear : bool) (n : Z) :
  0 <= n < 365 + b2z leapyear ->
  let '(m, d) := month_day n leapyear in
  1 <= m <= 12 /\ 1 <= d <= 31 /\
  DAYS_BEFORE_MONTH m + b2z ((m >? 2) && leapyear) + d = n + 1.
Proof.
  intros Hn.
  assert (Hall : forallb (month_day_ok leapyear)
                   (seq 0 (if leapyear then 366 else 365)) = true).
  { destruct leapyear; vm_compute; reflexivity. }
  rewrite forallb_forall in Hall.
  specialize (Hall (Z.to_nat n)).
  assert (Hin : In (Z.to_nat n) (seq 0 (if leapyear then 366 else 365))).
  { apply in_seq. destruct leapyear; cbn [b2z] in Hn; lia. }
  specialize (Hall Hin). unfold month_day_ok in Hall.
  rewrite Z2Nat.id in Hall by lia.
  destruct (month_day n leapyear) as [m d].
  repeat (apply andb_prop in Hall; destruct Hall as [Hall ?]).
  repeat match goal with
         | H : (_ <=? _) = true |- _ => apply Z.leb_le in H
         | H : (_ =? _) = true |- _ => apply Z.eqb_eq in H
         end.
  repeat split; lia.
Qed.

Lemma ord2ymd_month_day (n0 : Z) :
  ord2ymd n0 =
  let n := n0 - 1 in
  let n400 := n / DI400Y in
  let n100 := (n mod DI400Y) / DI100Y in
  let n4 := ((n mod DI400Y) mod DI100Y) / DI4Y in
  let n1 := (((n mod DI400Y) mod DI100Y) mod DI4Y) / 365 in
  let r := (((n mod DI400Y) mod DI100Y) mod DI4Y) mod 365 in
  let year := n400 * 400 + 1 + n100 * 100 + n4 * 4 + n1 in
  if (n1 =? 4) || (n100 =? 4) then (year - 1, 12, 31)
  else
    let md := month_day r ((n1 =? 3) && (negb (n4 =? 24) || (n100 =? 3))) in
    (year, fst md, snd md).
Proof.
  unfold ord2ymd, month_day. cbv zeta.
  destruct ((_ =? 4) || (_ =? 4)); [reflexivity|].
  destruct (_ >? _); reflexivity.
Qed.

Lemma ord2ymd_round_trip (n : Z) :
  1 <= n <= MAXORDINAL ->
  ymd2ord (fst (fst (ord2ymd n))) (snd (fst (ord2ymd n))) (snd (ord2ymd n)) = n /\
  1 <= fst (fst (ord2ymd n)) <= 9999 /\
  1 <= snd (fst (ord2ymd n)) <= 12 /\
  1 <= snd (ord2ymd n) <= 31.
Proof.
  intros Hn. rewrite ord2ymd_month_day. cbv zeta.
  unfold MAXORDINAL, DI400Y, DI100Y, DI4Y in *.
  set (q400 := (n - 1) / 146097).
  set (r1 := (n - 1) mod 146097).
  set (q100 := r1 / 36524).
  set (r2 := r1 mod 36524).
  set (q4 := r2 / 1461).
  set (r3 := r2 mod 1461).
  set (q1 := r3 / 365).
  set (r := r3 mod 365).
  assert (H1 : n - 1 = 146097 * q400 + r1 /\ 0 <= r1 < 146097).
  { subst q400 r1. split; [apply Z.div_mod; lia|apply Z.mod_pos_bound; lia]. }
  assert (H2 : r1 = 36524 * q100 + r2 /\ 0 <= r2 < 36524).
  { subst q100 r2. split; [apply Z.div_mod; lia|apply Z.mod_pos_bound; lia]. }
  assert (H3 : r2 = 1461 * q4 + r3 /\ 0 <= r3 < 1461).
  { subst q4 r3. split; [apply Z.div_mod; lia|apply Z.mod_pos_bound; lia]. }
  assert (H4 : r3 = 365 * q1 + r /\ 0 <= r < 365).
  { subst q1 r. split; [apply Z.div_mod; lia|apply Z.mod_pos_bound; lia]. }
  clearbody q400 r1 q100 r2 q4 r3 q1 r.
  destruct H1 as [H1 B1], H2 as [H2 B2], H3 as [H3 B3], H4 as [H4 B4].
  assert (Hq : 0 <= q400 <= 24 /\ 0 <= q100 <= 4 /\ 0 <= q4 <= 24 /\ 0 <= q1 <= 4)
    by lia.
  destruct ((q1 =? 4) || (q100 =? 4)) eqn:Hspecial.
  - cbn [fst snd]. unfold ymd2ord, days_before_year, is_leap. cbv zeta.
    change (DAYS_BEFORE_MONTH 12) with 334. change (12 >? 2) with true.
    cbn [andb].
    apply orb_true_iff in Hspecial.
    assert (Hleap : ((q400 * 400 + 1 + q100 * 100 + q4 * 4 + q1 - 1) mod 4 =? 0) &&
                    (negb ((q400 * 400 + 1 + q100 * 100 + q4 * 4 + q1 - 1) mod 100 =? 0)
                     || ((q400 * 400 + 1 + q100 * 100 + q4 * 4 + q1 - 1) mod 400 =? 0))
                    = true).
    { destruct Hspecial as [Hs|Hs]; apply Z.eqb_eq in Hs.
      - apply andb_true_iff. split.
        + apply Z.eqb_eq. Z.div_mod_to_equations. lia.
        + apply orb_true_iff. left. apply negb_true_iff. apply Z.eqb_neq.
          Z.div_mod_to_equations. lia.
      - apply andb_true_iff. split.
        + apply Z.eqb_eq. Z.div_mod_to_equations. lia.
        + apply orb_true_iff. right. apply Z.eqb_eq.
          Z.div_mod_to_equations. lia. }
    rewrite Hleap. cbn [b2z].
    split; [|lia].
    destruct Hspecial as [Hs|Hs]; apply Z.eqb_eq in Hs;
      Z.div_mod_to_equations; lia.
  - apply orb_false_iff in Hspecial. destruct Hspecial as [Hs1 Hs2].
    apply Z.eqb_neq in Hs1, Hs2.
    set (leap := (q1 =? 3) && (negb (q4 =? 24) || (q100 =? 3))).
    pose proof (month_day_checked leap r) as Hmd.
    destruct (month_day r leap) as [m d]. cbn [fst snd].
    assert (Hr : 0 <= r < 365 + b2z leap) by (destruct leap; cbn [b2z]; lia).
    destruct (Hmd Hr) as (Hm & Hd & Hsum).
    assert (Hleap : is_leap (q400 * 400 + 1 + q100 * 100 + q4 * 4 + q1) = leap).
    { unfold is_leap. subst leap.
      destruct (Z.eqb_spec q1 3) as [E1|E1], (Z.eqb_spec q4 24) as [E4|E4],
        (Z.eqb_spec q100 3) as [E100|E100]; cbn [andb orb negb];
        repeat match goal with
               | |- context [?a mod ?b =? 0] =>
                   destruct (Z.eqb_spec (a mod b) 0)
               end; cbn [andb orb negb]; try reflexivity;
        exfalso; Z.div_mod_to_equations; lia. }
    unfold ymd2ord. rewrite Hleap.
    set (k := DAYS_BEFORE_MONTH m + b2z ((m >? 2) && leap)) in *.
    clearbody k.
    split; [|lia].
    unfold days_before_year. cbv zeta. Z.div_mod_to_equations. lia.
Qed.

Lemma digit_char_inj (a b : Z) :
  digit_char a = digit_char b -> a mod 10 = b mod 10.
Proof.
  unfold digit_char. intros H.
  apply (f_equal nat_of_ascii) in H.
  pose proof (Z.mod_pos_bound a 10 ltac:(lia)).
  pose proof (Z.mod_pos_bound b 10 ltac:(lia)).
  rewrite !nat_ascii_embedding in H by lia. lia.
Qed.

Lemma fmt2_inj (a b : Z) :
  0 <= a < 100 -> 0 <= b < 100 -> fmt2 a = fmt2 b -> a = b.
Proof.
  unfold fmt2. intros Ha Hb H. injection H as H1 H0.
  apply digit_char_inj in H1, H0.
  Z.div_mod_to_equations. lia.
Qed.

Lemma fmt4_inj (a b : Z) :
  0 <= a < 10000 -> 0 <= b < 10000 -> fmt4 a = fmt4 b -> a = b.
Proof.
  unfold fmt4, fmt2. intros Ha Hb H. injection H as H3 H2 H1 H0.
  apply digit_char_inj in H3, H2, H1, H0.
  Z.div_mod_to_equations. lia.
Qed.

(** The fields of a date decide its ordinal. *)
Lemma fields_decide_day (d1 d2 : datetime) :
  valid_date d1 -> valid_date d2 ->
  fmt4 (year_of d1) = fmt4 (year_of d2) ->
  fmt2 (month_of d1) = fmt2 (month_of d2) ->
  fmt2 (day_of d1) = fmt2 (day_of d2) ->
  ordinal d1 = ordinal d2.
Proof.
  unfold valid_date, year_of, month_of, day_of. intros H1 H2 Hy Hm Hd.
  destruct (ord2ymd_round_trip (ordinal d1) ltac:(lia)) as (R1 & Y1 & M1 & D1).
  destruct (ord2ymd_round_trip (ordinal d2) ltac:(lia)) as (R2 & Y2 & M2 & D2).
  apply fmt4_inj in Hy; [|lia..].
  apply fmt2_inj in Hm; [|lia..].
  apply fmt2_inj in Hd; [|lia..].
  rewrite <- R1, <- R2, Hy, Hm, Hd. reflexivity.
Qed.

Lemma pdf_path_same_day (output_dir : Path) (d1 d2 : datetime) :
  valid_date d1 -> valid_date d2 ->
  (pdf_path_of output_dir d1 = pdf_path_of output_dir d2 <->
   ordinal d1 = ordinal d2).
Proof.
  intros H1 H2. split.
  - rewrite !pdf_path_of_parts. intros H. apply app_inv_head in H.
    apply (fields_decide_day d1 d2 H1 H2); revert H;
      generalize (fmt4 (year_of d1)) (fmt2 (month_of d1)) (fmt2 (day_of d1))
                 (fmt4 (year_of d2)) (fmt2 (month_of d2)) (fmt2 (day_of d2));
      intros a b c a' b' c' H; congruence.
  - intros H. rewrite !pdf_path_of_parts.
    unfold year_of, month_of, day_of. rewrite H. reflexivity.
Qed.

(** Two days share their artifact path exactly when they are the same
    calendar day: the downloads of different days never overwrite each
    other, and the time of day plays no part. *)
Theorem same_path_same_day (output_dir : Path) (d1 d2 : datetime) :
  valid_date d1 -> valid_date d2 ->
  (pdf_path_of output_dir d1 = pdf_path_of output_dir d2 <->
   ordinal d1 = ordinal d2).
Proof.
  intros H1 H2. split.
  - rewrite !pdf_path_of_parts. intros H. apply app_inv_head in H.
    apply (fields_decide_day d1 d2 H1 H2); revert H;
      generalize (fmt4 (year_of d1)) (fmt2 (month_of d1)) (fmt2 (day_of d1))
                 (fmt4 (year_of d2)) (fmt2 (month_of d2)) (fmt2 (day_of d2));
      intros a b c a' b' c' H; congruence.
  - intros H. rewrite !pdf_path_of_parts.
    unfold year_of, month_of, day_of. rewrite H. reflexivity.
Qed.

Lemma same_path_same_day_witness :
  pdf_path_of ["boe"] (mkDatetime 738892 0) =
    pdf_path_of ["boe"] (mkDatetime 738892 3600000000) <->
  ordinal (mkDatetime 738892 0) = ordinal (mkDatetime 738892 3600000000).
Proof.
  apply (same_path_same_day ["boe"] (mkDatetime 738892 0)
           (mkDatetime 738892 3600000000)).
  - unfold valid_date, MAXORDINAL. cbn [ordinal]. lia.
  - unfold valid_date, MAXORDINAL. cbn [ordinal]. lia.
Defined.

Lemma string_app_inv_head (p s1 s2 : string) :
  (p ++ s1)%string = (p ++ s2)%string -> s1 = s2.
Proof.
  induction p as [|c p IH]; cbv [String.append]; fold String.append; intros H.
  - exact H.
  - injection H as H. exact (IH H).
Qed.

(** The summary URL of a day names the calendar day and nothing else: two
    days are asked at the same URL exactly when they are the same day. *)
Theorem same_url_same_day (d1 d2 : datetime) :
  valid_date d1 -> valid_date d2 ->
  (api_url (strftime_Ymd d1) = api_url (strftime_Ymd d2) <->
   ordinal d1 = ordinal d2).
Proof.
  intros H1 H2. split.
  - unfold api_url, strftime_Ymd. intros H.
    apply string_app_inv_head in H. revert H.
    unfold fmt4, fmt2. cbv [String.append]. intros H.
    injection H as Hy3 Hy2 Hy1 Hy0 Hm1 Hm0 Hd1 Hd0.
    apply (fields_decide_day d1 d2 H1 H2); unfold fmt4, fmt2; congruence.
  - intros H. unfold strftime_Ymd, year_of, month_of, day_of. rewrite H.
    reflexivity.
Qed.

Lemma same_url_same_day_witness :
  api_url (strftime_Ymd (mkDatetime 738892 0)) =
    api_url (strftime_Ymd (mkDatetime 738892 3600000000)) <->
  ordinal (mkDatetime 738892 0) = ordinal (mkDatetime 738892 3600000000).
Proof.
  apply (same_url_same_day (mkDatetime 738892 0) (mkDatetime 738892 3600000000)).
  - unfold valid_date, MAXORDINAL. cbn [ordinal]. lia.
  - unfold valid_date, MAXORDINAL. cbn [ordinal]. lia.
Defined.

(** ** The days of a run and their files *)

Lemma days_from_in (start : datetime) (n : nat) (d : datetime) :
  In d (days_from start n) ->
  usec d = usec start /\
  ordinal start <= ordinal d < ordinal start + Z.of_nat n.
Proof.
  unfold days_from. intros H. apply in_map_iff in H as (i & <- & Hi).
  apply in_seq in Hi. cbn [ordinal usec]. split; [reflexivity|lia].
Qed.

Lemma days_from_NoDup (start : datetime) (n : nat) : List.NoDup (days_from start n).
Proof.
  unfold days_from. apply NoDup_map_NoDup_ForallPairs; [|apply seq_NoDup].
  intros i j _ _ H. injection H as H. lia.
Qed.

(** No two days of a run share their artifact path: the tasks that
    [gather] runs side by side never write the same file. *)
Theorem run_days_have_distinct_paths (start_date end_date : datetime)
    (output_dir : Path) (dates : list datetime) :
  valid_date start_date -> valid_date end_date ->
  generate_dates start_date end_date [] = inr dates ->
  List.NoDup (List.map (pdf_path_of output_dir) dates).
Proof.
  intros Hs He Hgen. unfold valid_date in *.
  rewrite (generate_dates_from (Z.to_nat (day_count start_date end_date))) in Hgen;
    [|lia|unfold day_count; lia].
  destruct (_ && _); [discriminate|]. injection Hgen as <-. cbn [app].
  apply NoDup_map_NoDup_ForallPairs; [|apply days_from_NoDup].
  intros d1 d2 H1 H2 Hpath.
  apply days_from_in in H1 as [Hu1 Ho1], H2 as [Hu2 Ho2].
  assert (Hcount : day_count start_date end_date <=
                   ordinal end_date - ordinal start_date + 1 \/
                   day_count start_date end_date = 0).
  { unfold day_count. destruct (usec start_date <=? usec end_date); lia. }
  assert (Hv1 : valid_date d1) by (unfold valid_date; lia).
  assert (Hv2 : valid_date d2) by (unfold valid_date; lia).
  pose proof (proj1 (pdf_path_same_day output_dir d1 d2 Hv1 Hv2) Hpath) as Hord.
  destruct d1 as [o1 u1], d2 as [o2 u2]. cbn [ordinal usec] in *. congruence.
Qed.

Lemma run_days_have_distinct_paths_witness :
  List.NoDup (List.map (pdf_path_of ["boe"])
           [mkDatetime 738892 0; mkDatetime 738893 0; mkDatetime 738894 0]).
Proof.
  apply (run_days_have_distinct_paths (mkDatetime 738892 0) (mkDatetime 738894 0)
           ["boe"]
           [mkDatetime 738892 0; mkDatetime 738893 0; mkDatetime 738894 0]).
  - unfold valid_date, MAXORDINAL. cbn [ordinal]. lia.
  - unfold valid_date, MAXORDINAL. cbn [ordinal]. lia.
  - vm_compute. reflexivity.
Defined.
